(** * A2A autoscaling runtime: orchestration, reliability and task streaming

    A shallow embedding of the orchestration engine of the repository
    (plan execution, context propagation, response synthesis, the transport
    send path), of the circuit breaker of the reliability layer and of the
    streaming adapter of the calculator agent, followed by the properties
    established about them.

    Conventions.
    - Python [int] is [Z]; wall-clock readings and durations (Python [float])
      are idealised as rationals [Q]: only comparison and subtraction of
      clock readings are used.
    - Python [str] is [string]; characters are those of [ascii].
    - An exception is a value of [Exn]; code that may raise returns
      [Exc A = Exn + A]; [try ... except Exception] is [try_except].
      Only subclasses of [Exception] are represented.
    - The network, the LLM and the clock are oracles over an abstract
      world [W], threaded explicitly. *)

From Stdlib Require Import ZArith QArith Bool List Lia.
From Stdlib Require Import Ascii String DecimalString.
From stdpp Require Import gmap strings list.

Import ListNotations.

(** ** Python values and exceptions *)

Module Py.

Record Exn := mkExn { exn_type : string; exn_str : string }.

Definition Exc (A : Type) : Type := (Exn + A)%type.

Definition ret {A} (a : A) : Exc A := inr a.
Definition raise {A} (e : Exn) : Exc A := inl e.

Definition bind {A B} (m : Exc A) (k : A -> Exc B) : Exc B :=
  match m with
  | inl e => inl e
  | inr a => k a
  end.

(** [try: body  except Exception as e: handler e] *)
Definition try_except {A} (body : Exc A) (handler : Exn -> Exc A) : Exc A :=
  match body with
  | inl e => handler e
  | inr a => inr a
  end.

Definition KeyError (key : string) : Exn :=
  mkExn "KeyError" ("'" +:+ key +:+ "'").

(** The interpreter's own errors; their message text is schematic. *)
Definition TypeError (what : string) : Exn := mkExn "TypeError" what.
Definition IndexError (what : string) : Exn := mkExn "IndexError" what.
Definition AttributeError (what : string) : Exn := mkExn "AttributeError" what.

(** [a and b] over conditions that may raise: [b] is not evaluated when
    [a] is false. *)
Definition and_then (a b : Exc bool) : Exc bool :=
  match a with
  | inl e => inl e
  | inr true => b
  | inr false => inr false
  end.

(** A [for] loop whose body may raise, over the loop state [s]. *)
Fixpoint for_each {A S : Type} (l : list A) (s : S) (body : S -> A -> Exc S) : Exc S :=
  match l with
  | [] => inr s
  | x :: rest =>
      match body s x with
      | inl e => inl e
      | inr s' => for_each rest s' body
      end
  end.

(** *** Strings *)

Definition nl : string := String (ascii_of_nat 10) EmptyString.
Definition dquote : string := String (ascii_of_nat 34) EmptyString.

(** [s[:n]] *)
Definition str_prefix (n : nat) (s : string) : string := substring 0 n s.

(** [sep.join(parts)] *)
Definition join (sep : string) (parts : list string) : string := String.concat sep parts.

(** [needle in hay] on strings *)
Fixpoint is_substring (needle hay : string) : bool :=
  String.prefix needle hay ||
  match hay with
  | EmptyString => false
  | String _ rest => is_substring needle rest
  end.

(** [str.isspace] on a character of code below 256 *)
Definition is_space (c : ascii) : bool :=
  let n := nat_of_ascii c in
  ((9 <=? n)%nat && (n <=? 13)%nat) || ((28 <=? n)%nat && (n <=? 32)%nat)
  || (n =? 133)%nat || (n =? 160)%nat.

Fixpoint lstrip (s : string) : string :=
  match s with
  | EmptyString => EmptyString
  | String c rest => if is_space c then lstrip rest else s
  end.

Definition reverse (s : string) : string :=
  string_of_list_ascii (List.rev (list_ascii_of_string s)).

(** [s.strip()] *)
Definition strip (s : string) : string :=
  reverse (lstrip (reverse (lstrip s))).

(** [str(n)] for a natural number *)
Definition str_of_nat (n : nat) : string := NilEmpty.string_of_uint (Nat.to_uint n).

Definition nonempty (s : string) : bool :=
  match s with
  | EmptyString => false
  | String _ _ => true
  end.

(** *** JSON values as Python objects *)

#[local] Unset Elimination Schemes.
Inductive json :=
| JNull
| JBool (b : bool)
| JInt (z : Z)
| JFloat (q : Q)
| JStr (s : string)
| JList (l : list json)
| JDict (kv : list (string * json)).
#[local] Set Elimination Schemes.

Fixpoint dict_get {V : Type} (k : string) (kv : list (string * V)) : option V :=
  match kv with
  | [] => None
  | (k', v) :: rest => if String.eqb k k' then Some v else dict_get k rest
  end.

Definition type_name (v : json) : string :=
  match v with
  | JNull => "NoneType"
  | JBool _ => "bool"
  | JInt _ => "int"
  | JFloat _ => "float"
  | JStr _ => "str"
  | JList _ => "list"
  | JDict _ => "dict"
  end.

(** [bool(v)] *)
Definition truthy (v : json) : bool :=
  match v with
  | JNull => false
  | JBool b => b
  | JInt z => negb (z =? 0)%Z
  | JFloat q => negb (Qeq_bool q 0)
  | JStr s => nonempty s
  | JList l => match l with [] => false | _ => true end
  | JDict kv => match kv with [] => false | _ => true end
  end.

(** [v == 'k'] *)
Definition eq_str (v : json) (k : string) : bool :=
  match v with
  | JStr s => String.eqb s k
  | _ => false
  end.

(** ['k' in v] *)
Definition contains_str (k : string) (v : json) : Exc bool :=
  match v with
  | JDict kv => ret (match dict_get k kv with Some _ => true | None => false end)
  | JList l => ret (existsb (fun x => eq_str x k) l)
  | JStr s => ret (is_substring k s)
  | _ => raise (TypeError ("argument of type '" +:+ type_name v +:+ "' is not iterable"))
  end.

(** [v['k']] *)
Definition getitem_str (v : json) (k : string) : Exc json :=
  match v with
  | JDict kv =>
      match dict_get k kv with
      | Some x => ret x
      | None => raise (KeyError k)
      end
  | JList _ => raise (TypeError "list indices must be integers or slices, not str")
  | JStr _ => raise (TypeError "string indices must be integers, not 'str'")
  | _ => raise (TypeError ("'" +:+ type_name v +:+ "' object is not subscriptable"))
  end.

(** [v[0]] *)
Definition getitem_0 (v : json) : Exc json :=
  match v with
  | JList (x :: _) => ret x
  | JList [] => raise (IndexError "list index out of range")
  | JStr (String c _) => ret (JStr (String c EmptyString))
  | JStr EmptyString => raise (IndexError "string index out of range")
  | JDict _ => raise (mkExn "KeyError" "0")
  | _ => raise (TypeError ("'" +:+ type_name v +:+ "' object is not subscriptable"))
  end.

(** [for x in v] *)
Definition iterate (v : json) : Exc (list json) :=
  match v with
  | JList l => ret l
  | JDict kv => ret (List.map (fun p => JStr (fst p)) kv)
  | JStr s => ret (List.map (fun c => JStr (String c EmptyString)) (list_ascii_of_string s))
  | _ => raise (TypeError ("'" +:+ type_name v +:+ "' object is not iterable"))
  end.

(** [v.strip()] *)
Definition strip_of (v : json) : Exc string :=
  match v with
  | JStr s => ret (strip s)
  | _ => raise (AttributeError ("'" +:+ type_name v +:+ "' object has no attribute 'strip'"))
  end.

(** [v[:n]] *)
Definition slice_to (n : nat) (v : json) : Exc json :=
  match v with
  | JStr s => ret (JStr (str_prefix n s))
  | JList l => ret (JList (firstn n l))
  | JDict _ => raise (TypeError "unhashable type: 'slice'")
  | _ => raise (TypeError ("'" +:+ type_name v +:+ "' object is not subscriptable"))
  end.

Definition is_dict (v : json) : bool :=
  match v with
  | JDict _ => true
  | _ => false
  end.

Definition is_str (v : json) : bool :=
  match v with
  | JStr _ => true
  | _ => false
  end.

End Py.

Import Py.

Declare Scope exc_scope.
Delimit Scope exc_scope with exc.
Notation "'let*' x ':=' m 'in' k" := (Py.bind m (fun x => k))
  (at level 10, x name, m at level 100, k at level 200) : exc_scope.

(** ** Reliability layer: the circuit breaker (src/common/reliability.py) *)

Module Reliability.

Inductive CircuitState := CLOSED | OPEN | HALF_OPEN.

Record CircuitBreakerConfig := mkConfig {
  failure_threshold : Z;
  recovery_timeout : Q;
  expected_exception_types : Exn -> bool;
  name : string
}.

(** The dataclass defaults: 5 failures, 60 s, [(Exception,)], "default". *)
Definition default_config : CircuitBreakerConfig :=
  mkConfig 5 60 (fun _ => true) "default".

Record CircuitBreaker := mkBreaker {
  config : CircuitBreakerConfig;
  state : CircuitState;
  failure_count : Z;
  last_failure_time : option Q
}.

(** [CircuitBreaker.__init__] *)
Definition new_breaker (cfg : CircuitBreakerConfig) : CircuitBreaker :=
  mkBreaker cfg CLOSED 0 None.

Definition set_state (b : CircuitBreaker) (s : CircuitState) : CircuitBreaker :=
  mkBreaker (config b) s (failure_count b) (last_failure_time b).

Definition CircuitBreakerOpenException (n : string) : Exn :=
  mkExn "CircuitBreakerOpenException" ("Circuit breaker " +:+ n +:+ " is OPEN").

(** [_should_attempt_reset]; [now] is the reading of [time.time()]. *)
Definition _should_attempt_reset (b : CircuitBreaker) (now : Q) : bool :=
  match last_failure_time b with
  | None => true
  | Some t => Qle_bool (recovery_timeout (config b)) (now - t)
  end.

(** [_on_success] *)
Definition _on_success (b : CircuitBreaker) : CircuitBreaker :=
  mkBreaker (config b) CLOSED 0 (last_failure_time b).

(** [_on_failure]; [now] is the reading of [time.time()]. *)
Definition _on_failure (b : CircuitBreaker) (now : Q) : CircuitBreaker :=
  let count := (failure_count b + 1)%Z in
  mkBreaker (config b)
    (if (failure_threshold (config b) <=? count)%Z then OPEN else state b)
    count (Some now).

Section Call.

Context {W : Type}.
Variable time_time : W -> Q.

(** The part of [call] before [yield]: the gate of an open breaker. *)
Definition enter (b : CircuitBreaker) (w : W) : Exc CircuitBreaker :=
  match state b with
  | OPEN =>
      if _should_attempt_reset b (time_time w)
      then ret (set_state b HALF_OPEN)
      else raise (CircuitBreakerOpenException (name (config b)))
  | _ => ret b
  end.

(** The part of [call] after [yield]: [out] is what the wrapped body did,
    [w] the world it left behind. *)
Definition leave {A} (b : CircuitBreaker) (out : Exc A) (w : W)
  : Exc A * CircuitBreaker * W :=
  match out with
  | inr a => (inr a, _on_success b, w)
  | inl e =>
      if expected_exception_types (config b) e
      then (inl e, _on_failure b (time_time w), w)
      else (inl e, b, w)
  end.

(** [async with breaker.call(): body] *)
Definition call {A} (b : CircuitBreaker) (body : W -> Exc A * W) (w : W)
  : Exc A * CircuitBreaker * W :=
  match enter b w with
  | inl e => (inl e, b, w)
  | inr b1 => let (out, w1) := body w in leave b1 out w1
  end.

End Call.

(** [n] successful operations in a row. *)
Fixpoint successes (n : nat) (b : CircuitBreaker) : CircuitBreaker :=
  match n with
  | O => b
  | S k => successes k (_on_success b)
  end.

(** Counted failures in a row, one per clock reading. *)
Fixpoint failures (times : list Q) (b : CircuitBreaker) : CircuitBreaker :=
  match times with
  | [] => b
  | t :: rest => failures rest (_on_failure b t)
  end.

End Reliability.

(** *** Concrete runs of the breaker *)

Module ReliabilityRuns.

Import Reliability.

(** A breaker with the default configuration that opened at time 100. *)
Definition opened_at_100 : CircuitBreaker := mkBreaker default_config OPEN 5 (Some 100%Q).

(** A wrapped operation that counts its executions in the world. *)
Definition counting_body (w : Q * nat) : Exc unit * (Q * nat) :=
  (inr tt, (fst w, S (snd w))).

(** A wrapped operation that takes a second and fails. *)
Definition refused : Exn := mkExn "ConnectionRefusedError" "connection refused".
Definition failing_body (w : Q * nat) : Exc unit * (Q * nat) :=
  (inl refused, ((fst w + 1)%Q, S (snd w))).

(** A closed breaker one failure short of the default threshold. *)
Definition one_short : CircuitBreaker := mkBreaker default_config CLOSED 4 None.

(** Clock readings of four, and of five, failures in a row. *)
Definition four_times : list Q := [1%Q; 2%Q; 3%Q; 4%Q].
Definition five_times : list Q := four_times ++ [5%Q].

End ReliabilityRuns.

(** ** Streaming adapter of the calculator agent
       (src/agents/calculator/agent_executor.py) *)

Module CalculatorExecutor.

Inductive TaskState :=
  submitted | working | input_required | completed | failed | canceled.

(** One item yielded by [CalculatorAgent.stream]. *)
Record Item := mkItem {
  content : string;
  is_task_complete : bool;
  require_user_input : bool
}.

(** The agent's generator when driven to its end: the items it yields, in
    order, and whether it then stops ([None]) or raises ([Some e]). The
    executor pulls the items one at a time and may stop pulling early. *)
Record Stream := mkStream {
  items : list Item;
  ending : option Exn
}.

(** What the [TaskUpdater] puts on the event queue:
    [update_status(state, message, final)], [add_artifact(parts, name)],
    and [complete()], which is the final status [completed] without a
    message. *)
Inductive Event :=
| StatusUpdate (st : TaskState) (message : option string) (final : bool)
| ArtifactAdded (artifact_name : string) (text : string).

Definition ServerError_InternalError : Exn := mkExn "ServerError" "InternalError".

(** The [async for item in self.agent.stream(...)] loop; [queue] is the
    event queue so far. *)
Fixpoint consume (its : list Item) (ending : option Exn) (queue : list Event)
  : Exc unit * list Event :=
  match its with
  | [] =>
      match ending with
      | None => (ret tt, queue)
      | Some e => (raise e, queue)
      end
  | item :: rest =>
      if negb (is_task_complete item) && negb (require_user_input item) then
        consume rest ending
          (queue ++ [StatusUpdate working (Some (content item)) false])
      else if require_user_input item then
        (ret tt, queue ++ [StatusUpdate input_required (Some (content item)) true])
      else
        (ret tt, queue ++ [ArtifactAdded "calculation_result" (content item);
                           StatusUpdate completed None true])
  end.

(** The [try ... except Exception] of [execute] around the loop. *)
Definition execute (s : Stream) (queue : list Event) : Exc unit * list Event :=
  match consume (items s) (ending s) queue with
  | (inr u, q) => (inr u, q)
  | (inl e, q) =>
      (raise ServerError_InternalError,
       q ++ [StatusUpdate failed (Some ("Calculation failed: " +:+ exn_str e)) true])
  end.

(** The state a queue of events leaves the task in: that of the last
    status update. *)
Fixpoint task_state (queue : list Event) : option TaskState :=
  match queue with
  | [] => None
  | StatusUpdate st _ _ :: rest =>
      match task_state rest with
      | Some st' => Some st'
      | None => Some st
      end
  | ArtifactAdded _ _ :: rest => task_state rest
  end.

Definition is_artifact (ev : Event) : bool :=
  match ev with
  | ArtifactAdded _ _ => true
  | StatusUpdate _ _ _ => false
  end.

(** An item that neither completes the task nor asks for input. *)
Definition in_progress (item : Item) : bool :=
  negb (is_task_complete item) && negb (require_user_input item).

(** The working updates of a run of in-progress items. *)
Definition working_updates (its : list Item) : list Event :=
  List.map (fun item => StatusUpdate working (Some (content item)) false) its.

(** The calculator's stream for an expression it can evaluate, and for one
    that fails inside the generator after the first progress item. *)
Definition stream_completed : Stream :=
  mkStream [mkItem "Analyzing mathematical expression..." false false;
            mkItem "15 + 27 = 42" true false] None.

Definition stream_raising : Stream :=
  mkStream [mkItem "Analyzing mathematical expression..." false false]
           (Some (mkExn "RuntimeError" "evaluator crashed")).

End CalculatorExecutor.

(** ** The orchestrator of the Streamlit client (streamlit_a2a_app.py) *)

Module Orchestrator.

(** The dictionary an agent call is reported as. A key that is absent is
    [None]; every dictionary the code builds has ["success"]. *)
Record AgentResult := mkResult {
  success : bool;
  error : option json;
  response : option json;
  content : option json;
  raw_response : option json;
  context_id : option string;
  timestamp : option string
}.

Record ExecutionStep := mkStep {
  agent : string;
  task : string;
  dependencies : list string
}.

Record ExecutionPlan := mkPlan {
  steps : list ExecutionStep;
  execution_type : string
}.

(** A Python [dict] keyed by agent id: iteration follows the order in
    which keys were first inserted, and [d[k] = v] on a present key
    replaces the value in place. *)
Definition Results : Type := list (string * AgentResult).

Fixpoint dict_set {V : Type} (d : list (string * V)) (k : string) (v : V)
  : list (string * V) :=
  match d with
  | [] => [(k, v)]
  | (k', v') :: rest =>
      if String.eqb k k' then (k, v) :: rest else (k', v') :: dict_set rest k v
  end.


Section Oracles.

Context {W : Type}.

(** [transport w url message]: everything [_send_message_async] does on
    the network for one message (creating the HTTP client, resolving the
    agent card when it is not cached, the POST, [raise_for_status] and
    [response.json()]): either one of these raises or a JSON body comes
    back. *)
Variable transport : W -> string -> string -> Exc json * W.
(** [str(uuid4())] and [datetime.now().isoformat()] *)
Variable uuid4 : W -> string.
Variable now_isoformat : W -> string.
(** [str(v)] on a JSON value that is not a string *)
Variable repr : json -> string.
(** [llm_client.complete(prompt, max_tokens)] *)
Variable llm_complete : W -> string -> Z -> Exc string * W.

(** [f"{v}"] *)
Definition format (v : json) : string :=
  match v with
  | JStr s => s
  | _ => repr v
  end.

(** ['kind' in part and part['kind'] == 'text' and 'text' in part], with
    the tag key [kind] or [type]. *)
Definition is_text_part (tag : string) (part : json) : Exc bool :=
  and_then (contains_str tag part)
    (and_then (bind (getitem_str part tag) (fun k => ret (eq_str k "text")))
       (contains_str "text" part)).

(** ['parts' in v and v['parts']] *)
Definition has_parts (v : json) : Exc bool :=
  and_then (contains_str "parts" v)
    (bind (getitem_str v "parts") (fun ps => ret (truthy ps))).

(** Path 1: the texts of all artifacts of a task. *)
Definition collect_part_texts (texts : list string) (artifact : json)
  : Exc (list string) :=
  (let* with_parts := has_parts artifact in
   if with_parts : bool then
     let* parts_value := getitem_str artifact "parts" in
     let* parts := iterate parts_value in
     for_each parts texts (fun acc part =>
       let* textual := is_text_part "kind" part in
       if textual : bool then
         let* raw := getitem_str part "text" in
         let* text := strip_of raw in
         if nonempty text then ret (acc ++ [text]) else ret acc
       else ret acc)
   else ret texts)%exc.

Definition artifacts_content (result : json) : Exc (option json) :=
  (let* present := and_then (contains_str "artifacts" result)
                     (bind (getitem_str result "artifacts")
                        (fun a => ret (truthy a))) in
   if present : bool then
     let* artifacts_value := getitem_str result "artifacts" in
     let* artifacts := iterate artifacts_value in
     let* artifact_texts := for_each artifacts [] collect_part_texts in
     match artifact_texts with
     | [] => ret None
     | _ => ret (Some (JStr (join nl artifact_texts)))
     end
   else ret None)%exc.

Definition falsy (c : option json) : bool :=
  match c with
  | None => true
  | Some v => negb (truthy v)
  end.

(** Path 2: the text of the status message. *)
Definition status_content (result : json) (c : option json) : Exc (option json) :=
  (let* try_status := and_then (ret (falsy c)) (contains_str "status" result) in
   if try_status : bool then
     let* status := getitem_str result "status" in
     let* with_message := and_then (ret (is_dict status)) (contains_str "message" status) in
     if with_message : bool then
       let* message_obj := getitem_str status "message" in
       let* with_parts := has_parts message_obj in
       if with_parts : bool then
         let* parts := getitem_str message_obj "parts" in
         let* part := getitem_0 parts in
         let* with_text := contains_str "text" part in
         if with_text : bool then
           let* text := getitem_str part "text" in ret (Some text)
         else ret c
       else ret c
     else ret c
   else ret c)%exc.

(** Path 3: a direct message, [result.parts[0].text]. *)
Definition direct_content (result : json) (c : option json) : Exc (option json) :=
  (let* try_parts := and_then (ret (falsy c)) (has_parts result) in
   if try_parts : bool then
     let* parts := getitem_str result "parts" in
     let* part := getitem_0 parts in
     let* typed := is_text_part "type" part in
     if typed : bool then
       let* text := getitem_str part "text" in ret (Some text)
     else
       let* kinded := is_text_part "kind" part in
       if kinded : bool then
         let* text := getitem_str part "text" in ret (Some text)
       else ret c
   else ret c)%exc.

Definition extract_content (json_response : json) : Exc (option json) :=
  match json_response with
  | JDict top =>
      match dict_get "result" top with
      | Some (JDict _ as result) =>
          (let* c1 := artifacts_content result in
           let* c2 := status_content result c1 in
           direct_content result c2)%exc
      | _ => ret None
      end
  | _ => ret None
  end.

(** The body of the [try] of [_send_message_async] once the JSON body is
    there. *)
Definition parse_response (json_response : json) : Exc AgentResult :=
  (let* has_error := contains_str "error" json_response in
   if has_error : bool then
     let* err := getitem_str json_response "error" in
     let* message := getitem_str err "message" in
     ret (mkResult false (Some message) (Some json_response) None None None None)
   else
     let* c := extract_content json_response in
     match c with
     | Some v =>
         if truthy v
         then ret (mkResult true None (Some v) (Some v) (Some json_response) None None)
         else
           let response_str := JStr (repr json_response) in
           ret (mkResult true None (Some response_str) (Some response_str)
                  (Some json_response) None None)
     | None =>
         let response_str := JStr (repr json_response) in
         ret (mkResult true None (Some response_str) (Some response_str)
                (Some json_response) None None)
     end)%exc.

(** [context_id or str(uuid4())] *)
Definition context_or_fresh (ctx : option string) (w : W) : string :=
  match ctx with
  | Some c => if nonempty c then c else uuid4 w
  | None => uuid4 w
  end.

(** The [except Exception as e] of [_send_message_async]. *)
Definition transport_failure (e : Exn) (ctx : option string) (w : W) : AgentResult :=
  let error_msg := "Error communicating with agent: " +:+ exn_str e in
  mkResult false (Some (JStr (exn_str e))) (Some (JStr error_msg))
    (Some (JStr error_msg)) None (Some (context_or_fresh ctx w))
    (Some (now_isoformat w)).

Definition _send_message_async (w : W) (agent_url message : string)
  (ctx : option string) : Exc AgentResult * W :=
  let (body, w1) := transport w agent_url message in
  (try_except (bind body parse_response)
     (fun e => ret (transport_failure e ctx w1)),
   w1).

(** [send_message]: the coroutine run on a loop of its own in a worker
    thread; its result, or its exception, is handed back unchanged. *)
Definition send_message (w : W) (agent_url message : string) : Exc AgentResult * W :=
  _send_message_async w agent_url message None.

(** The [except Exception as e] of [_send_a2a_message]. *)
Definition send_failure (e : Exn) : AgentResult :=
  let error_msg := "Error communicating with agent: " +:+ exn_str e in
  mkResult false (Some (JStr (exn_str e))) (Some (JStr error_msg))
    (Some (JStr error_msg)) None None None.

(** The [try]/[except] of [_send_a2a_message] around whatever the
    client's [send_message] did. *)
Definition guard_send (outcome : Exc AgentResult) : Exc AgentResult :=
  try_except outcome (fun e => ret (send_failure e)).

Definition _send_a2a_message (w : W) (agent_url message_text : string)
  : Exc AgentResult * W :=
  let (outcome, w1) := send_message w agent_url message_text in
  (guard_send outcome, w1).

(** One turn of the loop of [_enhance_task_with_context]. *)
Definition add_context_part (results : Results) (context_parts : list string)
  (dep : string) : Exc (list string) :=
  match dict_get dep results with
  | Some r =>
      if success r then
        let response_text := match response r with Some v => v | None => JStr "" end in
        if truthy response_text then
          (let* excerpt := slice_to 200 response_text in
           ret (context_parts ++ [dep +:+ "_result: " +:+ format excerpt]))%exc
        else ret context_parts
      else ret context_parts
  | None => ret context_parts
  end.

Definition _enhance_task_with_context (task0 : string) (deps : list string)
  (results : Results) : Exc string :=
  match deps, results with
  | [], _ => ret task0
  | _, [] => ret task0
  | _, _ =>
      (let* context_parts := for_each deps [] (add_context_part results) in
       match context_parts with
       | [] => ret task0
       | _ =>
           ret (task0 +:+ nl +:+ nl +:+ "Context from previous steps:" +:+ nl
                +:+ join nl context_parts)
       end)%exc
  end.

Definition agent_not_available (a : string) : AgentResult :=
  mkResult false (Some (JStr ("Agent " +:+ a +:+ " not available")))
    None None None None None.

(** The [sequential] branch of [execute_plan], from the results and the
    world reached so far. *)
Fixpoint execute_sequential (agent_clients : gmap string string)
  (todo : list ExecutionStep) (results : Results) (w : W) : Exc Results * W :=
  match todo with
  | [] => (ret results, w)
  | step :: rest =>
      match _enhance_task_with_context (task step) (dependencies step) results with
      | inl e => (inl e, w)
      | inr enhanced_task =>
          match agent_clients !! agent step with
          | Some url =>
              let (outcome, w1) := _send_a2a_message w url enhanced_task in
              match outcome with
              | inl e => (inl e, w1)
              | inr result =>
                  execute_sequential agent_clients rest
                    (dict_set results (agent step) result) w1
              end
          | None =>
              execute_sequential agent_clients rest
                (dict_set results (agent step) (agent_not_available (agent step))) w
          end
      end
  end.

(** The [parallel] branch, first loop: one task per step without
    dependencies whose agent has a client. [_send_a2a_message] does not
    await anything (the client call blocks its thread), so once the
    collecting loop awaits, the tasks run to completion one after the
    other in the order of their creation. *)
Fixpoint run_tasks (agent_clients : gmap string string)
  (todo : list ExecutionStep) (w : W) : list (string * Exc AgentResult) * W :=
  match todo with
  | [] => ([], w)
  | step :: rest =>
      match dependencies step, agent_clients !! agent step with
      | [], Some url =>
          let (outcome, w1) := _send_a2a_message w url (task step) in
          let (others, w2) := run_tasks agent_clients rest w1 in
          ((agent step, outcome) :: others, w2)
      | _, _ => run_tasks agent_clients rest w
      end
  end.

(** The [parallel] branch, second loop: [await task] under its
    [try]/[except]. *)
Fixpoint collect_tasks (tasks : list (string * Exc AgentResult)) (results : Results)
  : Results :=
  match tasks with
  | [] => results
  | (agent_name, outcome) :: rest =>
      let result :=
        match outcome with
        | inr r => r
        | inl e => mkResult false (Some (JStr (exn_str e))) None None None None None
        end in
      collect_tasks rest (dict_set results agent_name result)
  end.

Definition execute_plan (plan : ExecutionPlan) (agent_clients : gmap string string)
  (w : W) : Exc Results * W :=
  if String.eqb (execution_type plan) "sequential" then
    execute_sequential agent_clients (steps plan) [] w
  else if String.eqb (execution_type plan) "parallel" then
    let (tasks, w1) := run_tasks agent_clients (steps plan) w in
    (ret (collect_tasks tasks []), w1)
  else (ret [], w).

(** [response_content] as text: itself when a [str], else [str(...)]. *)
Definition as_text (v : json) : string :=
  match v with
  | JStr s => s
  | _ => repr v
  end.

Definition get_or (d : string) (v : option json) : json :=
  match v with
  | Some x => x
  | None => JStr d
  end.

(** The prompt of the multi-agent synthesis. *)
Definition prompt_line (agent_result : string * AgentResult) : string :=
  let (a, result) := agent_result in
  if success result then
    nl +:+ a +:+ ": " +:+ str_prefix 300 (as_text (get_or "No response" (response result)))
  else
    nl +:+ a +:+ ": Error - " +:+ format (get_or "Unknown error" (error result)).

Definition synthesis_prompt (query : string) (results : Results) : string :=
  let head :=
    nl +:+ "        Original Query: " +:+ dquote +:+ query +:+ dquote +:+ nl +:+ nl
    +:+ "        Results from multiple agents:" +:+ nl +:+ "        " in
  let body := fold_left (fun acc ar => acc +:+ prompt_line ar) results head in
  body +:+ nl +:+ nl
  +:+ "        Synthesize these results into a coherent, comprehensive response that fully answers the original query."
  +:+ nl
  +:+ "        Include specific details and actionable recommendations."
  +:+ nl +:+ "        ".

(** The fallback of [synthesize_response]: one turn of its loop. *)
Definition add_response_part (response_parts : list string)
  (agent_result : string * AgentResult) : list string :=
  let (a, result) := agent_result in
  if success result then
    response_parts
    ++ ["**" +:+ a +:+ "**: " +:+ as_text (get_or "" (response result))]
  else response_parts.

Definition fallback_synthesis (results : Results) : string :=
  match fold_left add_response_part results [] with
  | [] => "No successful responses received"
  | response_parts => join (nl +:+ nl) response_parts
  end.

Definition synthesize_response (query : string) (results : Results) (w : W)
  : Exc string * W :=
  match results with
  | [(_, agent_result)] =>
      if success agent_result then
        (ret (as_text (get_or "No response available" (response agent_result))), w)
      else
        (ret ("Error: " +:+ format (get_or "Unknown error" (error agent_result))), w)
  | _ =>
      let (synthesized, w1) := llm_complete w (synthesis_prompt query results) 1000 in
      (try_except synthesized (fun _ => ret (fallback_synthesis results)), w1)
  end.

(** *** The context block and the fallback synthesis, stated directly *)

(** A declared dependency contributes a line when it has a result that
    succeeded and whose response is not empty. *)
Definition qualifies (results : Results) (dep : string) : bool :=
  match dict_get dep results with
  | Some r => success r && truthy (get_or "" (response r))
  | None => false
  end.

(** The first 200 characters of a response, as they appear in the line. *)
Definition excerpt (v : json) : string :=
  match slice_to 200 v with
  | inr x => format x
  | inl _ => EmptyString
  end.

Definition context_line (results : Results) (dep : string) : string :=
  match dict_get dep results with
  | Some r => dep +:+ "_result: " +:+ excerpt (get_or "" (response r))
  | None => EmptyString
  end.

Definition context_lines (results : Results) (deps : list string) : list string :=
  List.map (context_line results) (List.filter (qualifies results) deps).

(** A value [v[:200]] is defined on, or one that is never sliced. *)
Definition sliceable (v : json) : bool :=
  match v with
  | JStr _ | JList _ => true
  | _ => negb (truthy v)
  end.

(** A result whose response, if it succeeded, is text (or a list). *)
Definition presentable (r : AgentResult) : bool :=
  negb (success r) || sliceable (get_or "" (response r)).

(** The entry of a result in the fallback synthesis. *)
Definition response_entry (agent_result : string * AgentResult) : string :=
  "**" +:+ fst agent_result +:+ "**: "
  +:+ as_text (get_or "" (response (snd agent_result))).

Definition successful (results : Results) : Results :=
  List.filter (fun agent_result => success (snd agent_result)) results.

End Oracles.

End Orchestrator.

(** *** A small world to run the orchestrator in *)

Module OrchestratorRuns.

Import Orchestrator.

(** The world is the log of the messages sent so far, as (url, text). *)
Definition Log : Type := list (string * string).

(** A completed task with one text artifact. *)
Definition text_task (text : string) : json :=
  JDict [("jsonrpc", JStr "2.0"); ("id", JStr "1");
         ("result",
          JDict [("artifacts",
                  JList [JDict [("parts",
                                 JList [JDict [("kind", JStr "text");
                                               ("text", JStr text)]])]])])].

(** Three agents answer; any other address cannot be reached. *)
Definition transport (log : Log) (url message : string) : Exc json * Log :=
  let log1 := log ++ [(url, message)] in
  if String.eqb url "http://research" then
    (inr (text_task "Tokyo has 14 million inhabitants"), log1)
  else if String.eqb url "http://calculator" then (inr (text_task "42"), log1)
  else if String.eqb url "http://weather" then (inr (text_task "Sunny, 21 C"), log1)
  else (inl (mkExn "ConnectError" "All connection attempts failed"), log1).

(** A research agent that breaks the schema: the text of its status
    message is a number. *)
Definition transport_untyped (log : Log) (url message : string) : Exc json * Log :=
  let log1 := log ++ [(url, message)] in
  if String.eqb url "http://research" then
    (inr (JDict [("jsonrpc", JStr "2.0"); ("id", JStr "1");
                 ("result",
                  JDict [("status",
                          JDict [("message",
                                  JDict [("parts",
                                          JList [JDict [("kind", JStr "text");
                                                        ("text", JInt 5)]])])])])]),
     log1)
  else transport log url message.

Definition uuid4 (_ : Log) : string := "00000000-0000-4000-8000-000000000000".
Definition now_isoformat (_ : Log) : string := "2025-01-01T00:00:00".
Definition repr (_ : json) : string := "<json>".

(** An LLM client whose [complete] raises. *)
Definition llm_down (log : Log) (prompt : string) (max_tokens : Z) : Exc string * Log :=
  (inl (mkExn "RuntimeError" "LLM unavailable"), log).

Definition agent_clients : gmap string string :=
  list_to_map [("research", "http://research"); ("calculator", "http://calculator");
               ("weather", "http://weather"); ("base", "http://base")].


(** A sequential plan whose steps declare no dependencies. *)
Definition undeclared_plan : ExecutionPlan :=
  mkPlan [mkStep "research" "Research the population of Tokyo" [];
          mkStep "weather" "Tell me the weather in Tokyo" []] "sequential".

(** The same plan with the dependency declared. *)
Definition declared_plan : ExecutionPlan :=
  mkPlan [mkStep "research" "Research the population of Tokyo" [];
          mkStep "weather" "Tell me the weather in Tokyo" ["research"]] "sequential".

(** A plan one of whose agents cannot be reached. *)
Definition unreachable_plan : ExecutionPlan :=
  mkPlan [mkStep "base" "Say hello" [];
          mkStep "calculator" "What is 15 + 27?" ["base"]] "sequential".

Definition ok (text : string) : AgentResult :=
  mkResult true None (Some (JStr text)) (Some (JStr text)) None None None.

Definition failed_with (message : string) : AgentResult :=
  mkResult false (Some (JStr message)) None None None None None.

(** One success and one failure. *)
Definition mixed_results : Results :=
  [("calculator", ok "42"); ("weather", failed_with "timed out")].

End OrchestratorRuns.

(** ** The smart routing client (src/clients/smart_routing_client.py) *)

Module SmartRouting.

(** A step of a plan: a dictionary, as the planner or the LLM wrote it. A
    key that is absent is [None]. Step numbers are integers. *)
Record Step := mkStep {
  step : option Z;
  action : option string;
  agent : option string;
  query : option string;
  depends_on : option (list Z);
  expected_duration : option Q
}.

(** The dictionary a step is reported as. *)
Record StepResult := mkResult {
  r_step : option Z;
  r_agent : option string;
  r_query : option string;
  r_action : option string;
  r_response : option string;
  r_success : bool;
  r_error : option string;
  r_duration : option Q
}.

Record ExecutionPlan := mkPlan {
  plan_query : string;
  steps : list Step;
  execution_type : string;
  estimated_time : Q;
  confidence : Q
}.

(** [d['key']] on a step *)
Definition require {A : Type} (key : string) (v : option A) : Exc A :=
  match v with
  | Some x => ret x
  | None => raise (KeyError key)
  end.

(** [step.get("depends_on", [])] *)
Definition dependencies_of (st : Step) : list Z :=
  match depends_on st with
  | Some ds => ds
  | None => []
  end.

Definition _simulate_agent_execution (agent_name query0 : string) : string :=
  if String.eqb agent_name "base" then "Base agent processing: " +:+ query0
  else if String.eqb agent_name "calculator" then
    "Calculator result for '" +:+ query0
    +:+ "': [Mathematical calculation would be performed]"
  else if String.eqb agent_name "weather" then
    "Weather information for '" +:+ query0 +:+ "': [Weather data would be retrieved]"
  else if String.eqb agent_name "research" then
    "Research results for '" +:+ query0 +:+ "': [Research would be conducted]"
  else "Agent " +:+ agent_name +:+ " processed: " +:+ query0.

(** The loop of [_aggregate_results], from index [i]. *)
Fixpoint aggregate_lines (i : nat) (successful : list StepResult) (aggregated : string)
  : string :=
  match successful with
  | [] => aggregated
  | result :: rest =>
      let response := match r_response result with Some t => t | None => "No response" end in
      let agent0 := match r_agent result with Some a => a | None => "Unknown" end in
      aggregate_lines (S i) rest
        (aggregated +:+ str_of_nat i +:+ ". " +:+ agent0 +:+ ": " +:+ response +:+ nl)
  end.

Definition _aggregate_results (results : list StepResult) : string :=
  match results with
  | [] => "No results to aggregate"
  | _ =>
      match List.filter r_success results with
      | [] => "All agent calls failed"
      | successful => strip (aggregate_lines 1 successful ("Combined results:" +:+ nl))
      end
  end.

Definition default_duration (d : Q) (st : Step) : Q :=
  match expected_duration st with
  | Some q => q
  | None => d
  end.

(** The body of the [try] of [_execute_step]. *)
Definition step_body (st : Step) (previous_results : gmap Z StepResult)
  : Exc StepResult :=
  (let* agent_name := require "agent" (agent st) in
   let* query0 := require "query" (query st) in
   let action0 := match action st with Some a => a | None => "execute_query" end in
   if String.eqb action0 "execute_query" then
     let response := _simulate_agent_execution agent_name query0 in
     let* n := require "step" (step st) in
     ret (mkResult (Some n) (Some agent_name) (Some query0) None (Some response)
            true None (Some (default_duration 2 st)))
   else if String.eqb action0 "aggregate_results" then
     let dependent_results := omap (fun s => previous_results !! s) (dependencies_of st) in
     let aggregated_response := _aggregate_results dependent_results in
     let* n := require "step" (step st) in
     ret (mkResult (Some n) (Some agent_name) None (Some "aggregate_results")
            (Some aggregated_response) true None (Some (default_duration 1 st)))
   else
     let* n := require "step" (step st) in
     ret (mkResult (Some n) (Some agent_name) None (Some action0)
            (Some ("Executed " +:+ action0)) true None (Some 1%Q)))%exc.

(** The [except Exception as e] of [_execute_step]. *)
Definition step_failure (st : Step) (e : Exn) : Exc StepResult :=
  (let* n := require "step" (step st) in
   ret (mkResult (Some n)
          (Some (match agent st with Some a => a | None => "unknown" end))
          None None None false (Some (exn_str e)) (Some 0%Q)))%exc.

Definition _execute_step (st : Step) (previous_results : gmap Z StepResult)
  : Exc StepResult :=
  try_except (step_body st previous_results) (step_failure st).

(** What [asyncio.gather(..., return_exceptions=True)] and the loop after
    it make of one task. *)
Definition gathered (outcome : Exc StepResult) : StepResult :=
  match outcome with
  | inr r => r
  | inl e => mkResult None None None None None false (Some (exn_str e)) None
  end.

(** The state of the executors: [results], [step_results] and
    [completed_steps]. *)
Record Progress := mkProgress {
  results : list StepResult;
  step_results : gmap Z StepResult;
  completed_steps : gset Z
}.

Definition start : Progress := mkProgress [] ∅ ∅.

(** The [sequential] branch of [_execute_plan]. *)
Definition sequential_turn (p : Progress) (st : Step) : Exc Progress :=
  (let* result := _execute_step st (step_results p) in
   let* n := require "step" (step st) in
   ret (mkProgress (results p ++ [result]) (<[n := result]> (step_results p))
          (completed_steps p)))%exc.

(** The [parallel] branch: the steps without dependencies, each run
    against the empty [step_results]. *)
Definition independent (st : Step) : bool :=
  match depends_on st with
  | None | Some [] => true
  | Some (_ :: _) => false
  end.

Definition parallel_results (sts : list Step) : list StepResult :=
  List.map (fun st => gathered (_execute_step st ∅)) (List.filter independent sts).

(** The [for step in plan.steps] scan of the hybrid executor. *)
Fixpoint ready_steps (sts : list Step) (completed : gset Z) : Exc (list Step) :=
  match sts with
  | [] => ret []
  | st :: rest =>
      (let* step_num := require "step" (step st) in
       if bool_decide (step_num ∈ completed) then ready_steps rest completed
       else if forallb (fun dep => bool_decide (dep ∈ completed)) (dependencies_of st)
       then let* others := ready_steps rest completed in ret (st :: others)
       else ready_steps rest completed)%exc
  end.

(** Recording one result of a round. *)
Definition record (p : Progress) (st : Step) (result : StepResult) : Exc Progress :=
  (let* n := require "step" (step st) in
   ret (mkProgress (results p ++ [result]) (<[n := result]> (step_results p))
          ({[n]} ∪ completed_steps p)))%exc.

(** One round: a single ready step is awaited directly, several are
    gathered. Every task of a round reads the [step_results] the round
    started with. *)
Definition run_round (ready : list Step) (p : Progress) : Exc Progress :=
  match ready with
  | [single] =>
      (let* result := _execute_step single (step_results p) in
       record p single result)%exc
  | _ =>
      let tasks := List.map (fun st => (st, _execute_step st (step_results p))) ready in
      for_each tasks p (fun acc t => record acc (fst t) (gathered (snd t)))
  end.

(** The [while] loop of [_execute_hybrid_plan]; [None] when [fuel] turns
    of the loop were not enough. *)
Fixpoint hybrid_loop (fuel : nat) (sts : list Step) (p : Progress)
  : option (Exc (list StepResult)) :=
  if (size (completed_steps p) <? List.length sts)%nat then
    match fuel with
    | O => None
    | S fuel' =>
        match ready_steps sts (completed_steps p) with
        | inl e => Some (inl e)
        | inr [] => Some (inr (results p))
        | inr ready =>
            match run_round ready p with
            | inl e => Some (inl e)
            | inr p' => hybrid_loop fuel' sts p'
            end
        end
    end
  else Some (inr (results p)).

Definition _execute_hybrid_plan (fuel : nat) (plan : ExecutionPlan)
  : option (Exc (list StepResult)) :=
  hybrid_loop fuel (steps plan) start.

Definition _execute_plan (fuel : nat) (plan : ExecutionPlan)
  : option (Exc (list StepResult)) :=
  if String.eqb (execution_type plan) "sequential" then
    Some (bind (for_each (steps plan) start sequential_turn) (fun p => ret (results p)))
  else if String.eqb (execution_type plan) "parallel" then
    Some (ret (parallel_results (steps plan)))
  else if String.eqb (execution_type plan) "hybrid" then
    _execute_hybrid_plan fuel plan
  else Some (ret []).


Definition numbered (st : Step) : Prop := step st <> None.

(** A step the scan of the hybrid executor picks: numbered, not yet
    completed, all its dependencies completed. *)
Definition is_ready (completed : gset Z) (st : Step) : bool :=
  match step st with
  | Some n =>
      negb (bool_decide (n ∈ completed))
      && forallb (fun dep => bool_decide (dep ∈ completed)) (dependencies_of st)
  | None => false
  end.

(** Whether a step carries what [_execute_step] needs to succeed. *)
Definition well_addressed (st : Step) : bool :=
  match agent st, query st with
  | Some _, Some _ => true
  | _, _ => false
  end.





(** A hybrid plan with a cycle: step 1 stands alone, steps 2 and 3 wait
    for each other. *)
Definition cyclic_plan : ExecutionPlan :=
  mkPlan "weather and sums"
    [mkStep (Some 1%Z) None (Some "weather") (Some "Weather in Paris") None None;
     mkStep (Some 2%Z) None (Some "calculator") (Some "100 * 50") (Some [3%Z]) None;
     mkStep (Some 3%Z) None (Some "base") (Some "Summarise") (Some [2%Z]) None]
    "hybrid" 5 (7 # 10).



(** A hybrid plan in dependency order whose third step is ready before
    its second. *)
Definition staggered_plan : ExecutionPlan :=
  mkPlan "research, then weather; and a sum"
    [mkStep (Some 1%Z) None (Some "research") (Some "Population of Tokyo") None None;
     mkStep (Some 2%Z) None (Some "weather") (Some "Weather in Tokyo") (Some [1%Z]) None;
     mkStep (Some 3%Z) None (Some "calculator") (Some "100 * 50") None None]
    "hybrid" 5 (7 # 10).







End SmartRouting.

(** ** Sequences of calls through one breaker *)

Module BreakerRuns.

Import Reliability.

(** One use of [call]: the clock when the call is attempted, what the
    wrapped operation does if it is let through, and the clock when it is
    done. The world is the clock. *)
Record Attempt := mkAttempt {
  at_entry : Q;
  outcome : Exc unit;
  at_exit : Q
}.

Definition attempt (b : CircuitBreaker) (a : Attempt) : CircuitBreaker :=
  snd (fst (call (fun w : Q => w) b (fun _ => (outcome a, at_exit a)) (at_entry a))).

(** The breaker after a sequence of calls, oldest first. *)
Definition run (b : CircuitBreaker) (attempts : list Attempt) : CircuitBreaker :=
  fold_left attempt attempts b.

(** What every breaker a run can reach satisfies. *)
Definition kept (cfg : CircuitBreakerConfig) (b : CircuitBreaker) : Prop :=
  config b = cfg /\
  (0 <= failure_count b)%Z /\
  (state b <> CLOSED ->
   (failure_threshold cfg <= failure_count b)%Z /\ last_failure_time b <> None).

(** Three timeouts against the LLM breaker of the reliability manager
    (threshold 3, 30 s), then a call after the recovery time. *)
Definition llm_config : CircuitBreakerConfig := mkConfig 3 30 (fun _ => true) "agent_llm".

Definition timeout : Exn := mkExn "TimeoutError" "timed out".

Definition three_timeouts_then_retry : list Attempt :=
  [mkAttempt 0 (inl timeout) 1; mkAttempt 2 (inl timeout) 3;
   mkAttempt 4 (inl timeout) 5; mkAttempt 40 (inl timeout) 41].

End BreakerRuns.

(** ** Health checks (src/common/reliability.py) *)

Module Health.

Import Reliability.

Inductive HealthStatus := HEALTHY | DEGRADED | UNHEALTHY.

(** The dictionary a check returns. *)
Definition Dict : Type := list (string * json).

(** What [asyncio.wait_for(check_func(), timeout=10.0)] does: the check
    returns a value; [asyncio.TimeoutError] comes out, because the check
    did not answer within ten seconds or raised that error itself; or
    another exception comes out. *)
Inductive CheckOutcome :=
| Returned (v : json)
| TimedOut
| Raised (e : Exn).

(** [_run_check] *)
Definition _run_check (o : CheckOutcome) : Exc Dict :=
  match o with
  | Returned (JDict kv) => ret kv
  | Returned _ => ret [("status", JStr "healthy")]
  | TimedOut =>
      ret [("status", JStr "unhealthy"); ("error", JStr "Health check timeout")]
  | Raised e => ret [("status", JStr "unhealthy"); ("error", JStr (exn_str e))]
  end.

(** [result.get('status') == s] *)
Definition status_is (d : Dict) (s : string) : bool :=
  match dict_get "status" d with
  | Some v => eq_str v s
  | None => false
  end.

Record HealthCheckResult := mkHealth {
  status : HealthStatus;
  message : string;
  details : list (string * Dict);
  timestamp : Q;
  check_duration_ms : Q
}.

Section Checks.

Context {W : Type}.
Variable time_time : W -> Q.

(** A registered check: what it does to the world and how it ends. *)
Definition Check : Type := W -> CheckOutcome * W.

(** The body of the loop of [check_health] for one check. *)
Definition check_turn (check_results : list (string * Dict)) (overall_status : HealthStatus)
  (check_name : string) (o : CheckOutcome) : list (string * Dict) * HealthStatus :=
  match _run_check o with
  | inr result =>
      (Orchestrator.dict_set check_results check_name result,
       if status_is result "unhealthy" then UNHEALTHY
       else if status_is result "degraded" then
         match overall_status with
         | HEALTHY => DEGRADED
         | _ => overall_status
         end
       else overall_status)
  | inl e =>
      (Orchestrator.dict_set check_results check_name
         [("status", JStr "unhealthy"); ("error", JStr (exn_str e))],
       UNHEALTHY)
  end.

Fixpoint run_checks (checks : list (string * Check))
  (check_results : list (string * Dict)) (overall_status : HealthStatus) (w : W)
  : list (string * Dict) * HealthStatus * W :=
  match checks with
  | [] => (check_results, overall_status, w)
  | (check_name, check_func) :: rest =>
      let (o, w1) := check_func w in
      let (check_results1, overall1) :=
        check_turn check_results overall_status check_name o in
      run_checks rest check_results1 overall1 w1
  end.

(** [check_health]: the result, which also becomes [last_health_result],
    and the world after the checks. The clock is read when the checks are
    done. Once [_run_check] has turned what a check did into a dictionary
    nothing in the body raises, so the outer handler of the source has no
    counterpart here. *)
Definition check_health (agent_name : string) (checks : list (string * Check))
  (include_details : bool) (w : W) : HealthCheckResult * W :=
  let start_time := time_time w in
  let '(check_results, overall_status, w1) := run_checks checks [] HEALTHY w in
  let duration_ms := ((time_time w1 - start_time) * 1000)%Q in
  (mkHealth overall_status ("Agent " +:+ agent_name +:+ " health check completed")
     (if include_details then check_results else []) (time_time w1) duration_ms,
   w1).

End Checks.

Definition state_value (s : CircuitState) : string :=
  match s with
  | CLOSED => "closed"
  | OPEN => "open"
  | HALF_OPEN => "half_open"
  end.

(** [CircuitBreaker.get_state] *)
Definition get_state (b : CircuitBreaker) : Dict :=
  [("state", JStr (state_value (state b)));
   ("failure_count", JInt (failure_count b));
   ("failure_threshold", JInt (failure_threshold (config b)));
   ("last_failure_time",
    match last_failure_time b with Some t => JFloat t | None => JNull end);
   ("recovery_timeout", JFloat (recovery_timeout (config b)))].

(** [state['state'] == 'open'] *)
Definition state_is_open (state0 : Dict) : bool :=
  match dict_get "state" state0 with
  | Some v => eq_str v "open"
  | None => false
  end.

(** The loop of [_check_circuit_breakers]. *)
Fixpoint scan_breakers (breakers : list (string * CircuitBreaker))
  (breaker_states : Dict) (unhealthy_count : nat) : Dict * nat :=
  match breakers with
  | [] => (breaker_states, unhealthy_count)
  | (name0, breaker) :: rest =>
      let state0 := get_state breaker in
      scan_breakers rest
        (Orchestrator.dict_set breaker_states name0 (JDict state0))
        (if state_is_open state0 then S unhealthy_count else unhealthy_count)
  end.

(** [_check_circuit_breakers] *)
Definition _check_circuit_breakers (breakers : list (string * CircuitBreaker)) : Dict :=
  let (breaker_states, unhealthy_count) := scan_breakers breakers [] O in
  match unhealthy_count with
  | O => [("status", JStr "healthy"); ("circuit_breakers", JDict breaker_states)]
  | S _ =>
      [("status",
        JStr (if (unhealthy_count <? List.length breakers)%nat
              then "degraded" else "unhealthy"));
       ("circuit_breakers", JDict breaker_states);
       ("open_breakers", JInt (Z.of_nat unhealthy_count))]
  end.

(** What a check's dictionary counts as. *)
Definition reported (d : Dict) : HealthStatus :=
  if status_is d "unhealthy" then UNHEALTHY
  else if status_is d "degraded" then DEGRADED
  else HEALTHY.

(** The worse of two statuses, and the worst of a list. *)
Definition worse (a b : HealthStatus) : HealthStatus :=
  match a, b with
  | UNHEALTHY, _ | _, UNHEALTHY => UNHEALTHY
  | DEGRADED, _ | _, DEGRADED => DEGRADED
  | HEALTHY, HEALTHY => HEALTHY
  end.

Definition worst (l : list HealthStatus) : HealthStatus :=
  fold_right worse HEALTHY l.

Definition is_open (b : CircuitBreaker) : bool :=
  match state b with
  | OPEN => true
  | _ => false
  end.

(** The dictionary recorded for a check that ended with [o]. *)
Definition recorded (o : CheckOutcome) : Dict :=
  match _run_check o with
  | inr d => d
  | inl e => [("status", JStr "unhealthy"); ("error", JStr (exn_str e))]
  end.

(** The dictionaries of a run of checks, each check starting in the world
    the one before it left. *)
Fixpoint outcomes {W : Type} (checks : list (string * Check (W := W))) (w : W)
  : list (string * Dict) :=
  match checks with
  | [] => []
  | (check_name, check_func) :: rest =>
      (check_name, recorded (fst (check_func w))) :: outcomes rest (snd (check_func w))
  end.

Definition count_open (breakers : list (string * CircuitBreaker)) : nat :=
  List.length (List.filter (fun nb => is_open (snd nb)) breakers).

(** A world that is nothing but the clock, and three checks on it: one
    answers, one is degraded, one does not answer in time. *)
Definition answering : Check (W := Q) :=
  fun w => (Returned (JDict [("status", JStr "healthy")]), (w + 1)%Q).
Definition slow_memory : Check (W := Q) :=
  fun w => (Returned (JDict [("status", JStr "degraded"); ("memory_percent", JInt 80)]),
            (w + 1)%Q).
Definition hanging : Check (W := Q) := fun w => (TimedOut, (w + 10)%Q).

Definition three_checks : list (string * Check (W := Q)) :=
  [("basic_functionality", answering); ("memory_usage", slow_memory);
   ("circuit_breakers", hanging)].

End Health.

(** ** The calculator agent's stream and the executor's request handling
       (src/agents/calculator/agent.py, agent_executor.py) *)

Module CalculatorRequests.

Import CalculatorExecutor.

(** [ResponseFormat]: what [_perform_calculation] returns. *)
Record ResponseFormat := mkResponse {
  status : string;
  message : string
}.

(** [CalculatorAgent.stream], given what [_perform_calculation] does for
    the query ([inl e] when it raises). The metrics context around the
    body only counts and times; it is not represented. *)
Definition stream (calculation : Exc ResponseFormat) : Stream :=
  mkStream
    [mkItem "Analyzing mathematical expression..." false false;
     match calculation with
     | inr result =>
         if String.eqb (status result) "completed" then mkItem (message result) true false
         else if String.eqb (status result) "input_required"
         then mkItem (message result) false true
         else mkItem (message result) false true
     | inl e => mkItem ("An error occurred during calculation: " +:+ exn_str e) false true
     end]
    None.

(** What the executor reads of a [RequestContext]. *)
Record RequestContext := mkContext {
  has_message : bool;
  get_user_input : Exc string;
  has_current_task : bool
}.

(** [_validate_request]: [true] when the request is in error. *)
Definition _validate_request (context : RequestContext) : bool :=
  match
    try_except
      (if negb (has_message context) then ret true
       else
         (let* user_input := get_user_input context in
          if negb (nonempty user_input) || negb (nonempty (strip user_input))
          then ret true else ret false)%exc)
      (fun _ => ret true)
  with
  | inr b => b
  | inl _ => true
  end.

(** What goes on the event queue: the task created for a request that has
    none, and the updater's events. *)
Inductive Queued :=
| NewTask
| Emitted (ev : Event).

Definition ServerError_InvalidParams : Exn := mkExn "ServerError" "InvalidParamsError".
Definition ServerError_UnsupportedOperation : Exn :=
  mkExn "ServerError" "UnsupportedOperationError".

(** [CalculatorAgentExecutor.execute]; [agent_stream query] is the agent's
    stream for the query. *)
Definition execute_request (agent_stream : string -> Stream) (context : RequestContext)
  : Exc unit * list Queued :=
  if _validate_request context then (raise ServerError_InvalidParams, [])
  else
    match get_user_input context with
    | inl e => (raise e, [])
    | inr query =>
        let created := if has_current_task context then [] else [NewTask] in
        let (outcome, events) := execute (agent_stream query) [] in
        (outcome, created ++ List.map Emitted events)
    end.

(** [CalculatorAgentExecutor.cancel] *)
Definition cancel : Exc unit := raise ServerError_UnsupportedOperation.

Definition is_final (ev : Event) : bool :=
  match ev with
  | StatusUpdate _ _ final => final
  | ArtifactAdded _ _ => false
  end.

End CalculatorRequests.

(** ** Analysis, planning and history of the smart routing client
       (src/clients/smart_routing_client.py) *)

Module Planner.

Import SmartRouting.

(** [c.lower()] on a character of code below 256 *)
Definition lower_char (c : ascii) : ascii :=
  let n := nat_of_ascii c in
  if ((65 <=? n)%nat && (n <=? 90)%nat)
     || ((192 <=? n)%nat && (n <=? 222)%nat && negb (n =? 215)%nat)
  then ascii_of_nat (n + 32) else c.

(** [s.lower()] *)
Fixpoint lower (s : string) : string :=
  match s with
  | EmptyString => EmptyString
  | String c rest => String (lower_char c) (lower rest)
  end.

(** [s.count(sub)] for a non-empty [sub]: occurrences from left to right
    that do not overlap; [skip] characters are still covered by the last
    occurrence found. *)
Fixpoint count_from (skip : nat) (sub s : string) : nat :=
  match s with
  | EmptyString => O
  | String _ rest =>
      match skip with
      | S k => count_from k sub rest
      | O =>
          if String.prefix sub s
          then S (count_from (String.length sub - 1) sub rest)
          else count_from O sub rest
      end
  end.

Definition count (sub s : string) : nat := count_from O sub s.

(** [any(word in text for word in words)] *)
Definition mentions (words : list string) (text : string) : bool :=
  existsb (fun word => is_substring word text) words.

Record QueryAnalysis := mkAnalysis {
  qa_query : string;
  intent : string;
  entities : list string;
  complexity : string;
  requires_multiple_agents : bool;
  suggested_agents : list string;
  decomposition : list string
}.

(** [QueryAnalyzer._fallback_analysis] *)
Definition _fallback_analysis (query0 : string) : QueryAnalysis :=
  let query_lower := lower query0 in
  let (intent0, suggested) :=
    if mentions ["calculate"; "compute"; "math"; "+"; "-"; "*"; "/"] query_lower
    then ("calculation", ["calculator"])
    else if mentions ["weather"; "temperature"; "forecast"] query_lower
    then ("weather", ["weather"])
    else if mentions ["research"; "find"; "search"; "who"; "what"] query_lower
    then ("research", ["research"])
    else if mentions ["hello"; "hi"; "help"] query_lower
    then ("greeting", ["base"])
    else ("other", ["base"]) in
  let and_count := count " and " query_lower in
  let comma_count := count "," query_lower in
  let requires_multiple := (0 <? and_count)%nat || (1 <? comma_count)%nat in
  let complexity0 := if requires_multiple then "complex" else "simple" in
  mkAnalysis query0 intent0 [] complexity0 requires_multiple suggested [].

(** [analyze_query]: [llm_analysis] is what the [try] block comes to, the
    analysis read from the model's answer or the exception raised on the
    way. *)
Definition analyze_query (query0 : string) (llm_analysis : Exc QueryAnalysis)
  : Exc QueryAnalysis :=
  try_except llm_analysis (fun _ => ret (_fallback_analysis query0)).

(** [suggested_agents[0] if suggested_agents else "base"] *)
Definition first_agent (analysis : QueryAnalysis) : string :=
  match suggested_agents analysis with
  | a :: _ => a
  | [] => "base"
  end.

Definition _create_simple_plan (analysis : QueryAnalysis) : ExecutionPlan :=
  mkPlan (qa_query analysis)
    [mkStep (Some 1%Z) (Some "execute_query") (Some (first_agent analysis))
       (Some (qa_query analysis)) None (Some 2%Q)]
    "sequential" 2 (9 # 10).

Definition step_duration (st : Step) : Q :=
  match expected_duration st with
  | Some d => d
  | None => 0
  end.

Definition _create_standard_plan (analysis : QueryAnalysis) : ExecutionPlan :=
  let steps0 :=
    [mkStep (Some 1%Z) (Some "execute_query") (Some (first_agent analysis))
       (Some (qa_query analysis)) None (Some 3%Q)] in
  let steps1 :=
    if String.eqb (complexity analysis) "medium" then
      mkStep (Some 0%Z) (Some "clarify_query") (Some "base")
        (Some ("Clarify requirements for: " +:+ qa_query analysis)) None (Some 1%Q)
      :: steps0
    else steps0 in
  mkPlan (qa_query analysis) steps1 "sequential"
    (fold_left (fun acc st => (acc + step_duration st)%Q) steps1 0%Q) (8 # 10).

(** The loop of [_create_fallback_plan]: one step per suggested agent,
    numbered from [i + 1]. *)
Fixpoint agent_steps (i : nat) (agents : list string) (query0 : string) : list Step :=
  match agents with
  | [] => []
  | a :: rest =>
      mkStep (Some (Z.of_nat i + 1)%Z) (Some "execute_query") (Some a) (Some query0)
        None (Some 3%Q)
      :: agent_steps (S i) rest query0
  end.

(** [list(range(1, n + 1))] *)
Definition range_from_1 (n : nat) : list Z := List.map Z.of_nat (List.seq 1 n).

Definition _create_fallback_plan (analysis : QueryAnalysis) : ExecutionPlan :=
  if requires_multiple_agents analysis
     && (1 <? List.length (suggested_agents analysis))%nat
  then
    let steps0 := agent_steps 0 (suggested_agents analysis) (qa_query analysis) in
    let aggregation :=
      mkStep (Some (Z.of_nat (List.length steps0) + 1)%Z) (Some "aggregate_results")
        (Some "base") (Some "Aggregate and synthesize results")
        (Some (range_from_1 (List.length (suggested_agents analysis)))) (Some 2%Q) in
    mkPlan (qa_query analysis) (steps0 ++ [aggregation]) "hybrid" 5 (6 # 10)
  else _create_simple_plan analysis.

(** [_create_multi_agent_plan]: [llm_plan] is what the [try] block comes
    to, the plan read from the model's answer or the exception raised on
    the way. *)
Definition _create_multi_agent_plan (analysis : QueryAnalysis)
  (llm_plan : Exc ExecutionPlan) : Exc ExecutionPlan :=
  try_except llm_plan (fun _ => ret (_create_fallback_plan analysis)).

Definition create_execution_plan (analysis : QueryAnalysis)
  (llm_plan : QueryAnalysis -> Exc ExecutionPlan) : Exc ExecutionPlan :=
  if String.eqb (complexity analysis) "simple" then ret (_create_simple_plan analysis)
  else if requires_multiple_agents analysis
  then _create_multi_agent_plan analysis (llm_plan analysis)
  else ret (_create_standard_plan analysis).

Record ExecutionResult := mkExecution {
  er_query : string;
  er_plan : ExecutionPlan;
  er_results : list StepResult;
  er_success : bool;
  total_time : Q;
  errors : list string
}.

(** [smart_execute]: the result and the [execution_history] afterwards.
    [started] and [finished] are the clock readings at the start and when
    the result is built; the hybrid loop is given as many turns as the
    plan has steps, and [None] would mean these were not enough. *)
Definition smart_execute (query0 : string) (llm_analysis : Exc QueryAnalysis)
  (llm_plan : QueryAnalysis -> Exc ExecutionPlan) (started finished : Q)
  (execution_history : list ExecutionResult)
  : option (ExecutionResult * list ExecutionResult) :=
  let failed (e : Exn) :=
    (mkExecution query0 (mkPlan query0 [] "sequential" 0 0) [] false
       (finished - started)%Q [exn_str e],
     execution_history) in
  match bind (analyze_query query0 llm_analysis)
             (fun analysis => create_execution_plan analysis llm_plan) with
  | inl e => Some (failed e)
  | inr plan =>
      match _execute_plan (List.length (steps plan)) plan with
      | None => None
      | Some (inl e) => Some (failed e)
      | Some (inr results0) =>
          let execution_result :=
            mkExecution query0 plan results0 (forallb r_success results0)
              (finished - started)%Q [] in
          Some (execution_result, execution_history ++ [execution_result])
      end
  end.

(** [l[-limit:]] *)
Definition last_items {A : Type} (limit : Z) (l : list A) : list A :=
  let len := Z.of_nat (List.length l) in
  let start := (- limit)%Z in
  let start := if (start <? 0)%Z then Z.max 0 (start + len) else Z.min start len in
  skipn (Z.to_nat start) l.

Record Summary := mkSummary {
  s_query : string;
  s_success : bool;
  s_execution_type : string;
  s_steps : nat;
  s_total_time : Q;
  s_errors : list string
}.

Definition summary (result : ExecutionResult) : Summary :=
  mkSummary (er_query result) (er_success result) (execution_type (er_plan result))
    (List.length (steps (er_plan result))) (total_time result) (errors result).

Definition get_recent_results (limit : Z) (execution_history : list ExecutionResult)
  : list Summary :=
  let recent :=
    match execution_history with
    | [] => []
    | _ => last_items limit execution_history
    end in
  List.map summary recent.

(** An analysis that asks for three agents, and what a call to an LLM
    that is down raises. *)
Definition three_agents : QueryAnalysis :=
  mkAnalysis "Weather in Paris, 100 * 50, and the population of Tokyo" "multi_task" []
    "complex" true ["weather"; "calculator"; "research"] [].

Definition connection_error : Exn := mkExn "APIConnectionError" "Connection error.".

(** A plan as an LLM may write it: its second step has lost its number. *)
Definition unnumbered_plan : ExecutionPlan :=
  mkPlan "two things"
    [mkStep (Some 1%Z) None (Some "weather") (Some "Weather in Paris") None None;
     mkStep None None (Some "calculator") (Some "100 * 50") None None]
    "sequential" 5 (7 # 10).

End Planner.

(** ** More of the orchestrator (streamlit_a2a_app.py) *)

Module Routing.

Import Orchestrator.

(** [IntelligentOrchestrator._simple_routing_fallback]: the agent. *)
Definition fallback_agent (user_query : string) : string :=
  let query_lower := Planner.lower user_query in
  if Planner.mentions ["calculate"; "math"; "compute"; "number"] query_lower
  then "calculator"
  else if Planner.mentions ["weather"; "temperature"; "forecast"] query_lower
  then "weather"
  else if Planner.mentions ["research"; "search"; "find"; "information"] query_lower
  then "research"
  else if Planner.mentions ["move"; "moving"; "relocation"; "orchestrate"] query_lower
  then "move_orchestrator"
  else if Planner.mentions ["monitor"; "infrastructure"; "system"; "health"] query_lower
  then "infrastructure_monitor"
  else "base".

Definition _simple_routing_fallback (user_query : string) : ExecutionPlan :=
  mkPlan [mkStep (fallback_agent user_query) user_query []] "sequential".

(** A transport that also keeps the list of what was sent, as
    (address, text). *)
Definition logged {W : Type} (transport : W -> string -> string -> Exc json * W)
  (wl : W * list (string * string)) (url message : string)
  : Exc json * (W * list (string * string)) :=
  let (reply, w1) := transport (fst wl) url message in
  (reply, (w1, snd wl ++ [(url, message)])).

(** An oracle that reads the world, on a world that also carries the
    list. *)
Definition on_world {W L A : Type} (f : W -> A) (wl : W * L) : A := f (fst wl).

(** A step the [parallel] branch sends: no dependencies, and a client for
    its agent. *)
Definition eligible (agent_clients : gmap string string) (step : ExecutionStep) : bool :=
  match dependencies step, agent_clients !! agent step with
  | [], Some _ => true
  | _, _ => false
  end.

(** What is sent for an eligible step. *)
Definition bare_message (agent_clients : gmap string string) (step : ExecutionStep)
  : string * string :=
  (match agent_clients !! agent step with Some url => url | None => EmptyString end,
   task step).

(** A part of an artifact and the text it contributes, if any. *)
Definition part_text (part : json) : option string :=
  match part with
  | JDict kv =>
      match dict_get "kind" kv, dict_get "text" kv with
      | Some kind, Some (JStr text) => if eq_str kind "text" then Some text else None
      | _, _ => None
      end
  | _ => None
  end.

(** A part the extraction reads without raising: a dictionary that, when
    it is a text part, holds a string. *)
Definition sound_part (part : json) : bool :=
  match part with
  | JDict kv =>
      match dict_get "kind" kv, dict_get "text" kv with
      | Some kind, Some text => negb (eq_str kind "text") || is_str text
      | _, _ => true
      end
  | _ => false
  end.

(** An artifact the extraction reads without raising: a dictionary whose
    [parts], if present and not empty, is a list of sound parts. *)
Definition artifact_parts (artifact : json) : option (list json) :=
  match artifact with
  | JDict kv =>
      match dict_get "parts" kv with
      | Some (JList parts) => if forallb sound_part parts then Some parts else None
      | Some v => if truthy v then None else Some []
      | None => Some []
      end
  | _ => None
  end.

(** The texts of a list of artifacts, as the reply presents them. *)
Definition artifact_texts (artifacts : list json) : list string :=
  List.filter nonempty
    (List.map strip
       (omap part_text
          (List.concat
             (List.map (fun a => match artifact_parts a with Some ps => ps | None => [] end)
                artifacts)))).

End Routing.

(** ** Runs of the planner's fallback plan *)

Module PlannerRuns.

Import SmartRouting Planner.

(** What the agent steps of the fallback plan report, numbered from
    [i + 1]. *)
Fixpoint agent_reports (i : nat) (agents : list string) (query0 : string)
  : list StepResult :=
  match agents with
  | [] => []
  | a :: rest =>
      mkResult (Some (Z.of_nat i + 1)%Z) (Some a) (Some query0) None
        (Some (_simulate_agent_execution a query0)) true None (Some 3%Q)
      :: agent_reports (S i) rest query0
  end.

(** What its aggregation step reports, given the reports it depends on. *)
Definition aggregation_report (reports : list StepResult) : StepResult :=
  mkResult (Some (Z.of_nat (List.length reports) + 1)%Z) (Some "base") None
    (Some "aggregate_results") (Some (_aggregate_results reports)) true None
    (Some 2%Q).

(** A history of three executions, oldest first. *)
Definition sample_history : list ExecutionResult :=
  [mkExecution "2 + 2" (_create_simple_plan (_fallback_analysis "2 + 2")) [] true 1 [];
   mkExecution "weather in Paris"
     (_create_simple_plan (_fallback_analysis "weather in Paris")) [] false 3 [];
   mkExecution "who is Ada" (_create_simple_plan (_fallback_analysis "who is Ada")) []
     true 2 []].

End PlannerRuns.

(** ** Plans the orchestrator does not run step by step *)

Module RoutingRuns.

Import Orchestrator.

(** A parallel plan with a step that waits for another and a step for an
    agent that has no client. *)
Definition parallel_plan : ExecutionPlan :=
  mkPlan [mkStep "research" "Research the population of Tokyo" [];
          mkStep "weather" "Tell me the weather in Tokyo" ["research"];
          mkStep "translator" "Translate the answer" [];
          mkStep "calculator" "What is 100 * 50?" []] "parallel".

(** The same steps as a hybrid plan. *)
Definition hybrid_plan : ExecutionPlan := mkPlan (steps parallel_plan) "hybrid".

End RoutingRuns.

(** ** The LLM client and the planning of the orchestrator
       (streamlit_a2a_app.py) *)

Module AzureOpenAIClient.

(** The dictionary [_simple_routing_fallback] serialises. *)
Definition routing_fallback_response (prompt : string) : json :=
  JDict [("execution_type", JStr "sequential");
         ("steps",
          JList [JDict [("agent", JStr (Routing.fallback_agent prompt));
                        ("task", JStr prompt);
                        ("dependencies", JList [])]])].

Section Client.

Context {W : Type}.

(** [json.dumps] *)
Variable dumps : json -> string.
(** The body of the [try] of [complete]: the request to the deployment
    and the content of its first choice, or what was raised on the way. *)
Variable chat_completion : W -> string -> Z -> Exc string * W.

Definition _simple_routing_fallback (prompt : string) : string :=
  dumps (routing_fallback_response prompt).

(** [complete]; [has_client] tells whether [self.client] is set. *)
Definition complete (has_client : bool) (w : W) (prompt : string) (max_tokens : Z)
  : Exc string * W :=
  if negb has_client then (ret (_simple_routing_fallback prompt), w)
  else
    let (content, w1) := chat_completion w prompt max_tokens in
    (try_except content (fun _ => ret (_simple_routing_fallback prompt)), w1).

End Client.

End AzureOpenAIClient.

Module Planning.

Import Orchestrator.

(** The character of code [n]. *)
Definition chr (n : nat) : string := String (ascii_of_nat n) EmptyString.

(** An entry of [AGENT_ENDPOINTS], with its key. *)
Record Endpoint := mkEndpoint {
  agent_id : string;
  url : string;
  name : string;
  description : string;
  specialties : list string
}.

(** One turn of the loop of [_build_agent_descriptions]. *)
Definition describe (config : Endpoint) : string :=
  "- " +:+ name config +:+ " (" +:+ agent_id config +:+ "): " +:+ description config
  +:+ nl +:+ "  Specialties: " +:+ join ", " (specialties config).

Definition _build_agent_descriptions (endpoints : list Endpoint) : string :=
  join nl (List.map describe endpoints).

(** The planning prompt of [create_execution_plan]. [arrow] stands for
    the three characters between an example and its reading, two of
    which have codes above 255. *)
Definition planning_prompt (arrow user_query agent_descriptions : string) : string :=
    nl +:+
    "        Analyze this user query and create an execution plan using available agents." +:+
    nl +:+ nl +:+ "        Query: " +:+ dquote +:+ user_query +:+ dquote +:+ nl +:+
    nl +:+ "        Available Agents:" +:+ nl +:+ "        " +:+ agent_descriptions +:+
    nl +:+ nl +:+ "        Determine:" +:+ nl +:+
    "        1. Is this a simple query (single agent) or complex query (multiple agents)?" +:+
    nl +:+ "        2. Which agents are needed and in what order?" +:+ nl +:+
    "        3. What specific tasks should each agent perform?" +:+ nl +:+
    "        4. Are there dependencies between tasks?" +:+ nl +:+ nl +:+
    "        For simple queries, return a single step." +:+ nl +:+
    "        For complex queries, break down into logical steps." +:+ nl +:+ nl +:+
    "        Return JSON format:" +:+ nl +:+ "        {" +:+ nl +:+ "            " +:+
    dquote +:+ "execution_type" +:+ dquote +:+ ": " +:+ dquote +:+
    "sequential|parallel|hybrid" +:+ dquote +:+ "," +:+ nl +:+ "            " +:+
    dquote +:+ "steps" +:+ dquote +:+ ": [" +:+ nl +:+ "                {" +:+ dquote +:+
    "agent" +:+ dquote +:+ ": " +:+ dquote +:+ "agent_id" +:+ dquote +:+ ", " +:+
    dquote +:+ "task" +:+ dquote +:+ ": " +:+ dquote +:+ "specific_task" +:+ dquote +:+
    ", " +:+ dquote +:+ "dependencies" +:+ dquote +:+ ": [" +:+ dquote +:+
    "agent_id1" +:+ dquote +:+ ", " +:+ dquote +:+ "agent_id2" +:+ dquote +:+ "]}" +:+
    nl +:+ "            ]" +:+ nl +:+ "        }" +:+ nl +:+ nl +:+
    "        Examples:" +:+ nl +:+ "        - " +:+ dquote +:+ "What's 15 + 25?" +:+
    dquote +:+ " " +:+ arrow +:+ " single calculator step" +:+ nl +:+ "        - " +:+
    dquote +:+ "Plan my move from London to Manchester on Oct 15, budget " +:+
    (chr 194) +:+ (chr 163) +:+ "2500" +:+ dquote +:+ " " +:+ arrow +:+
    " multiple steps (weather, research, calculator, move_orchestrator)" +:+ nl +:+
    "        ".

(** What [create_execution_plan] builds: the dataclasses hold whatever
    the parsed JSON holds. *)
Record RawStep := mkRawStep {
  raw_agent : json;
  raw_task : json;
  raw_dependencies : json
}.

Record RawPlan := mkRawPlan {
  raw_steps : list RawStep;
  raw_execution_type : json
}.

(** A plan of the executor as such a value. *)
Definition raw_of (plan : ExecutionPlan) : RawPlan :=
  mkRawPlan
    (List.map (fun s => mkRawStep (JStr (agent s)) (JStr (task s))
                          (JList (List.map JStr (dependencies s))))
       (steps plan))
    (JStr (execution_type plan)).

(** [v.get(k, d)] *)
Definition get_or_default (v : json) (k : string) (d : json) : Exc json :=
  match v with
  | JDict kv => ret (match dict_get k kv with Some x => x | None => d end)
  | _ => raise (AttributeError ("'" +:+ type_name v +:+ "' object has no attribute 'get'"))
  end.

(** [ExecutionStep(agent=..., task=..., dependencies=...)] with its
    [__post_init__]. *)
Definition step_of (step_data : json) : Exc RawStep :=
  (let* a := getitem_str step_data "agent" in
   let* t := getitem_str step_data "task" in
   let* d := get_or_default step_data "dependencies" (JList []) in
   ret (mkRawStep a t (match d with JNull => JList [] | _ => d end)))%exc.

Section Planner.

Context {W : Type}.

Variable dumps : json -> string.
Variable chat_completion : W -> string -> Z -> Exc string * W.
(** The parsing of the response: [json.loads], and when that raises
    [JSONDecodeError] the search for a braced part and [json.loads] on
    it, or [ValueError]. *)
Variable decode : string -> Exc json.

(** The body of the [try] of [create_execution_plan] once the response is
    there. *)
Definition read_plan (response : string) : Exc RawPlan :=
  (let* plan_data := decode response in
   let* steps_value := get_or_default plan_data "steps" (JList []) in
   let* steps_data := iterate steps_value in
   let* steps0 := for_each steps_data []
                    (fun acc step_data =>
                       let* step := step_of step_data in ret (acc ++ [step])) in
   let* execution_type0 := get_or_default plan_data "execution_type" (JStr "sequential") in
   ret (mkRawPlan steps0 execution_type0))%exc.

(** [IntelligentOrchestrator.create_execution_plan]; [endpoints] is
    [AGENT_ENDPOINTS]. *)
Definition create_execution_plan (has_client : bool) (arrow : string)
  (endpoints : list Endpoint) (w : W) (user_query : string) : RawPlan * W :=
  let prompt := planning_prompt arrow user_query (_build_agent_descriptions endpoints) in
  let (response, w1) :=
    AzureOpenAIClient.complete dumps chat_completion has_client w prompt 800 in
  (match bind response read_plan with
   | inr plan => plan
   | inl _ => raw_of (Routing._simple_routing_fallback user_query)
   end,
   w1).

End Planner.

(** [AGENT_ENDPOINTS] outside Kubernetes, with the default addresses. *)
Definition local_endpoints : list Endpoint :=
  [mkEndpoint "base" "http://localhost:8080" "Base Agent"
     "General-purpose conversational agent for basic queries and assistance"
     ["general conversation"; "basic questions"; "help"; "greetings"; "coordination"];
   mkEndpoint "calculator" "http://localhost:8081" "Calculator Agent"
     "Mathematical calculations, equations, and numerical analysis"
     ["math"; "calculations"; "equations"; "numbers"; "arithmetic"; "algebra";
      "statistics"];
   mkEndpoint "weather" "http://localhost:8082" "Weather Agent"
     "Weather information, forecasts, and climate data"
     ["weather"; "forecast"; "temperature"; "climate"; "rain"; "snow"; "wind"];
   mkEndpoint "research" "http://localhost:8083" "Research Agent"
     "Research assistance, information gathering, and analysis"
     ["research"; "information"; "analysis"; "facts"; "data"; "investigation"];
   mkEndpoint "move_orchestrator" "http://localhost:8004" "Move Orchestrator"
     "Moving and relocation assistance, logistics coordination"
     ["moving"; "relocation"; "logistics"; "coordination"; "planning"; "organization"];
   mkEndpoint "infrastructure_monitor" "http://localhost:8005" "Infrastructure Monitor"
     "System monitoring, infrastructure health, and performance analysis"
     ["monitoring"; "infrastructure"; "system health"; "performance"; "alerts";
      "metrics"]].

(** A question about the weather, its planning prompt, and a JSON library
    cut down to the one value these runs serialise. *)
Definition weather_query : string := "What is the weather in Paris?".

Definition weather_prompt : string :=
  planning_prompt "->" weather_query (_build_agent_descriptions local_endpoints).

Definition canned_dumps (_ : json) : string := "<the fallback plan as JSON>".

Definition canned_decode (_ : string) : Exc json :=
  inr (AzureOpenAIClient.routing_fallback_response weather_prompt).

(** A deployment that cannot be reached. *)
Definition unreachable (log : OrchestratorRuns.Log) (prompt : string) (max_tokens : Z)
  : Exc string * OrchestratorRuns.Log :=
  (inl (mkExn "APIConnectionError" "Connection error."), log).

End Planning.

(** ** [json.dumps], as [AzureOpenAIClient._simple_routing_fallback] calls
       it: default separators, [ensure_ascii] on *)

Module Json.

Definition backslash : string := String (ascii_of_nat 92) EmptyString.

Definition hex_digit (n : nat) : string :=
  match String.get n "0123456789abcdef" with
  | Some c => String c EmptyString
  | None => "0"
  end.

(** One character of a string: the short escapes, [\u00xx] for the other
    characters outside the range from the space to the tilde. *)
Definition escape_char (c : ascii) : string :=
  let n := nat_of_ascii c in
  if (n =? 34)%nat then backslash +:+ dquote
  else if (n =? 92)%nat then backslash +:+ backslash
  else if (n =? 8)%nat then backslash +:+ "b"
  else if (n =? 12)%nat then backslash +:+ "f"
  else if (n =? 10)%nat then backslash +:+ "n"
  else if (n =? 13)%nat then backslash +:+ "r"
  else if (n =? 9)%nat then backslash +:+ "t"
  else if ((n <? 32) || (126 <? n))%nat
  then backslash +:+ "u00" +:+ hex_digit (n / 16) +:+ hex_digit (n mod 16)
  else String c EmptyString.

Fixpoint escape (s : string) : string :=
  match s with
  | EmptyString => EmptyString
  | String c rest => escape_char c +:+ escape rest
  end.

Definition quoted (s : string) : string := dquote +:+ escape s +:+ dquote.

(** [str(z)] *)
Definition str_of_Z (z : Z) : string :=
  match z with
  | Zneg p => "-" +:+ str_of_nat (Pos.to_nat p)
  | _ => str_of_nat (Z.to_nat z)
  end.

Section Dumps.

(** [float.__repr__], which the embedding does not compute. *)
Variable float_repr : Q -> string.

Fixpoint dumps (v : json) : string :=
  match v with
  | JNull => "null"
  | JBool b => if b then "true" else "false"
  | JInt z => str_of_Z z
  | JFloat q => float_repr q
  | JStr s => quoted s
  | JList l => "[" +:+ join ", " (List.map dumps l) +:+ "]"
  | JDict kv =>
      "{" +:+ join ", " (List.map (fun p => quoted (fst p) +:+ ": " +:+ dumps (snd p)) kv)
      +:+ "}"
  end.

End Dumps.

End Json.

(** ** A synthesis with the LLM out of reach *)

Module SynthesisRuns.

Definition float_repr (_ : Q) : string := "<float>".

(** The orchestrator's client on a world that is the log of messages,
    with a deployment that cannot be reached. *)
Definition complete (has_client : bool)
  : OrchestratorRuns.Log -> string -> Z -> Exc string * OrchestratorRuns.Log :=
  AzureOpenAIClient.complete (Json.dumps float_repr) Planning.unreachable has_client.

Definition query : string := "Weather in Paris and 6 * 7".

End SynthesisRuns.

(* ================================================================== *)
(** * Properties *)
(* ================================================================== *)

Section ReliabilityFacts.

Import Reliability.

Lemma should_attempt_reset_true (b : CircuitBreaker) (t now : Q) :
  last_failure_time b = Some t ->
  (recovery_timeout (config b) <= now - t)%Q ->
  _should_attempt_reset b now = true.
Proof.
  intros Hl Hle. unfold _should_attempt_reset. rewrite Hl.
  now apply Qle_bool_iff.
Qed.

Lemma should_attempt_reset_false (b : CircuitBreaker) (t now : Q) :
  last_failure_time b = Some t ->
  (now - t < recovery_timeout (config b))%Q ->
  _should_attempt_reset b now = false.
Proof.
  intros Hl Hlt. unfold _should_attempt_reset. rewrite Hl.
  destruct (Qle_bool _ _) eqn:E; [|reflexivity].
  apply Qle_bool_iff in E. exfalso. exact (Qlt_not_le _ _ Hlt E).
Qed.

Lemma failures_state_closed (times : list Q) (b : CircuitBreaker) :
  state b = CLOSED ->
  (failure_count b + Z.of_nat (List.length times) < failure_threshold (config b))%Z ->
  state (failures times b) = CLOSED /\
  failure_count (failures times b) = (failure_count b + Z.of_nat (List.length times))%Z /\
  config (failures times b) = config b.
Proof.
  revert b. induction times as [|t rest IH]; intros b Hc Hlt.
  - cbn. split; [assumption|]. split; [lia|reflexivity].
  - cbn [failures]. cbn [List.length] in Hlt.
    destruct (IH (_on_failure b t)) as (Hs & Hn & Hcfg).
    + cbn. destruct (Z.leb_spec (failure_threshold (config b)) (failure_count b + 1));
        [lia|assumption].
    + cbn. lia.
    + split; [assumption|]. split; [|exact Hcfg].
      rewrite Hn. cbn. lia.
Qed.

(** C4. An open breaker rejects a call made before [recovery_timeout]
    seconds have passed since [last_failure_time]: the call raises
    [CircuitBreakerOpenException], the breaker and the world are left as
    they were and the wrapped body is not run (the outcome does not depend
    on it). Once [recovery_timeout] has passed the breaker moves to
    [HALF_OPEN], count and failure time unchanged, and the body runs on
    the current world: if it returns, the call returns its value and the
    breaker closes with a count of zero; if it raises a counted
    exception, the call raises it and the breaker, one failure more on
    its count, reopens when the threshold is reached and stays
    [HALF_OPEN] otherwise. *)
Theorem open_breaker_gate
  (A W : Type) (time_time : W -> Q) (b : CircuitBreaker) (t : Q)
  (body : W -> Exc A * W) (w : W) :
  state b = OPEN ->
  last_failure_time b = Some t ->
  ((time_time w - t < recovery_timeout (config b))%Q ->
     call time_time b body w
     = (inl (CircuitBreakerOpenException (name (config b))), b, w)) /\
  ((recovery_timeout (config b) <= time_time w - t)%Q ->
     enter time_time b w
     = inr (mkBreaker (config b) HALF_OPEN (failure_count b) (Some t)) /\
     call time_time b body w
     = leave time_time (mkBreaker (config b) HALF_OPEN (failure_count b) (Some t))
         (fst (body w)) (snd (body w)) /\
     (forall a w1, body w = (inr a, w1) ->
        call time_time b body w = (inr a, mkBreaker (config b) CLOSED 0 (Some t), w1)) /\
     (forall e w1, body w = (inl e, w1) -> expected_exception_types (config b) e = true ->
        call time_time b body w
        = (inl e,
           mkBreaker (config b)
             (if (failure_threshold (config b) <=? failure_count b + 1)%Z
              then OPEN else HALF_OPEN)
             (failure_count b + 1) (Some (time_time w1)),
           w1))).
Proof.
  intros Hopen Hlast. split; intros Hcmp.
  - unfold call, enter. rewrite Hopen.
    now rewrite (should_attempt_reset_false b t _ Hlast Hcmp).
  - assert (He : enter time_time b w
                 = inr (mkBreaker (config b) HALF_OPEN (failure_count b) (Some t))).
    { unfold enter. rewrite Hopen.
      rewrite (should_attempt_reset_true b t _ Hlast Hcmp).
      unfold set_state. now rewrite Hlast. }
    split; [exact He|]. unfold call. rewrite He. split; [now destruct (body w)|].
    split.
    + intros a w1 ->. reflexivity.
    + intros e w1 -> Hexp. cbn [leave config]. rewrite Hexp. reflexivity.
Qed.

(** C5. On a closed breaker a counted failure adds one to
    [failure_count], and the breaker is open afterwards exactly when the
    new count has reached [failure_threshold] (5 by default); a closed
    breaker that takes fewer consecutive counted failures than are needed
    to reach the threshold stays closed. *)
Theorem closed_breaker_failure (b : CircuitBreaker) (now : Q) (times : list Q) :
  state b = CLOSED ->
  failure_count (_on_failure b now) = (failure_count b + 1)%Z /\
  (state (_on_failure b now) = OPEN <->
     (failure_threshold (config b) <= failure_count b + 1)%Z) /\
  (state (_on_failure b now) = CLOSED <->
     (failure_count b + 1 < failure_threshold (config b))%Z) /\
  ((failure_count b + Z.of_nat (List.length times) < failure_threshold (config b))%Z ->
     state (failures times b) = CLOSED) /\
  failure_threshold default_config = 5%Z.
Proof.
  intros Hc. split; [reflexivity|]. cbn.
  destruct (Z.leb_spec (failure_threshold (config b)) (failure_count b + 1)) as [Hle|Hlt].
  - repeat split; try easy; try lia.
    intros Hlt. now apply (failures_state_closed times b).
  - rewrite Hc. repeat split; try easy; try lia.
    intros Hlt'. now apply (failures_state_closed times b).
Qed.

(** C6 (as the code has it). A closed breaker whose [failure_count] is
    [failure_threshold - 1] opens on a failed call that follows directly.
    One or more successful calls first reset [failure_count] to 0, so the
    failed call that follows them leaves [failure_count = 1], and the
    breaker is open afterwards only when [failure_threshold <= 1]. *)
Theorem success_resets_before_failure (b : CircuitBreaker) (n : nat) (now : Q) :
  state b = CLOSED ->
  failure_count b = (failure_threshold (config b) - 1)%Z ->
  state (_on_failure b now) = OPEN /\
  failure_count (_on_failure (successes (S n) b) now) = 1%Z /\
  (state (_on_failure (successes (S n) b) now) = OPEN <->
     (failure_threshold (config b) <= 1)%Z) /\
  ((1 < failure_threshold (config b))%Z ->
     state (_on_failure (successes (S n) b) now) = CLOSED).
Proof.
  intros Hc Hn.
  assert (Hs : forall k b0, state (successes (S k) b0) = CLOSED /\
                            failure_count (successes (S k) b0) = 0%Z /\
                            config (successes (S k) b0) = config b0).
  { induction k as [|k IH]; intros b0; [now cbn|].
    change (successes (S (S k)) b0) with (successes (S k) (_on_success b0)).
    destruct (IH (_on_success b0)) as (H1 & H2 & H3). now rewrite H1, H2, H3. }
  destruct (Hs n b) as (S1 & S2 & S3).
  split.
  - cbn. rewrite Hn.
    destruct (Z.leb_spec (failure_threshold (config b)) (failure_threshold (config b) - 1 + 1));
      [reflexivity|lia].
  - unfold _on_failure; cbn [state failure_count config]. rewrite S1, S2, S3.
    split; [reflexivity|].
    destruct (Z.leb_spec (failure_threshold (config b)) (0 + 1)); split; try split;
      try easy; try lia.
Qed.

End ReliabilityFacts.

Lemma open_breaker_gate_witness :
  Reliability.call fst ReliabilityRuns.opened_at_100 ReliabilityRuns.counting_body (130%Q, O)
  = (inl (Reliability.CircuitBreakerOpenException "default"),
     ReliabilityRuns.opened_at_100, (130%Q, O)) /\
  Reliability.enter fst ReliabilityRuns.opened_at_100 (160%Q, O)
  = inr (Reliability.mkBreaker Reliability.default_config Reliability.HALF_OPEN 5
           (Some 100%Q)) /\
  Reliability.call fst ReliabilityRuns.opened_at_100 ReliabilityRuns.counting_body (160%Q, O)
  = (inr tt, Reliability.mkBreaker Reliability.default_config Reliability.CLOSED 0 (Some 100%Q),
     (160%Q, 1%nat)) /\
  Reliability.call fst ReliabilityRuns.opened_at_100 ReliabilityRuns.failing_body (160%Q, O)
  = (inl ReliabilityRuns.refused,
     Reliability.mkBreaker Reliability.default_config Reliability.OPEN 6 (Some 161%Q),
     (161%Q, 1%nat)).
Proof.
  split; [|split; [|split]].
  - apply (proj1 (open_breaker_gate unit (Q * nat) fst ReliabilityRuns.opened_at_100 100%Q
                    ReliabilityRuns.counting_body (130%Q, O) eq_refl eq_refl)).
    reflexivity.
  - apply (proj1 (proj2 (open_breaker_gate unit (Q * nat) fst ReliabilityRuns.opened_at_100
                           100%Q ReliabilityRuns.counting_body (160%Q, O) eq_refl eq_refl)
                    ltac:(vm_compute; discriminate))).
  - apply (proj1 (proj2 (proj2 (proj2
             (open_breaker_gate unit (Q * nat) fst ReliabilityRuns.opened_at_100 100%Q
                ReliabilityRuns.counting_body (160%Q, O) eq_refl eq_refl)
             ltac:(vm_compute; discriminate)))) tt (160%Q, 1%nat) eq_refl).
  - apply (proj2 (proj2 (proj2 (proj2
             (open_breaker_gate unit (Q * nat) fst ReliabilityRuns.opened_at_100 100%Q
                ReliabilityRuns.failing_body (160%Q, O) eq_refl eq_refl)
             ltac:(vm_compute; discriminate)))) ReliabilityRuns.refused (161%Q, 1%nat)
             eq_refl eq_refl).
Defined.

Lemma closed_breaker_failure_witness :
  Reliability.state
    (Reliability.failures ReliabilityRuns.four_times
       (Reliability.new_breaker Reliability.default_config))
  = Reliability.CLOSED /\
  Reliability.state
    (Reliability._on_failure
       (Reliability.failures ReliabilityRuns.four_times
          (Reliability.new_breaker Reliability.default_config)) 5%Q)
  = Reliability.OPEN.
Proof.
  split.
  - apply (closed_breaker_failure (Reliability.new_breaker Reliability.default_config) 0%Q
             ReliabilityRuns.four_times eq_refl).
    vm_compute. reflexivity.
  - apply (closed_breaker_failure
             (Reliability.failures ReliabilityRuns.four_times
                (Reliability.new_breaker Reliability.default_config))
             5%Q [] eq_refl).
    vm_compute. discriminate.
Defined.

(** C6, as stated, fails on the default configuration: at
    [failure_count = 4 = failure_threshold - 1] a success followed by a
    failure leaves the breaker closed with [failure_count = 1]. *)
Lemma success_then_failure_stays_closed :
  Reliability.state ReliabilityRuns.one_short = Reliability.CLOSED /\
  Reliability.failure_count ReliabilityRuns.one_short
  = (Reliability.failure_threshold (Reliability.config ReliabilityRuns.one_short) - 1)%Z /\
  Reliability.state
    (Reliability._on_failure (Reliability.successes 1 ReliabilityRuns.one_short) 7%Q)
  <> Reliability.OPEN.
Proof. repeat split. vm_compute. discriminate. Qed.

Lemma success_resets_before_failure_witness :
  Reliability.state
    (Reliability._on_failure (Reliability.successes 3 ReliabilityRuns.one_short) 7%Q)
  = Reliability.CLOSED.
Proof.
  apply (success_resets_before_failure ReliabilityRuns.one_short 2%nat 7%Q eq_refl eq_refl).
  vm_compute. reflexivity.
Defined.

Section CalculatorExecutorFacts.

Import CalculatorExecutor.

Lemma consume_queue (its : list Item) (ending : option Exn) (queue : list Event) :
  consume its ending queue
  = (fst (consume its ending []), queue ++ snd (consume its ending [])).
Proof.
  revert queue. induction its as [|item rest IH]; intros queue.
  - cbn. destruct ending; cbn; now rewrite app_nil_r.
  - cbn [consume].
    destruct (negb (is_task_complete item) && negb (require_user_input item)).
    + rewrite IH. rewrite (IH ([] ++ _)). cbn. now rewrite <- app_assoc.
    + destruct (require_user_input item); reflexivity.
Qed.

Lemma consume_in_progress (pre its : list Item) (ending : option Exn) :
  Forall (fun i => in_progress i = true) pre ->
  consume (pre ++ its) ending []
  = (fst (consume its ending []), working_updates pre ++ snd (consume its ending [])).
Proof.
  induction 1 as [|item pre Hi _ IH].
  - cbn. now destruct (consume its ending []).
  - cbn [List.app consume]. unfold in_progress in Hi. rewrite Hi.
    rewrite consume_queue, IH. reflexivity.
Qed.

(** Every stream splits into a run of in-progress items followed either by
    its end or by a first item that stops the loop. *)
Lemma items_split (its : list Item) :
  Forall (fun i => in_progress i = true) its \/
  exists pre item rest,
    its = pre ++ item :: rest /\
    Forall (fun i => in_progress i = true) pre /\ in_progress item = false.
Proof.
  induction its as [|item rest IH].
  - left. constructor.
  - destruct (in_progress item) eqn:E.
    + destruct IH as [IH|(pre & it & rs & -> & Hp & Hi)].
      * left. now constructor.
      * right. exists (item :: pre), it, rs. repeat split; auto.
    + right. exists [], item, rest. repeat split; auto.
Qed.

Lemma task_state_app_status (q : list Event) (st : TaskState) (m : option string) (f : bool) :
  task_state (q ++ [StatusUpdate st m f]) = Some st.
Proof.
  induction q as [|ev q IH]; [reflexivity|].
  cbn. destruct ev; now rewrite IH.
Qed.

Lemma task_state_working (its : list Item) :
  task_state (working_updates its) = None \/
  task_state (working_updates its) = Some working.
Proof.
  induction its as [|i its IH]; [now left|].
  right. cbn [working_updates List.map task_state].
  fold (working_updates its). now destruct IH as [-> | ->].
Qed.

(** C7. The in-progress items before the first stopping item each give one
    [working] update, in order. If that first stopping item requires user
    input, one final [input_required] update follows and the run stops;
    otherwise, when it completes the task, an artifact holding its content
    is added and then the task is marked [completed]. If the generator
    raises, the queue ends with a final [failed] status carrying the error
    message. Whenever a run leaves the task [completed], the queue holds
    an artifact. *)
Theorem streaming_adapter
  (pre rest : list Item) (item : Item) (ending : option Exn) (e : Exn) :
  Forall (fun i => in_progress i = true) pre ->
  (require_user_input item = true ->
     execute (mkStream (pre ++ item :: rest) ending) []
     = (inr tt,
        working_updates pre
        ++ [StatusUpdate input_required (Some (content item)) true])) /\
  (require_user_input item = false -> is_task_complete item = true ->
     execute (mkStream (pre ++ item :: rest) ending) []
     = (inr tt,
        working_updates pre
        ++ [ArtifactAdded "calculation_result" (content item);
            StatusUpdate completed None true])) /\
  (execute (mkStream pre (Some e)) []
   = (inl ServerError_InternalError,
      working_updates pre
      ++ [StatusUpdate failed (Some ("Calculation failed: " +:+ exn_str e)) true]) /\
   task_state (snd (execute (mkStream pre (Some e)) [])) = Some failed) /\
  (forall s : Stream,
     task_state (snd (execute s [])) = Some completed ->
     existsb is_artifact (snd (execute s [])) = true).
Proof.
  intros Hpre. repeat split.
  - intros Hin. unfold execute. cbn [items CalculatorExecutor.ending].
    rewrite (consume_in_progress pre _ _ Hpre). cbn [consume].
    rewrite Hin, andb_false_r. reflexivity.
  - intros Hin Hdone. unfold execute. cbn [items CalculatorExecutor.ending].
    rewrite (consume_in_progress pre _ _ Hpre). cbn [consume].
    rewrite Hin, Hdone. reflexivity.
  - unfold execute. cbn [items CalculatorExecutor.ending].
    rewrite <- (app_nil_r pre) at 1.
    rewrite (consume_in_progress pre [] _ Hpre). cbn. now rewrite app_nil_r.
  - unfold execute. cbn [items CalculatorExecutor.ending].
    rewrite <- (app_nil_r pre) at 1.
    rewrite (consume_in_progress pre [] _ Hpre). cbn. rewrite app_nil_r.
    apply task_state_app_status.
  - intros [its en]. unfold execute. cbn [items CalculatorExecutor.ending].
    destruct (items_split its) as [Hall|(p & it & rs & -> & Hp & Hi)].
    + rewrite <- (app_nil_r its).
      rewrite (consume_in_progress its [] _ Hall).
      destruct en as [ex|]; cbn.
      * rewrite app_nil_r, task_state_app_status. discriminate.
      * rewrite app_nil_r.
        destruct (task_state_working its) as [-> | ->]; discriminate.
    + rewrite (consume_in_progress p _ _ Hp). cbn [consume].
      unfold in_progress in Hi. rewrite Hi.
      destruct (require_user_input it); unfold ret; cbn [fst snd List.app].
      * rewrite task_state_app_status. discriminate.
      * intros _. rewrite existsb_app. cbn. now rewrite orb_true_r.
Qed.

End CalculatorExecutorFacts.

Lemma streaming_adapter_witness :
  CalculatorExecutor.execute CalculatorExecutor.stream_completed []
  = (inr tt,
     [CalculatorExecutor.StatusUpdate CalculatorExecutor.working
        (Some "Analyzing mathematical expression...") false;
      CalculatorExecutor.ArtifactAdded "calculation_result" "15 + 27 = 42";
      CalculatorExecutor.StatusUpdate CalculatorExecutor.completed None true]) /\
  CalculatorExecutor.task_state
    (snd (CalculatorExecutor.execute CalculatorExecutor.stream_raising []))
  = Some CalculatorExecutor.failed.
Proof.
  pose proof (streaming_adapter
                [CalculatorExecutor.mkItem "Analyzing mathematical expression..." false false]
                [] (CalculatorExecutor.mkItem "15 + 27 = 42" true false) None
                (mkExn "RuntimeError" "evaluator crashed")
                ltac:(repeat constructor)) as (_ & Hdone & (_ & Hfail) & _).
  split.
  - exact (Hdone eq_refl eq_refl).
  - exact Hfail.
Defined.

Section SmartRoutingFacts.

Import SmartRouting.

Lemma execute_step_numbered (st : Step) (n : Z) (previous : gmap Z StepResult) :
  step st = Some n ->
  exists r, _execute_step st previous = inr r /\ r_step r = Some n /\
            r_success r = well_addressed st /\
            r_error r <> Some "dependency_failed".
Proof.
  intros Hn. unfold _execute_step, step_body, step_failure, well_addressed, require.
  rewrite Hn. destruct (agent st) as [a|], (query st) as [q|]; cbn.
  - destruct (String.eqb _ "execute_query"); [|destruct (String.eqb _ "aggregate_results")];
      eexists; (split; [reflexivity|]); cbn; repeat split; discriminate.
  - eexists; (split; [reflexivity|]); cbn; repeat split; discriminate.
  - eexists; (split; [reflexivity|]); cbn; repeat split; discriminate.
  - eexists; (split; [reflexivity|]); cbn; repeat split; discriminate.
Qed.

Lemma execute_step_unnumbered (st : Step) (previous : gmap Z StepResult) :
  step st = None -> _execute_step st previous = inl (KeyError "step").
Proof.
  intros Hn. unfold _execute_step, step_body, step_failure, require.
  rewrite Hn. destruct (agent st), (query st); cbn; try reflexivity.
  destruct (String.eqb _ "execute_query"); [reflexivity|].
  destruct (String.eqb _ "aggregate_results"); reflexivity.
Qed.


Lemma ready_steps_inr (sts : list Step) (completed : gset Z) (ready : list Step) :
  ready_steps sts completed = inr ready ->
  Forall numbered sts /\ ready = List.filter (is_ready completed) sts.
Proof.
  revert ready. induction sts as [|st rest IH]; intros ready.
  - cbn. intros [= <-]. split; [constructor|reflexivity].
  - cbn [ready_steps List.filter]. unfold is_ready, require.
    destruct (step st) as [n|] eqn:Hn; [|discriminate]. cbn.
    destruct (bool_decide (n ∈ completed)); cbn.
    + intros H. destruct (IH _ H) as (Hf & ->).
      split; [constructor; [unfold numbered; congruence|assumption]|reflexivity].
    + destruct (forallb _ _).
      * destruct (ready_steps rest completed) as [e|others] eqn:Hr; cbn; [discriminate|].
        intros [= <-]. destruct (IH _ eq_refl) as (Hf & ->).
        split; [constructor; [unfold numbered; congruence|assumption]|reflexivity].
      * intros H. destruct (IH _ H) as (Hf & ->).
        split; [constructor; [unfold numbered; congruence|assumption]|reflexivity].
Qed.

Lemma ready_steps_numbered (sts : list Step) (completed : gset Z) :
  Forall numbered sts ->
  ready_steps sts completed = inr (List.filter (is_ready completed) sts).
Proof.
  induction 1 as [|st rest Hst _ IH]; [reflexivity|].
  cbn [ready_steps List.filter]. unfold is_ready, require.
  destruct (step st) as [n|] eqn:Hn; [|now elim Hst]. cbn.
  destruct (bool_decide (n ∈ completed)); cbn; [exact IH|].
  destruct (forallb _ _); [|exact IH]. now rewrite IH.
Qed.

Lemma ready_steps_unnumbered (sts : list Step) (completed : gset Z) :
  ~ Forall numbered sts ->
  ready_steps sts completed = inl (KeyError "step").
Proof.
  intros Hnot. destruct (ready_steps sts completed) as [e|ready] eqn:E.
  - revert e E. clear Hnot. induction sts as [|st rest IH]; intros e; cbn; [discriminate|].
    unfold require. destruct (step st) as [n|]; cbn; [|now intros [= <-]].
    destruct (bool_decide _); [apply IH|].
    destruct (forallb _ _); [|apply IH].
    destruct (ready_steps rest completed) as [e'|others]; cbn; [|discriminate].
    intros [= <-]. now apply IH.
  - now destruct (ready_steps_inr _ _ _ E).
Qed.

(** A plan with a step that lacks its number makes the first scan of the
    hybrid executor raise. *)
Lemma hybrid_unnumbered_raises (sts : list Step) (fuel : nat) :
  ~ Forall numbered sts ->
  hybrid_loop (S fuel) sts start = Some (inl (KeyError "step")).
Proof.
  intros Hnot. cbn [hybrid_loop]. cbn [completed_steps start].
  rewrite size_empty. destruct sts as [|st rest]; [elim Hnot; constructor|].
  cbn [List.length Nat.ltb Nat.leb].
  now rewrite (ready_steps_unnumbered _ _ Hnot).
Qed.

Lemma is_ready_spec (completed : gset Z) (st : Step) :
  is_ready completed st = true <->
  exists n, step st = Some n /\ (n ∉ completed) /\
            forall d, In d (dependencies_of st) -> d ∈ completed.
Proof.
  unfold is_ready. destruct (step st) as [n|]; split.
  - intros [H1 H2]%andb_true_iff. exists n. split; [reflexivity|]. split.
    + apply negb_true_iff, bool_decide_eq_false in H1. exact H1.
    + intros d Hd. rewrite forallb_forall in H2.
      specialize (H2 d Hd). now apply bool_decide_eq_true in H2.
  - intros (m & [= <-] & H1 & H2). apply andb_true_iff. split.
    + now apply negb_true_iff, bool_decide_eq_false.
    + apply forallb_forall. intros d Hd. apply bool_decide_eq_true. now apply H2.
  - discriminate.
  - intros (m & [=] & _).
Qed.





























End SmartRoutingFacts.


(** On the cyclic plan the executor reports step 1 alone. *)
Lemma cyclic_plan_results :
  option_map (sum_rect (fun _ => list (option Z)) (fun _ => [])
                (List.map SmartRouting.r_step))
    (SmartRouting._execute_hybrid_plan 3 SmartRouting.cyclic_plan)
  = Some [Some 1%Z].
Proof. vm_compute. reflexivity. Qed.




Section OrchestratorFacts.

Import Orchestrator.

Context {W : Type}.
Variable transport : W -> string -> string -> Exc json * W.
Variables uuid4 now_isoformat : W -> string.
Variable repr : json -> string.

Lemma dict_get_set {V : Type} (d : list (string * V)) (k k' : string) (v : V) :
  dict_get k' (dict_set d k v) = if String.eqb k' k then Some v else dict_get k' d.
Proof.
  induction d as [|[k0 v0] rest IH]; cbn; [reflexivity|].
  destruct (String.eqb_spec k k0) as [->|Hk]; cbn.
  - destruct (String.eqb_spec k' k0); reflexivity.
  - rewrite IH. destruct (String.eqb_spec k' k0) as [->|]; [|reflexivity].
    destruct (String.eqb_spec k0 k); [congruence|reflexivity].
Qed.

Lemma dict_set_keys {V : Type} (d : list (string * V)) (k a : string) (v : V) :
  In a (List.map fst (dict_set d k v)) <-> a = k \/ In a (List.map fst d).
Proof.
  induction d as [|[k0 v0] rest IH]; cbn.
  - intuition.
  - destruct (String.eqb_spec k k0) as [->|Hk]; cbn; [intuition|].
    rewrite IH. intuition.
Qed.

Lemma dict_set_NoDup {V : Type} (d : list (string * V)) (k : string) (v : V) :
  NoDup (List.map fst d) -> NoDup (List.map fst (dict_set d k v)).
Proof.
  induction d as [|[k0 v0] rest IH]; cbn.
  - intros _. apply NoDup_cons. split; [apply not_elem_of_nil|constructor].
  - intros [Hnot Hnd]%NoDup_cons.
    destruct (String.eqb_spec k k0) as [->|Hk]; cbn.
    + now apply NoDup_cons.
    + apply NoDup_cons. split; [|now apply IH].
      rewrite list_elem_of_In, dict_set_keys. rewrite list_elem_of_In in Hnot.
      intros [->|H]; [now elim Hk|now elim Hnot].
Qed.

Lemma slice_sliceable (v : json) :
  truthy v = true -> sliceable v = true -> exists x, slice_to 200 v = inr x.
Proof.
  destruct v; cbn; intros Ht Hs; try discriminate;
    try (rewrite Ht in Hs; discriminate); eexists; reflexivity.
Qed.

(** The loop of [_enhance_task_with_context] computes the context lines. *)
Lemma for_each_context (results : Results) (deps : list string) (acc : list string) :
  (forall dep r, In dep deps -> dict_get dep results = Some r -> presentable r = true) ->
  for_each deps acc (add_context_part repr results)
  = inr (acc ++ context_lines repr results deps).
Proof.
  revert acc. induction deps as [|dep rest IH]; intros acc Hpres.
  - cbn. now rewrite app_nil_r.
  - cbn [for_each]. unfold context_lines. cbn [List.filter].
    unfold add_context_part at 1, qualifies at 1.
    destruct (dict_get dep results) as [r|] eqn:Hr.
    + specialize (Hpres dep r (or_introl eq_refl) Hr) as Hp.
      unfold presentable in Hp. unfold get_or.
      destruct (success r); cbn [andb negb orb] in *.
      * destruct (truthy match response r with Some x => x | None => JStr "" end) eqn:Ht.
        -- destruct (slice_sliceable _ Ht Hp) as (x & Hx).
           cbn [List.map]. unfold context_line at 1, excerpt, get_or. rewrite Hr, Hx.
           cbn [bind ret]. rewrite IH by (intros; eapply Hpres; eauto; now right).
           unfold context_lines. now rewrite <- app_assoc.
        -- apply IH. intros; eapply Hpres; eauto; now right.
      * apply IH. intros; eapply Hpres; eauto; now right.
    + apply IH. intros; eapply Hpres; eauto; now right.
Qed.

Lemma context_lines_no_results (deps : list string) :
  context_lines repr [] deps = [].
Proof.
  unfold context_lines. induction deps as [|dep rest IH]; [reflexivity|exact IH].
Qed.

Lemma enhance_spec (task0 : string) (deps : list string) (results : Results) :
  (forall dep r, In dep deps -> dict_get dep results = Some r -> presentable r = true) ->
  _enhance_task_with_context repr task0 deps results
  = inr match context_lines repr results deps with
        | [] => task0
        | lines =>
            task0 +:+ nl +:+ nl +:+ "Context from previous steps:" +:+ nl
            +:+ join nl lines
        end.
Proof.
  intros Hpres. unfold _enhance_task_with_context.
  destruct deps as [|dep rest]; [reflexivity|].
  destruct results as [|ar results]; [now rewrite context_lines_no_results|].
  rewrite (for_each_context _ _ [] Hpres). cbn [List.app bind].
  now destruct (context_lines repr (ar :: results) (dep :: rest)).
Qed.

(** Whatever the network does, [_send_message_async] returns a
    dictionary. *)
Lemma send_async_returns (w : W) (url message : string) (ctx : option string) :
  exists r, fst (_send_message_async transport uuid4 now_isoformat repr w url message ctx)
            = inr r.
Proof.
  unfold _send_message_async. destruct (transport w url message) as [body w1].
  cbn [fst]. unfold try_except.
  destruct (bind body (parse_response repr)); eexists; reflexivity.
Qed.

Lemma send_a2a_returns (w : W) (url message : string) :
  exists r w1, _send_a2a_message transport uuid4 now_isoformat repr w url message
               = (inr r, w1).
Proof.
  unfold _send_a2a_message, send_message, _send_message_async.
  destruct (transport w url message) as [body w1]. unfold guard_send, try_except.
  destruct (bind body (parse_response repr)); do 2 eexists; reflexivity.
Qed.

Lemma parse_response_error (body : json) (r : AgentResult) :
  parse_response repr body = inr r -> success r = false -> error r <> None.
Proof.
  unfold parse_response, bind, ret.
  destruct (contains_str "error" body) as [e|[|]]; [discriminate| |].
  - destruct (getitem_str body "error") as [e|err]; [discriminate|].
    destruct (getitem_str err "message") as [e|m]; [discriminate|].
    intros [= <-] _. discriminate.
  - destruct (extract_content body) as [e|[v|]]; [discriminate| |].
    + destruct (truthy v); intros [= <-]; discriminate.
    + intros [= <-]; discriminate.
Qed.

(** A failed exchange is reported with [success = False] and an error. *)
Lemma send_a2a_failure_has_error (w w1 : W) (url message : string) (r : AgentResult) :
  _send_a2a_message transport uuid4 now_isoformat repr w url message = (inr r, w1) ->
  success r = false -> error r <> None.
Proof.
  unfold _send_a2a_message, send_message, _send_message_async.
  destruct (transport w url message) as [body w2]. unfold guard_send, try_except.
  destruct (bind body (parse_response repr)) as [e|r'] eqn:E.
  - intros [= <- _] _. discriminate.
  - intros [= <- _]. destruct body as [e|b]; [discriminate|].
    now apply (parse_response_error b).
Qed.

(** The sequential branch: under well-typed responses it returns, with one
    entry per agent addressed. *)
Lemma execute_sequential_spec (agent_clients : gmap string string)
  (todo : list ExecutionStep) (results : Results) (w : W) :
  (forall w0 url message r w1,
     _send_a2a_message transport uuid4 now_isoformat repr w0 url message = (inr r, w1) ->
     presentable r = true) ->
  (forall dep r, dict_get dep results = Some r -> presentable r = true) ->
  NoDup (List.map fst results) ->
  exists rs w1,
    execute_sequential transport uuid4 now_isoformat repr agent_clients todo results w
    = (inr rs, w1) /\
    NoDup (List.map fst rs) /\
    (forall a, In a (List.map fst rs) <->
               In a (List.map fst results) \/ In a (List.map agent todo)).
Proof.
  intros Hsend. revert results w. induction todo as [|step rest IH]; intros results w Hres Hnd.
  - exists results, w. cbn. split; [reflexivity|]. split; [exact Hnd|]. intuition.
  - cbn [execute_sequential].
    rewrite (enhance_spec (task step) (dependencies step) results)
      by (intros; eapply Hres; eauto).
    destruct (agent_clients !! agent step) as [url|].
    + match goal with
      | |- context [_send_a2a_message _ _ _ _ w url ?t] =>
          destruct (send_a2a_returns w url t) as (r & w1 & Hr)
      end.
      rewrite Hr.
      destruct (IH (dict_set results (agent step) r) w1) as (rs & w2 & Hrun & Hnd' & Hkeys).
      * intros dep r'. rewrite dict_get_set.
        destruct (String.eqb dep (agent step)); [|apply Hres].
        intros [= <-]. eapply Hsend; eauto.
      * now apply dict_set_NoDup.
      * exists rs, w2. split; [exact Hrun|]. split; [exact Hnd'|].
        intros a. rewrite Hkeys, dict_set_keys. cbn. intuition.
    + destruct (IH (dict_set results (agent step) (agent_not_available (agent step))) w)
        as (rs & w2 & Hrun & Hnd' & Hkeys).
      * intros dep r'. rewrite dict_get_set.
        destruct (String.eqb dep (agent step)); [|apply Hres].
        now intros [= <-].
      * now apply dict_set_NoDup.
      * exists rs, w2. split; [exact Hrun|]. split; [exact Hnd'|].
        intros a. rewrite Hkeys, dict_set_keys. cbn. intuition.
Qed.




Lemma execute_plan_returns (plan : ExecutionPlan) (agent_clients : gmap string string)
  (w : W) :
  (forall w0 url message r w1,
     _send_a2a_message transport uuid4 now_isoformat repr w0 url message = (inr r, w1) ->
     presentable r = true) ->
  exists rs w1,
    execute_plan transport uuid4 now_isoformat repr plan agent_clients w = (inr rs, w1) /\
    (execution_type plan = "sequential" ->
     NoDup (List.map fst rs) /\
     forall a, In a (List.map fst rs) <-> In a (List.map agent (steps plan))).
Proof.
  intros Hsend. unfold execute_plan.
  destruct (String.eqb_spec (execution_type plan) "sequential") as [Hseq|Hseq].
  - destruct (execute_sequential_spec agent_clients (steps plan) [] w Hsend)
      as (rs & w1 & Hrun & Hnd & Hkeys); [discriminate|constructor|].
    exists rs, w1. split; [exact Hrun|]. intros _. split; [exact Hnd|].
    intros a. rewrite Hkeys. cbn. intuition.
  - destruct (String.eqb (execution_type plan) "parallel").
    + destruct (run_tasks transport uuid4 now_isoformat repr agent_clients (steps plan) w)
        as [tasks w1].
      exists (collect_tasks tasks []), w1. split; [reflexivity|]. intros H. now elim Hseq.
    + exists [], w. split; [reflexivity|]. intros H. now elim Hseq.
Qed.

Lemma str_prefix_length (n : nat) (s : string) :
  (String.length (str_prefix n s) <= n)%nat.
Proof.
  unfold str_prefix. revert s. induction n as [|n IH]; intros [|c s]; cbn; try lia.
  specialize (IH s). lia.
Qed.

(** The send path. Whatever happens on the network, the send path
    returns a dictionary: an exception raised by the transport (connection failure,
    HTTP error, undecodable body) becomes a result with [success = False]
    and the text of the exception as [error], and so does an exception
    raised while the body is taken apart; [_send_a2a_message] has a handler of its own for anything its
    client raises, and every failed result it returns has an [error].
    Running a plan therefore raises nothing on account of a failed
    exchange: as long as successful results carry text, [execute_plan]
    returns. *)
Theorem remote_failures_become_results :
  (forall w url message ctx,
     exists r,
       fst (_send_message_async transport uuid4 now_isoformat repr w url message ctx)
       = inr r) /\
  (forall w url message ctx e w1,
     transport w url message = (inl e, w1) ->
     _send_message_async transport uuid4 now_isoformat repr w url message ctx
     = (inr (transport_failure uuid4 now_isoformat e ctx w1), w1) /\
     success (transport_failure uuid4 now_isoformat e ctx w1) = false /\
     error (transport_failure uuid4 now_isoformat e ctx w1) = Some (JStr (exn_str e))) /\
  (forall w url message ctx e,
     bind (fst (transport w url message)) (parse_response repr) = inl e ->
     fst (_send_message_async transport uuid4 now_isoformat repr w url message ctx)
     = inr (transport_failure uuid4 now_isoformat e ctx (snd (transport w url message)))) /\
  (forall outcome e,
     (exists r, guard_send outcome = inr r) /\
     guard_send (inl e) = inr (send_failure e) /\
     success (send_failure e) = false /\
     error (send_failure e) = Some (JStr (exn_str e))) /\
  (forall w url message,
     exists r w1,
       _send_a2a_message transport uuid4 now_isoformat repr w url message = (inr r, w1) /\
       (success r = false -> error r <> None)) /\
  ((forall w0 url message r w1,
      _send_a2a_message transport uuid4 now_isoformat repr w0 url message = (inr r, w1) ->
      presentable r = true) ->
   forall plan agent_clients w,
     exists rs w1,
       execute_plan transport uuid4 now_isoformat repr plan agent_clients w
       = (inr rs, w1)).
Proof.
  split; [|split; [|split; [|split; [|split]]]].
  - intros. apply send_async_returns.
  - intros w url message ctx e w1 Ht. unfold _send_message_async. rewrite Ht.
    now cbn.
  - intros w url message ctx e. unfold _send_message_async.
    destruct (transport w url message) as [body w1]. cbn [fst snd].
    now intros ->.
  - intros outcome e. split; [|now cbn].
    destruct outcome; eexists; reflexivity.
  - intros w url message. destruct (send_a2a_returns w url message) as (r & w1 & Hr).
    exists r, w1. split; [exact Hr|]. now apply (send_a2a_failure_has_error w w1 url message).
  - intros Hsend plan agent_clients w.
    destruct (execute_plan_returns plan agent_clients w Hsend) as (rs & w1 & Hrun & _).
    now exists rs, w1.
Qed.

(** C3 (as the code has it). The task text of a step is extended with a
    context block whose lines come from the step's declared dependencies,
    in their order: one line [dep_result: excerpt] for each dependency
    that has a recorded result which succeeded with a non-empty response,
    the excerpt being the first 200 characters of that response. A step
    that declares no dependencies is sent its task text unchanged,
    whatever its predecessors returned. The text so computed is the one
    the sequential executor sends. *)
Theorem context_from_declared_dependencies
  (task0 : string) (deps : list string) (results : Results) :
  _enhance_task_with_context repr task0 [] results = inr task0 /\
  ((forall dep r, In dep deps -> dict_get dep results = Some r -> presentable r = true) ->
   _enhance_task_with_context repr task0 deps results
   = inr match context_lines repr results deps with
         | [] => task0
         | lines =>
             task0 +:+ nl +:+ nl +:+ "Context from previous steps:" +:+ nl
             +:+ join nl lines
         end) /\
  (forall line, In line (context_lines repr results deps) ->
     exists dep r,
       In dep deps /\ dict_get dep results = Some r /\ success r = true /\
       truthy (get_or "" (response r)) = true /\
       line = dep +:+ "_result: " +:+ excerpt repr (get_or "" (response r))) /\
  (forall text,
     excerpt repr (JStr text) = str_prefix 200 text /\
     (String.length (str_prefix 200 text) <= 200)%nat) /\
  (forall agent_clients step rest w url enhanced,
     _enhance_task_with_context repr (task step) (dependencies step) results
     = inr enhanced ->
     agent_clients !! agent step = Some url ->
     execute_sequential transport uuid4 now_isoformat repr agent_clients
       (step :: rest) results w
     = match _send_a2a_message transport uuid4 now_isoformat repr w url enhanced with
       | (inl e, w1) => (inl e, w1)
       | (inr result, w1) =>
           execute_sequential transport uuid4 now_isoformat repr agent_clients rest
             (dict_set results (agent step) result) w1
       end).
Proof.
  split; [reflexivity|]. split; [apply enhance_spec|]. split; [|split].
  - intros line Hin. unfold context_lines in Hin.
    apply in_map_iff in Hin as (dep & <- & [Hdep Hq]%filter_In).
    unfold qualifies in Hq. unfold context_line.
    destruct (dict_get dep results) as [r|] eqn:Hr; [|discriminate].
    apply andb_true_iff in Hq as [Hs Ht].
    exists dep, r. repeat split; assumption.
  - intros text. split; [reflexivity|apply str_prefix_length].
  - intros agent_clients step rest w url enhanced Henh Hurl.
    cbn [execute_sequential]. rewrite Henh, Hurl.
    now destruct (_send_a2a_message transport uuid4 now_isoformat repr w url enhanced)
      as [[e|result] w1].
Qed.

End OrchestratorFacts.

Section SynthesisFacts.

Import Orchestrator.

Context {W : Type}.
Variable repr : json -> string.
Variable llm_complete : W -> string -> Z -> Exc string * W.

Lemma fold_add_response (results : Results) (acc : list string) :
  fold_left (add_response_part repr) results acc
  = acc ++ List.map (response_entry repr) (successful results).
Proof.
  revert acc. induction results as [|[a r] rest IH]; intros acc; cbn.
  - now rewrite app_nil_r.
  - rewrite IH. unfold successful. cbn.
    destruct (success r); cbn; [now rewrite <- app_assoc|reflexivity].
Qed.

(** The [except] branch of the synthesis, for a client whose [complete]
    raises: when the results are not those of a single agent the
    synthesizer returns the entries [**agent**: text] of the results that
    succeeded, in the order of the results, joined by blank lines; failed
    results are left out, and when nothing succeeded the answer is
    "No successful responses received". *)
Theorem fallback_lists_successful_results
  (query : string) (results : Results) (w w1 : W) (e : Exn) :
  List.length results <> 1%nat ->
  llm_complete w (synthesis_prompt repr query results) 1000%Z = (inl e, w1) ->
  synthesize_response repr llm_complete query results w
  = (inr match List.map (response_entry repr) (successful results) with
         | [] => "No successful responses received"
         | entries => join (nl +:+ nl) entries
         end, w1).
Proof.
  intros Hlen Hllm. unfold synthesize_response.
  destruct results as [|[a0 r0] [|ar rest]]; [|now elim Hlen|].
  - rewrite Hllm. reflexivity.
  - rewrite Hllm. cbn [try_except ret]. unfold fallback_synthesis.
    now rewrite fold_add_response.
Qed.

End SynthesisFacts.

(** In the small world every reply that succeeds carries text. *)
Lemma small_world_presentable
  (w0 : OrchestratorRuns.Log) (url message : string)
  (r : Orchestrator.AgentResult) (w1 : OrchestratorRuns.Log) :
  Orchestrator._send_a2a_message OrchestratorRuns.transport OrchestratorRuns.uuid4
    OrchestratorRuns.now_isoformat OrchestratorRuns.repr w0 url message = (inr r, w1) ->
  Orchestrator.presentable r = true.
Proof.
  unfold Orchestrator._send_a2a_message, Orchestrator.send_message,
    Orchestrator._send_message_async, OrchestratorRuns.transport.
  destruct (String.eqb url "http://research");
    [|destruct (String.eqb url "http://calculator");
      [|destruct (String.eqb url "http://weather")]];
    intros [= <- _]; reflexivity.
Qed.

(** An agent that cannot be reached is reported as a failed result and
    the plan goes on: the step that depends on it is still sent. *)
Lemma unreachable_agent_is_reported :
  match fst (Orchestrator.execute_plan OrchestratorRuns.transport OrchestratorRuns.uuid4
               OrchestratorRuns.now_isoformat OrchestratorRuns.repr
               OrchestratorRuns.unreachable_plan OrchestratorRuns.agent_clients []) with
  | inr rs =>
      (option_map Orchestrator.success (dict_get "base" rs),
       option_map Orchestrator.error (dict_get "base" rs),
       option_map Orchestrator.success (dict_get "calculator" rs))
  | inl _ => (None, None, None)
  end
  = (Some false, Some (Some (JStr "All connection attempts failed")), Some true).
Proof. vm_compute. reflexivity. Qed.

Lemma remote_failures_become_results_witness :
  (exists rs w1,
     Orchestrator.execute_plan OrchestratorRuns.transport OrchestratorRuns.uuid4
       OrchestratorRuns.now_isoformat OrchestratorRuns.repr
       OrchestratorRuns.unreachable_plan OrchestratorRuns.agent_clients []
     = (inr rs, w1)) /\
  Orchestrator.success
    (Orchestrator.transport_failure OrchestratorRuns.uuid4 OrchestratorRuns.now_isoformat
       (mkExn "ConnectError" "All connection attempts failed") None
       [("http://base", "Say hello")]) = false.
Proof.
  split.
  - apply (proj2 (proj2 (proj2 (proj2 (proj2
             (remote_failures_become_results OrchestratorRuns.transport
                OrchestratorRuns.uuid4 OrchestratorRuns.now_isoformat
                OrchestratorRuns.repr)))))).
    exact small_world_presentable.
  - apply (proj1 (proj2
             (remote_failures_become_results OrchestratorRuns.transport
                OrchestratorRuns.uuid4 OrchestratorRuns.now_isoformat
                OrchestratorRuns.repr)) [] "http://base" "Say hello" None).
    reflexivity.
Defined.

Lemma context_from_declared_dependencies_witness :
  Orchestrator._enhance_task_with_context OrchestratorRuns.repr
    "Tell me the weather in Tokyo" ["research"]
    [("research", OrchestratorRuns.ok "Tokyo has 14 million inhabitants")]
  = inr ("Tell me the weather in Tokyo" +:+ nl +:+ nl +:+ "Context from previous steps:"
         +:+ nl +:+ "research_result: Tokyo has 14 million inhabitants").
Proof.
  apply (proj1 (proj2
           (context_from_declared_dependencies OrchestratorRuns.transport
              OrchestratorRuns.uuid4 OrchestratorRuns.now_isoformat OrchestratorRuns.repr
              "Tell me the weather in Tokyo" ["research"]
              [("research", OrchestratorRuns.ok "Tokyo has 14 million inhabitants")]))).
  intros dep r [<-|[]] [= <-]. reflexivity.
Defined.

(** C3, as stated, fails on [undeclared_plan]: the research step
    succeeds, yet the weather step after it, which declares no
    dependencies, is sent its bare task text. *)
Lemma undeclared_dependency_gets_no_context :
  snd (Orchestrator.execute_plan OrchestratorRuns.transport OrchestratorRuns.uuid4
         OrchestratorRuns.now_isoformat OrchestratorRuns.repr
         OrchestratorRuns.undeclared_plan OrchestratorRuns.agent_clients [])
  = [("http://research", "Research the population of Tokyo");
     ("http://weather", "Tell me the weather in Tokyo")] /\
  match fst (Orchestrator.execute_plan OrchestratorRuns.transport OrchestratorRuns.uuid4
               OrchestratorRuns.now_isoformat OrchestratorRuns.repr
               OrchestratorRuns.undeclared_plan OrchestratorRuns.agent_clients []) with
  | inr rs => option_map Orchestrator.success (dict_get "research" rs)
  | inl _ => None
  end = Some true.
Proof. split; vm_compute; reflexivity. Qed.

Lemma fallback_lists_successful_results_witness :
  Orchestrator.synthesize_response OrchestratorRuns.repr OrchestratorRuns.llm_down
    "Weather in Paris and 6 * 7" OrchestratorRuns.mixed_results []
  = (inr "**calculator**: 42", []).
Proof.
  apply (fallback_lists_successful_results OrchestratorRuns.repr OrchestratorRuns.llm_down
           "Weather in Paris and 6 * 7" OrchestratorRuns.mixed_results [] []
           (mkExn "RuntimeError" "LLM unavailable")).
  - vm_compute. discriminate.
  - reflexivity.
Defined.

(** With a client that raises, on [mixed_results]: the weather step
    failed, and the concatenation neither names it nor marks its error. *)
Lemma failed_step_missing_from_fallback :
  fst (Orchestrator.synthesize_response OrchestratorRuns.repr OrchestratorRuns.llm_down
         "Weather in Paris and 6 * 7" OrchestratorRuns.mixed_results [])
  = inr "**calculator**: 42" /\
  is_substring "weather" "**calculator**: 42" = false /\
  option_map Orchestrator.success (dict_get "weather" OrchestratorRuns.mixed_results)
  = Some false.
Proof. repeat split. Qed.




(** The hybrid executor reports in the order of its rounds: on
    [staggered_plan] step 3 is reported before step 2. *)
Lemma hybrid_results_follow_rounds :
  option_map (sum_rect (fun _ => list (option Z)) (fun _ => [])
                (List.map SmartRouting.r_step))
    (SmartRouting._execute_plan 3 SmartRouting.staggered_plan)
  = Some [Some 1%Z; Some 3%Z; Some 2%Z].
Proof. vm_compute. reflexivity. Qed.

(** A body that cannot be taken apart is reported like a failed exchange. *)
Lemma malformed_body_is_a_failure :
  Orchestrator.parse_response OrchestratorRuns.repr (JDict [("error", JStr "boom")])
  = inl (TypeError "string indices must be integers, not 'str'") /\
  Orchestrator.parse_response OrchestratorRuns.repr (JInt 5)
  = inl (TypeError "argument of type 'int' is not iterable").
Proof. split; reflexivity. Qed.

(** A reply that is taken as a success but whose text is not a string is
    not a failed exchange; the plan stops when a later step declares it
    as a dependency, in [_enhance_task_with_context]. *)
Lemma untyped_reply_stops_the_plan :
  fst (Orchestrator.execute_plan OrchestratorRuns.transport_untyped OrchestratorRuns.uuid4
         OrchestratorRuns.now_isoformat OrchestratorRuns.repr
         OrchestratorRuns.declared_plan OrchestratorRuns.agent_clients [])
  = inl (TypeError "'int' object is not subscriptable").
Proof. vm_compute. reflexivity. Qed.

Section BreakerRunFacts.

Import Reliability BreakerRuns.

Lemma kept_success (cfg : CircuitBreakerConfig) (b : CircuitBreaker) :
  kept cfg b -> kept cfg (_on_success b).
Proof.
  intros (Hcfg & _ & _). split; [exact Hcfg|]. split; [cbn; lia|].
  intros H. now elim H.
Qed.

Lemma kept_failure (cfg : CircuitBreakerConfig) (b : CircuitBreaker) (now : Q) :
  kept cfg b -> kept cfg (_on_failure b now).
Proof.
  intros (Hcfg & Hpos & Hopen). split; [exact Hcfg|]. split; [cbn; lia|].
  cbn. rewrite Hcfg.
  destruct (Z.leb_spec (failure_threshold cfg) (failure_count b + 1)) as [Hle|Hlt].
  - intros _. split; [exact Hle|discriminate].
  - intros H. destruct (Hopen H) as (Hthr & _). lia.
Qed.

Lemma kept_half_open (cfg : CircuitBreakerConfig) (b : CircuitBreaker) :
  kept cfg b -> state b = OPEN -> kept cfg (set_state b HALF_OPEN).
Proof.
  intros (Hcfg & Hpos & Hopen) Hs. split; [exact Hcfg|]. split; [exact Hpos|].
  intros _. apply Hopen. rewrite Hs. discriminate.
Qed.

Lemma kept_leave (cfg : CircuitBreakerConfig) (b : CircuitBreaker) (out : Exc unit) (w : Q) :
  kept cfg b -> kept cfg (snd (fst (leave (fun w : Q => w) b out w))).
Proof.
  intros Hb. unfold leave. destruct out as [e|u]; [|now apply kept_success].
  destruct (expected_exception_types (config b) e); [now apply kept_failure|exact Hb].
Qed.

Lemma kept_attempt (cfg : CircuitBreakerConfig) (b : CircuitBreaker) (a : Attempt) :
  kept cfg b -> kept cfg (attempt b a).
Proof.
  intros Hb. unfold attempt, call, enter.
  destruct (state b) eqn:Hs; cbn [ret raise].
  - now apply kept_leave.
  - destruct (_should_attempt_reset b (at_entry a)); [|exact Hb].
    apply kept_leave. now apply kept_half_open.
  - now apply kept_leave.
Qed.

Lemma kept_run (cfg : CircuitBreakerConfig) (attempts : list Attempt) (b : CircuitBreaker) :
  kept cfg b -> kept cfg (run b attempts).
Proof.
  revert b. induction attempts as [|a rest IH]; intros b Hb; [exact Hb|].
  cbn. apply IH. now apply kept_attempt.
Qed.

(** X1. Whatever calls a breaker has seen since it was created, its
    configuration is unchanged, its failure count is not negative, and if
    it is open or half-open then the count has reached the threshold and
    the time of the last failure is recorded. So a half-open breaker
    reopens on the next counted failure, with that failure's time, and
    closes with a count of zero on the next success. *)
Theorem breaker_keeps_its_books (cfg : CircuitBreakerConfig) (attempts : list Attempt) :
  let b := run (new_breaker cfg) attempts in
  config b = cfg /\
  (0 <= failure_count b)%Z /\
  (state b <> CLOSED ->
   (failure_threshold cfg <= failure_count b)%Z /\ last_failure_time b <> None) /\
  (state b = HALF_OPEN ->
   forall now,
     state (_on_failure b now) = OPEN /\
     last_failure_time (_on_failure b now) = Some now /\
     state (_on_success b) = CLOSED /\ failure_count (_on_success b) = 0%Z).
Proof.
  intros b.
  assert (Hk : kept cfg b).
  { apply kept_run. split; [reflexivity|]. split; [cbn; lia|]. intros H. now elim H. }
  destruct Hk as (Hcfg & Hpos & Hopen).
  split; [exact Hcfg|]. split; [exact Hpos|]. split; [exact Hopen|].
  intros Hs now. destruct (Hopen ltac:(congruence)) as (Hthr & _).
  cbn. rewrite Hcfg.
  destruct (Z.leb_spec (failure_threshold cfg) (failure_count b + 1)); [auto|lia].
Qed.

End BreakerRunFacts.
Section HealthFacts.

Import Reliability Health.

Context {W : Type}.
Variable time_time : W -> Q.

Lemma worse_assoc (a b c : HealthStatus) : worse (worse a b) c = worse a (worse b c).
Proof. now destruct a, b, c. Qed.

Lemma check_turn_status (acc : list (string * Dict)) (overall : HealthStatus)
  (check_name : string) (o : CheckOutcome) :
  check_turn acc overall check_name o
  = (Orchestrator.dict_set acc check_name (recorded o), worse overall (reported (recorded o))).
Proof.
  unfold check_turn, recorded, reported.
  destruct (_run_check o) as [e|d]; [now destruct overall|].
  destruct (status_is d "unhealthy"); [now destruct overall|].
  destruct (status_is d "degraded"); now destruct overall.
Qed.

Lemma dict_set_fresh {V : Type} (d : list (string * V)) (k : string) (v : V) :
  ~ In k (List.map fst d) -> Orchestrator.dict_set d k v = d ++ [(k, v)].
Proof.
  induction d as [|[k0 v0] rest IH]; cbn; [reflexivity|].
  intros Hnot. destruct (String.eqb_spec k k0) as [->|Hk]; [elim Hnot; now left|].
  rewrite IH; [reflexivity|]. intros H. apply Hnot. now right.
Qed.

Lemma run_checks_spec (checks : list (string * Check)) (acc : list (string * Dict))
  (overall : HealthStatus) (w : W) :
  snd (fst (run_checks checks acc overall w))
  = worse overall (worst (List.map (fun nd => reported (snd nd)) (outcomes checks w))) /\
  (NoDup (List.map fst acc ++ List.map fst checks) ->
   fst (fst (run_checks checks acc overall w)) = acc ++ outcomes checks w).
Proof.
  revert acc overall w. induction checks as [|[check_name check_func] rest IH];
    intros acc overall w.
  - cbn. split; [now destruct overall|]. intros _. now rewrite app_nil_r.
  - cbn [run_checks outcomes List.map]. destruct (check_func w) as [o w1]. cbn [fst snd].
    rewrite check_turn_status.
    destruct (IH (Orchestrator.dict_set acc check_name (recorded o))
                (worse overall (reported (recorded o))) w1) as (Hst & Hdet).
    split.
    + rewrite Hst. cbn. now rewrite worse_assoc.
    + intros Hnd. apply NoDup_app in Hnd as (Hacc & Hdisj & Hrest).
      apply NoDup_cons in Hrest as (Hfresh & Hrest).
      assert (Hnew : ~ In check_name (List.map fst acc)).
      { intros Hin. apply list_elem_of_In in Hin. apply (Hdisj _ Hin). now left. }
      rewrite (dict_set_fresh acc check_name _ Hnew) in Hdet |- *.
      rewrite Hdet; [now rewrite <- app_assoc|].
      rewrite List.map_app. cbn [List.map fst]. rewrite <- app_assoc. cbn [List.app].
      apply NoDup_app. split; [exact Hacc|]. split; [|now apply NoDup_cons].
      intros x Hx. now apply Hdisj.
Qed.

(** X2. The overall status of [check_health] is the worst of the statuses
    its checks are recorded with: a check that returns a dictionary counts
    by its [status] entry (anything but [unhealthy] and [degraded] counts
    as healthy), a check that returns something else counts as healthy,
    one that raises or does not answer in time as unhealthy. With
    registered names distinct the details list every check once, in
    registration order; without details the status is the same. *)
Theorem health_is_worst_check
  (agent_name : string) (checks : list (string * Check)) (w : W) :
  status (fst (check_health time_time agent_name checks true w))
  = worst (List.map (fun nd => reported (snd nd)) (outcomes checks w)) /\
  (NoDup (List.map fst checks) ->
   details (fst (check_health time_time agent_name checks true w)) = outcomes checks w) /\
  status (fst (check_health time_time agent_name checks false w))
  = status (fst (check_health time_time agent_name checks true w)) /\
  details (fst (check_health time_time agent_name checks false w)) = [] /\
  (forall e v,
     reported (recorded TimedOut) = UNHEALTHY /\
     reported (recorded (Raised e)) = UNHEALTHY /\
     (is_dict v = false -> reported (recorded (Returned v)) = HEALTHY)).
Proof.
  unfold check_health.
  destruct (run_checks_spec checks [] HEALTHY w) as (Hst & Hdet).
  destruct (run_checks checks [] HEALTHY w) as [[check_results overall] w1].
  cbn [fst snd status details] in *.
  split; [rewrite Hst; now destruct (worst _)|].
  split; [intros Hnd; now apply Hdet|].
  split; [reflexivity|]. split; [reflexivity|].
  intros e v. repeat split. now destruct v.
Qed.

Lemma scan_breakers_count (breakers : list (string * CircuitBreaker)) (acc : Dict) (n : nat) :
  snd (scan_breakers breakers acc n) = (n + count_open breakers)%nat.
Proof.
  revert acc n. induction breakers as [|[name0 b] rest IH]; intros acc n.
  - cbn. lia.
  - cbn [scan_breakers]. rewrite IH. unfold count_open. cbn [List.filter snd].
    unfold state_is_open, get_state, is_open. cbn [dict_get String.eqb Ascii.eqb Bool.eqb].
    destruct (state b); cbn; lia.
Qed.

Lemma count_open_all (breakers : list (string * CircuitBreaker)) :
  (count_open breakers <= List.length breakers)%nat /\
  (count_open breakers = List.length breakers <->
   Forall (fun nb => is_open (snd nb) = true) breakers) /\
  (count_open breakers = O <-> Forall (fun nb => is_open (snd nb) = false) breakers).
Proof.
  unfold count_open. induction breakers as [|[name0 b] rest (IH1 & IH2 & IH3)].
  - cbn. repeat split; auto.
  - cbn [List.filter snd List.length]. destruct (is_open b) eqn:E; cbn [List.length].
    + split; [lia|]. split; split.
      * intros H. constructor; [exact E|]. apply IH2. lia.
      * intros H. inversion_clear H. f_equal. now apply IH2.
      * discriminate.
      * intros H. inversion_clear H. cbn in *. congruence.
    + split; [lia|]. split; split.
      * lia.
      * intros H. inversion_clear H. cbn in *. congruence.
      * intros H. constructor; [exact E|]. now apply IH3.
      * intros H. inversion_clear H. now apply IH3.
Qed.

End HealthFacts.

(** X3. [_check_circuit_breakers] reports [healthy] exactly when no
    breaker is open, [unhealthy] exactly when there is a breaker and all
    are open, and [degraded] otherwise; the number of open breakers is
    given under [open_breakers] whenever it is not zero. *)
Theorem breakers_check_status (breakers : list (string * Reliability.CircuitBreaker)) :
  (Health.reported (Health._check_circuit_breakers breakers) = Health.HEALTHY <->
   Forall (fun nb => Health.is_open (snd nb) = false) breakers) /\
  (Health.reported (Health._check_circuit_breakers breakers) = Health.UNHEALTHY <->
   breakers <> [] /\ Forall (fun nb => Health.is_open (snd nb) = true) breakers) /\
  dict_get "open_breakers" (Health._check_circuit_breakers breakers)
  = match Health.count_open breakers with
    | O => None
    | S n => Some (JInt (Z.of_nat (S n)))
    end.
Proof.
  unfold Health._check_circuit_breakers.
  pose proof (scan_breakers_count breakers [] O) as Hcount.
  destruct (Health.scan_breakers breakers [] O) as [states n]. cbn in Hcount. subst n.
  destruct (count_open_all breakers) as (Hle & Hall & Hnone).
  destruct (Health.count_open breakers) as [|k] eqn:Hk.
  - cbn. split; [|split; [|reflexivity]].
    + split; [intros _; now apply Hnone|reflexivity].
    + split; [discriminate|].
      intros [Hne Hopen]. apply Hall in Hopen.
      destruct breakers; [now elim Hne|discriminate].
  - destruct (Nat.ltb_spec (S k) (List.length breakers)) as [Hlt|Hge]; cbn.
    + split; [|split; [|reflexivity]].
      * split; [discriminate|]. intros H. apply Hnone in H. discriminate.
      * split; [discriminate|]. intros [_ H]. apply Hall in H. lia.
    + split; [|split; [|reflexivity]].
      * split; [discriminate|]. intros H. apply Hnone in H. discriminate.
      * split; [|reflexivity]. intros _. split.
        -- intros ->. discriminate.
        -- apply Hall. lia.
Qed.

Lemma health_is_worst_check_witness :
  Health.details
    (fst (Health.check_health (fun w : Q => w) "calculator" Health.three_checks true 0%Q))
  = [("basic_functionality", [("status", JStr "healthy")]);
     ("memory_usage", [("status", JStr "degraded"); ("memory_percent", JInt 80)]);
     ("circuit_breakers",
      [("status", JStr "unhealthy"); ("error", JStr "Health check timeout")])].
Proof.
  apply (proj1 (proj2 (health_is_worst_check (fun w : Q => w) "calculator"
                         Health.three_checks 0%Q))).
  repeat (apply NoDup_cons; split;
          [rewrite list_elem_of_In; cbn; intuition discriminate|]).
  constructor.
Defined.
Section CalculatorRequestFacts.

Import CalculatorExecutor CalculatorRequests.

Lemma working_updates_not_final (its : list Item) :
  forallb (fun ev => negb (is_final ev)) (working_updates its) = true.
Proof. induction its as [|i its IH]; [reflexivity|exact IH]. Qed.

(** The queue of a run: the working updates of the items in progress,
    then at most one of the three endings. *)
Lemma execute_shape (s : Stream) :
  exists pre tail,
    snd (execute s []) = working_updates pre ++ tail /\
    (tail = [] \/
     (exists st m, tail = [StatusUpdate st m true]) \/
     (exists n t m, tail = [ArtifactAdded n t; StatusUpdate completed m true])).
Proof.
  destruct s as [its en]. unfold execute. cbn [items CalculatorExecutor.ending].
  destruct (items_split its) as [Hall|(p & it & rs & -> & Hp & Hi)].
  - pose proof (consume_in_progress its [] en Hall) as Hc.
    rewrite app_nil_r in Hc. rewrite Hc.
    exists its. destruct en as [e|]; cbn; rewrite ?app_nil_r.
    + eexists. split; [reflexivity|]. right. left. now do 2 eexists.
    + exists []. split; [now rewrite app_nil_r|now left].
  - rewrite (consume_in_progress p _ _ Hp). cbn [consume].
    unfold in_progress in Hi. rewrite Hi. exists p.
    destruct (require_user_input it); unfold ret; cbn.
    + eexists. split; [reflexivity|]. right. left. now do 2 eexists.
    + eexists. split; [reflexivity|]. right. right. now do 3 eexists.
Qed.

Lemma final_in_working (its : list Item) (ev : Event) :
  In ev (working_updates its) -> is_final ev = false.
Proof.
  intros Hin. pose proof (working_updates_not_final its) as H.
  rewrite forallb_forall in H. specialize (H ev Hin). now apply negb_true_iff in H.
Qed.

Lemma nothing_after_final_app (q tail : list Event) :
  (forall ev, In ev q -> is_final ev = false) ->
  (forall before ev after,
     tail = before ++ ev :: after -> is_final ev = true -> after = []) ->
  forall before ev after,
    q ++ tail = before ++ ev :: after -> is_final ev = true -> after = [].
Proof.
  intros Hq Htail. induction q as [|x q IH]; [exact Htail|].
  intros [|b before] ev after Heq Hfinal.
  - injection Heq as -> _. rewrite Hq in Hfinal; [discriminate|now left].
  - injection Heq as _ Heq. apply (IH (fun ev' H => Hq ev' (or_intror H)) before ev after Heq Hfinal).
Qed.

(** X4. In every run of the executor's loop a final status is put on the
    queue at most once, and nothing is put on the queue after it. When the
    generator ends without an item that completes the task or asks for
    input, the run returns normally and no final status is emitted at
    all: the task is left working. *)
Theorem final_status_ends_the_queue (s : Stream) :
  (forall before ev after,
     snd (execute s []) = before ++ ev :: after -> is_final ev = true -> after = []) /\
  (Forall (fun i => in_progress i = true) (items s) -> ending s = None ->
   execute s [] = (inr tt, working_updates (items s)) /\
   existsb is_final (snd (execute s [])) = false /\
   task_state (snd (execute s [])) <> Some completed /\
   task_state (snd (execute s [])) <> Some failed /\
   task_state (snd (execute s [])) <> Some input_required).
Proof.
  split.
  - destruct (execute_shape s) as (pre & tail & -> & Htail).
    apply nothing_after_final_app; [apply final_in_working|].
    intros before ev after Heq Hfinal.
    destruct Htail as [->|[(st & m & ->)|(n & t & m & ->)]].
    + now destruct before.
    + destruct before as [|b [|b' before]]; try discriminate.
      now injection Heq as _ <-.
    + destruct before as [|b [|b' [|b'' before]]]; try discriminate.
      * injection Heq as <- _. discriminate.
      * now injection Heq as _ _ <-.
  - destruct s as [its en]. cbn [items CalculatorExecutor.ending]. intros Hall ->.
    unfold execute. cbn [items CalculatorExecutor.ending].
    pose proof (consume_in_progress its [] None Hall) as Hc.
    rewrite app_nil_r in Hc. rewrite Hc.
    cbn. rewrite !app_nil_r. split; [reflexivity|]. split.
    + clear. induction its as [|i its IH]; [reflexivity|exact IH].
    + destruct (task_state_working its) as [-> | ->]; repeat split; discriminate.
Qed.

(** X5. A request without a message, whose input cannot be read, or
    whose input is empty or blank is refused with [InvalidParamsError]
    before anything is put on the event queue and without the agent being
    asked. Otherwise the queue holds the new task, when the request had
    none, followed by the events of the streaming loop for the input. *)
Theorem invalid_request_leaves_no_trace
  (agent_stream : string -> Stream) (context : RequestContext) :
  (has_message context = false \/
   (exists e, get_user_input context = inl e) \/
   (exists text, get_user_input context = inr text /\ strip text = EmptyString) ->
   execute_request agent_stream context = (inl ServerError_InvalidParams, [])) /\
  (forall text,
     has_message context = true -> get_user_input context = inr text ->
     strip text <> EmptyString ->
     execute_request agent_stream context
     = (fst (execute (agent_stream text) []),
        (if has_current_task context then [] else [NewTask])
        ++ List.map Emitted (snd (execute (agent_stream text) [])))).
Proof.
  unfold execute_request, _validate_request. split.
  - intros [Hm|[(e & He)|(text & Ht & Hblank)]].
    + now rewrite Hm.
    + rewrite He. now destruct (has_message context).
    + rewrite Ht. destruct (has_message context); [|reflexivity]. cbn.
      rewrite Hblank. cbn. now rewrite orb_true_r.
  - intros text Hm Ht Hblank. rewrite Hm, Ht. cbn.
    assert (Hne : nonempty (strip text) = true) by (destruct (strip text); [now elim Hblank|reflexivity]).
    assert (Hne' : nonempty text = true).
    { destruct text; [now elim Hblank|reflexivity]. }
    rewrite Hne, Hne'. cbn. now destruct (execute (agent_stream text) []).
Qed.

(** X6. Whatever [_perform_calculation] does, the calculator's task
    never ends as failed: one working update is followed either by the
    result as an artifact and the completed status, when the calculation
    reports [completed], or by a final input-required status carrying the
    message; an error status and an exception both end that way. *)
Theorem calculation_errors_ask_for_input (calculation : Exc ResponseFormat) :
  execute (stream calculation) []
  = (inr tt,
     StatusUpdate working (Some "Analyzing mathematical expression...") false
     :: match calculation with
        | inr result =>
            if String.eqb (status result) "completed"
            then [ArtifactAdded "calculation_result" (message result);
                  StatusUpdate completed None true]
            else [StatusUpdate input_required (Some (message result)) true]
        | inl e =>
            [StatusUpdate input_required
               (Some ("An error occurred during calculation: " +:+ exn_str e)) true]
        end) /\
  task_state (snd (execute (stream calculation) [])) <> Some failed /\
  (task_state (snd (execute (stream calculation) [])) = Some completed <->
   exists result, calculation = inr result /\ status result = "completed").
Proof.
  assert (Hrun : execute (stream calculation) []
    = (inr tt,
       StatusUpdate working (Some "Analyzing mathematical expression...") false
       :: match calculation with
          | inr result =>
              if String.eqb (status result) "completed"
              then [ArtifactAdded "calculation_result" (message result);
                    StatusUpdate completed None true]
              else [StatusUpdate input_required (Some (message result)) true]
          | inl e =>
              [StatusUpdate input_required
                 (Some ("An error occurred during calculation: " +:+ exn_str e)) true]
          end)).
  { destruct calculation as [e|result]; [reflexivity|].
    unfold stream.
    destruct (String.eqb (status result) "completed"); [reflexivity|].
    now destruct (String.eqb (status result) "input_required"). }
  split; [exact Hrun|]. rewrite Hrun. cbn [snd].
  destruct calculation as [e|result]; cbn.
  - split; [discriminate|]. split; [discriminate|]. intros (r & [=] & _).
  - destruct (String.eqb_spec (status result) "completed") as [Hc|Hc]; cbn.
    + split; [discriminate|]. split; [|reflexivity]. intros _. now exists result.
    + split; [discriminate|]. split; [discriminate|].
      intros (r & [= <-] & Hr). now elim Hc.
Qed.

End CalculatorRequestFacts.

Lemma final_status_ends_the_queue_witness :
  CalculatorExecutor.execute
    (CalculatorExecutor.mkStream
       [CalculatorExecutor.mkItem "Analyzing mathematical expression..." false false] None) []
  = (inr tt,
     [CalculatorExecutor.StatusUpdate CalculatorExecutor.working
        (Some "Analyzing mathematical expression...") false]).
Proof.
  apply (proj2 (final_status_ends_the_queue
                  (CalculatorExecutor.mkStream
                     [CalculatorExecutor.mkItem "Analyzing mathematical expression..."
                        false false] None))).
  - repeat constructor.
  - reflexivity.
Defined.

Lemma invalid_request_leaves_no_trace_witness :
  CalculatorRequests.execute_request
    (fun _ => CalculatorExecutor.stream_completed)
    (CalculatorRequests.mkContext true (inr "   ") false)
  = (inl CalculatorRequests.ServerError_InvalidParams, []) /\
  CalculatorRequests.execute_request
    (fun _ => CalculatorExecutor.stream_completed)
    (CalculatorRequests.mkContext true (inr "15 + 27") false)
  = (inr tt,
     [CalculatorRequests.NewTask;
      CalculatorRequests.Emitted
        (CalculatorExecutor.StatusUpdate CalculatorExecutor.working
           (Some "Analyzing mathematical expression...") false);
      CalculatorRequests.Emitted
        (CalculatorExecutor.ArtifactAdded "calculation_result" "15 + 27 = 42");
      CalculatorRequests.Emitted
        (CalculatorExecutor.StatusUpdate CalculatorExecutor.completed None true)]).
Proof.
  split.
  - apply (proj1 (invalid_request_leaves_no_trace
                    (fun _ => CalculatorExecutor.stream_completed)
                    (CalculatorRequests.mkContext true (inr "   ") false))).
    right. right. exists "   ". split; reflexivity.
  - apply (proj2 (invalid_request_leaves_no_trace
                    (fun _ => CalculatorExecutor.stream_completed)
                    (CalculatorRequests.mkContext true (inr "15 + 27") false))
             "15 + 27" eq_refl eq_refl).
    discriminate.
Defined.
Section PlannerFacts.

Import SmartRouting Planner.

Lemma fallback_analysis_fields (query0 : string) :
  qa_query (_fallback_analysis query0) = query0 /\
  (exists a, suggested_agents (_fallback_analysis query0) = [a] /\
             In a ["calculator"; "weather"; "research"; "base"]) /\
  complexity (_fallback_analysis query0)
  = (if requires_multiple_agents (_fallback_analysis query0) then "complex" else "simple").
Proof.
  unfold _fallback_analysis.
  repeat match goal with
         | |- context [if mentions ?ws ?q then _ else _] => destruct (mentions ws q)
         end; cbn; (split; [reflexivity|]); (split; [|reflexivity]);
    eexists; (split; [reflexivity|]); cbn; tauto.
Qed.

Lemma simple_plan_runs (analysis : QueryAnalysis) :
  _execute_plan 1 (_create_simple_plan analysis)
  = Some (inr [mkResult (Some 1%Z) (Some (first_agent analysis))
                 (Some (qa_query analysis)) None
                 (Some (_simulate_agent_execution (first_agent analysis)
                          (qa_query analysis)))
                 true None (Some 2%Q)]).
Proof. reflexivity. Qed.

(** X7. When the analysis call to the LLM fails and the planning call
    fails too, every query is still answered: it gets the single-step
    sequential plan for one of [calculator], [weather], [research] and
    [base], that step's result is the only result, the execution counts
    as a success and is appended to the history. A query the heuristics
    themselves mark as needing several agents is treated the same way,
    because they never suggest more than one agent. *)
Theorem offline_queries_get_one_step
  (query0 : string) (e e' : Exn) (started finished : Q)
  (execution_history : list ExecutionResult) :
  let analysis := _fallback_analysis query0 in
  let execution_result :=
    mkExecution query0 (_create_simple_plan analysis)
      [mkResult (Some 1%Z) (Some (first_agent analysis)) (Some query0) None
         (Some (_simulate_agent_execution (first_agent analysis) query0))
         true None (Some 2%Q)]
      true (finished - started)%Q [] in
  smart_execute query0 (inl e) (fun _ => inl e') started finished execution_history
  = Some (execution_result, execution_history ++ [execution_result]) /\
  In (first_agent analysis) ["calculator"; "weather"; "research"; "base"].
Proof.
  intros analysis execution_result.
  destruct (fallback_analysis_fields query0) as (Hq & (a & Ha & Hin) & Hc).
  fold analysis in Hq, Ha, Hc.
  assert (Hfirst : first_agent analysis = a) by (unfold first_agent; now rewrite Ha).
  split; [|now rewrite Hfirst].
  assert (Hplan : create_execution_plan analysis (fun _ => inl e')
                  = inr (_create_simple_plan analysis)).
  { unfold create_execution_plan. rewrite Hc.
    destruct (requires_multiple_agents analysis) eqn:Hm; [|reflexivity].
    cbn. unfold _create_fallback_plan. now rewrite Hm, Ha. }
  unfold smart_execute, analyze_query. cbn [try_except bind ret].
  fold analysis. rewrite Hplan.
  change (List.length (steps (_create_simple_plan analysis))) with 1%nat.
  rewrite simple_plan_runs.
  subst execution_result. now rewrite Hq.
Qed.

End PlannerFacts.
Section HistoryFacts.

Import SmartRouting Planner.

Lemma last_items_positive {A : Type} (limit : Z) (l : list A) :
  (0 < limit)%Z ->
  last_items limit l = skipn (List.length l - Z.to_nat limit) l.
Proof.
  intros Hpos. unfold last_items.
  destruct (Z.ltb_spec (- limit) 0) as [_|H]; [|lia].
  f_equal. lia.
Qed.

Lemma last_items_not_positive {A : Type} (limit : Z) (l : list A) :
  (limit <= 0)%Z -> last_items limit l = skipn (Z.to_nat (- limit)) l.
Proof.
  intros Hle. unfold last_items.
  destruct (Z.ltb_spec (- limit) 0) as [H|_]; [lia|].
  destruct (Z.le_gt_cases (- limit) (Z.of_nat (List.length l))) as [Hin|Hout].
  - now rewrite Z.min_l.
  - rewrite Z.min_r, Nat2Z.id by lia.
    rewrite !skipn_all2; [reflexivity|lia|lia].
Qed.

(** X8. [get_recent_results] with a positive limit summarises the last
    [limit] executions, oldest first, or all of them when the history is
    shorter. With the limit 0 it returns the summaries of the whole
    history, not none, and with a negative limit it leaves out the first
    [-limit] executions. *)
Theorem recent_results_window (limit : Z) (execution_history : list ExecutionResult) :
  ((0 < limit)%Z ->
   get_recent_results limit execution_history
   = List.map summary
       (skipn (List.length execution_history - Z.to_nat limit) execution_history) /\
   List.length (get_recent_results limit execution_history)
   = Nat.min (Z.to_nat limit) (List.length execution_history)) /\
  (limit = 0%Z ->
   get_recent_results limit execution_history = List.map summary execution_history) /\
  ((limit < 0)%Z ->
   get_recent_results limit execution_history
   = List.map summary (skipn (Z.to_nat (- limit)) execution_history)).
Proof.
  assert (Hrecent : get_recent_results limit execution_history
                    = List.map summary (last_items limit execution_history)).
  { unfold get_recent_results. destruct execution_history; [|reflexivity].
    unfold last_items. now rewrite skipn_nil. }
  rewrite Hrecent. split; [|split].
  - intros Hpos. rewrite last_items_positive by assumption.
    split; [reflexivity|]. rewrite length_map, length_skipn. lia.
  - intros ->. now rewrite last_items_not_positive.
  - intros Hneg. rewrite last_items_not_positive by lia. reflexivity.
Qed.

Lemma filter_all_length {A : Type} (f : A -> bool) (l : list A) :
  List.length (List.filter f l) = List.length l <-> forallb f l = true.
Proof.
  induction l as [|x l IH]; [easy|].
  cbn. pose proof (filter_length_le f l) as Hle.
  destruct (f x); cbn.
  - rewrite <- IH. lia.
  - split; [lia|discriminate].
Qed.

End HistoryFacts.
Section FallbackPlanFacts.

Import SmartRouting Planner PlannerRuns.

Lemma sequential_unnumbered_raises (sts : list Step) (p : Progress) :
  Exists (fun st => step st = None) sts ->
  for_each sts p sequential_turn = inl (KeyError "step").
Proof.
  revert p. induction sts as [|st rest IH]; intros p Hex.
  - inversion Hex.
  - cbn [for_each]. destruct (step st) as [n|] eqn:Hn.
    + destruct (execute_step_numbered st n (step_results p) Hn) as (r & Hr & _).
      unfold sequential_turn. rewrite Hr, Hn. cbn.
      apply IH. inversion Hex as [? ? H|? ? H]; subst; [congruence|exact H].
    + unfold sequential_turn.
      now rewrite (execute_step_unnumbered st (step_results p) Hn).
Qed.

(** X10. A plan written by the LLM in which some step has no ["step"]
    key, run as a [sequential] or [hybrid] plan, makes the whole
    execution fail: the result has no results and no steps, is marked
    unsuccessful with the single error ['step'], and is not appended to
    the history, whatever the steps before the unnumbered one did. *)
Theorem unnumbered_step_fails_whole_execution
  (query0 : string) (analysis : QueryAnalysis) (plan : ExecutionPlan)
  (started finished : Q) (execution_history : list ExecutionResult) :
  complexity analysis <> "simple" ->
  requires_multiple_agents analysis = true ->
  execution_type plan = "sequential" \/ execution_type plan = "hybrid" ->
  Exists (fun st => step st = None) (steps plan) ->
  smart_execute query0 (inr analysis) (fun _ => inr plan) started finished
    execution_history
  = Some (mkExecution query0 (mkPlan query0 [] "sequential" 0 0) [] false
            (finished - started)%Q ["'step'"],
          execution_history).
Proof.
  intros Hc Hm Htype Hex.
  unfold smart_execute, analyze_query. cbn [try_except bind].
  unfold create_execution_plan.
  destruct (String.eqb_spec (complexity analysis) "simple") as [H|_]; [now elim Hc|].
  rewrite Hm. cbn [_create_multi_agent_plan try_except].
  unfold _execute_plan. destruct Htype as [-> | ->]; cbn [String.eqb Ascii.eqb Bool.eqb].
  - now rewrite (sequential_unnumbered_raises _ _ Hex).
  - cbn. unfold _execute_hybrid_plan.
    destruct (steps plan) as [|st rest] eqn:Hs; [inversion Hex|].
    cbn [List.length]. rewrite hybrid_unnumbered_raises; [reflexivity|].
    intros Hall. apply Exists_exists in Hex as (x & Hin & Hx).
    rewrite Forall_forall in Hall. now apply (Hall x Hin).
Qed.

Lemma agent_steps_numbered (i : nat) (agents : list string) (query0 : string) :
  Forall numbered (agent_steps i agents query0).
Proof.
  revert i. induction agents as [|a rest IH]; intros i; constructor; [easy|apply IH].
Qed.

Lemma agent_steps_length (i : nat) (agents : list string) (query0 : string) :
  List.length (agent_steps i agents query0) = List.length agents.
Proof. revert i. induction agents as [|a rest IH]; intros i; cbn; [|rewrite IH]; reflexivity. Qed.

Lemma agent_reports_length (i : nat) (agents : list string) (query0 : string) :
  List.length (agent_reports i agents query0) = List.length agents.
Proof. revert i. induction agents as [|a rest IH]; intros i; cbn; [|rewrite IH]; reflexivity. Qed.

Lemma agent_reports_successful (i : nat) (agents : list string) (query0 : string) :
  List.filter r_success (agent_reports i agents query0) = agent_reports i agents query0.
Proof. revert i. induction agents as [|a rest IH]; intros i; cbn; [|rewrite IH]; reflexivity. Qed.

(** The agent steps none of which is completed are all ready. *)
Lemma agent_steps_ready (C : gset Z) (i : nat) (agents : list string) (query0 : string) :
  (forall k, k ∈ C -> (k <= Z.of_nat i)%Z) ->
  List.filter (is_ready C) (agent_steps i agents query0) = agent_steps i agents query0.
Proof.
  revert i. induction agents as [|a rest IH]; intros i HC; [reflexivity|].
  cbn [agent_steps List.filter].
  assert (Hr : is_ready C (mkStep (Some (Z.of_nat i + 1)%Z) (Some "execute_query") (Some a)
                             (Some query0) None (Some 3%Q)) = true).
  { apply is_ready_spec. eexists. split; [reflexivity|]. split.
    - intros Hin. apply HC in Hin. lia.
    - intros d []. }
  rewrite Hr. f_equal. apply IH. intros k Hk. apply HC in Hk. lia.
Qed.

(** The agent steps that are all completed are not picked again. *)
Lemma agent_steps_done (C : gset Z) (i : nat) (agents : list string) (query0 : string) :
  (forall j, (j < List.length agents)%nat -> Z.of_nat (S i + j) ∈ C) ->
  List.filter (is_ready C) (agent_steps i agents query0) = [].
Proof.
  revert i. induction agents as [|a rest IH]; intros i HC; [reflexivity|].
  cbn [agent_steps List.filter].
  assert (Hr : is_ready C (mkStep (Some (Z.of_nat i + 1)%Z) (Some "execute_query") (Some a)
                             (Some query0) None (Some 3%Q)) = false).
  { destruct (is_ready C _) eqn:E; [|reflexivity].
    apply is_ready_spec in E as (n & [= <-] & Hn & _). exfalso. apply Hn.
    specialize (HC 0%nat). cbn [List.length] in HC.
    replace (Z.of_nat i + 1)%Z with (Z.of_nat (S i + 0)) by lia. apply HC. lia. }
  rewrite Hr. apply IH. intros j Hj.
  replace (S (S i) + j)%nat with (S i + S j)%nat by lia. apply HC. cbn. lia.
Qed.

(** The round that gathers the agent steps. *)
Lemma gather_agent_steps (previous : gmap Z StepResult) (i : nat) (agents : list string)
  (query0 : string) (acc : Progress) :
  exists p',
    for_each (List.map (fun st => (st, _execute_step st previous))
                (agent_steps i agents query0)) acc
      (fun a t => record a (fst t) (gathered (snd t))) = inr p' /\
    results p' = results acc ++ agent_reports i agents query0 /\
    completed_steps p'
    = list_to_set (List.map Z.of_nat (List.seq (S i) (List.length agents)))
      ∪ completed_steps acc /\
    (forall k, (k <= Z.of_nat i)%Z -> step_results p' !! k = step_results acc !! k) /\
    (forall j, (j < List.length agents)%nat ->
       step_results p' !! Z.of_nat (S i + j) = agent_reports i agents query0 !! j).
Proof.
  revert i acc. induction agents as [|a rest IH]; intros i acc.
  - exists acc. cbn. split; [reflexivity|]. split; [now rewrite app_nil_r|].
    split; [now rewrite union_empty_l_L|]. split; [reflexivity|]. intros j Hj. lia.
  - cbn [agent_steps List.map for_each fst snd].
    set (r := mkResult (Some (Z.of_nat i + 1)%Z) (Some a) (Some query0) None
                (Some (_simulate_agent_execution a query0)) true None (Some 3%Q)).
    assert (Hrun : _execute_step
                     (mkStep (Some (Z.of_nat i + 1)%Z) (Some "execute_query") (Some a)
                        (Some query0) None (Some 3%Q)) previous = inr r) by reflexivity.
    rewrite Hrun. cbn [gathered record step require bind ret].
    unfold record. cbn [step require bind ret].
    destruct (IH (S i) (mkProgress (results acc ++ [r])
                          (<[(Z.of_nat i + 1)%Z := r]> (step_results acc))
                          ({[(Z.of_nat i + 1)%Z]} ∪ completed_steps acc)))
      as (p' & Hfor & Hres & Hdone & Hold & Hnew).
    exists p'. cbn in Hfor. split; [exact Hfor|].
    cbn [results step_results completed_steps] in Hres, Hdone, Hold.
    split; [rewrite Hres, <- app_assoc; reflexivity|].
    split.
    { rewrite Hdone. cbn [List.length List.seq List.map].
      rewrite list_to_set_cons.
      replace (Z.of_nat (S i)) with (Z.of_nat i + 1)%Z by lia.
      apply set_eq. intros x. rewrite !elem_of_union. tauto. }
    split.
    { intros k Hk. rewrite Hold by lia. apply lookup_insert_ne. lia. }
    intros [|j] Hj.
    + rewrite Hold by lia. cbn [agent_reports].
      replace (Z.of_nat (S i + 0)) with (Z.of_nat i + 1)%Z by lia.
      now rewrite lookup_insert_eq.
    + replace (S i + S j)%nat with (S (S i) + j)%nat by lia.
      rewrite Hnew by (cbn in Hj; lia). reflexivity.
Qed.

Lemma omap_lookup_seq {A : Type} (m : gmap Z A) (l : list A) (s : nat) :
  (forall j, (j < List.length l)%nat -> m !! Z.of_nat (s + j) = l !! j) ->
  omap (fun k => m !! k) (List.map Z.of_nat (List.seq s (List.length l))) = l.
Proof.
  revert s. induction l as [|x l IH]; intros s H; [reflexivity|].
  cbn [List.length List.seq List.map].
  pose proof (H 0%nat) as H0. rewrite Nat.add_0_r in H0. cbn [List.length] in H0.
  specialize (H0 (Nat.lt_0_succ _)). cbn [lookup list_lookup] in H0.
  change (omap (fun k => m !! k) (Z.of_nat s :: List.map Z.of_nat (List.seq (S s) (List.length l))))
    with (match m !! Z.of_nat s with
          | Some y => y :: omap (fun k => m !! k)
                             (List.map Z.of_nat (List.seq (S s) (List.length l)))
          | None => omap (fun k => m !! k)
                      (List.map Z.of_nat (List.seq (S s) (List.length l)))
          end).
  rewrite H0. f_equal. apply IH. intros j Hj.
  replace (S s + j)%nat with (s + S j)%nat by lia. apply (H (S j)). cbn. lia.
Qed.

Lemma hybrid_loop_round (fuel : nat) (sts ready : list Step) (p p' : Progress) :
  (size (completed_steps p) < List.length sts)%nat ->
  ready_steps sts (completed_steps p) = inr ready ->
  ready <> [] ->
  run_round ready p = inr p' ->
  hybrid_loop (S fuel) sts p = hybrid_loop fuel sts p'.
Proof.
  intros Hlt Hready Hne Hround. cbn [hybrid_loop].
  apply Nat.ltb_lt in Hlt. rewrite Hlt, Hready.
  destruct ready as [|st more]; [now elim Hne|]. now rewrite Hround.
Qed.

Lemma run_round_several (ready : list Step) (p : Progress) :
  (2 <= List.length ready)%nat ->
  run_round ready p
  = for_each (List.map (fun st => (st, _execute_step st (step_results p))) ready) p
      (fun acc t => record acc (fst t) (gathered (snd t))).
Proof. destruct ready as [|s1 [|s2 more]]; cbn [List.length]; [lia|lia|reflexivity]. Qed.

Lemma hybrid_loop_done (fuel : nat) (sts : list Step) (p : Progress) :
  size (completed_steps p) = List.length sts ->
  hybrid_loop fuel sts p = Some (inr (results p)).
Proof.
  intros H. destruct fuel; cbn [hybrid_loop]; rewrite H, Nat.ltb_irrefl; reflexivity.
Qed.

Lemma size_first_numbers (n : nat) :
  size (list_to_set (List.map Z.of_nat (List.seq 1 n)) : gset Z) = n.
Proof.
  rewrite size_list_to_set.
  - now rewrite length_map, length_seq.
  - apply NoDup_fmap_2; [intros x y; apply Nat2Z.inj|apply NoDup_seq].
Qed.

Lemma first_numbers_elem (n : nat) (k : Z) :
  k ∈ (list_to_set (List.map Z.of_nat (List.seq 1 n)) : gset Z)
  <-> (1 <= k <= Z.of_nat n)%Z.
Proof.
  rewrite elem_of_list_to_set, list_elem_of_In, in_map_iff. split.
  - intros (j & <- & Hj). apply in_seq in Hj. lia.
  - intros Hk. exists (Z.to_nat k). split; [lia|]. apply in_seq. lia.
Qed.

Lemma fallback_plan_runs (agents : list string) (query0 : string) :
  (2 <= List.length agents)%nat ->
  let steps0 := agent_steps 0 agents query0 in
  let aggregation :=
    mkStep (Some (Z.of_nat (List.length steps0) + 1)%Z) (Some "aggregate_results")
      (Some "base") (Some "Aggregate and synthesize results")
      (Some (range_from_1 (List.length agents))) (Some 2%Q) in
  let reports := agent_reports 0 agents query0 in
  hybrid_loop (List.length (steps0 ++ [aggregation])) (steps0 ++ [aggregation]) start
  = Some (inr (reports ++ [aggregation_report reports])).
Proof.
  intros Hlen steps0 aggregation reports.
  set (n := List.length agents) in *.
  assert (Hl0 : List.length steps0 = n) by apply agent_steps_length.
  assert (Hlr : List.length reports = n) by apply agent_reports_length.
  assert (Hls : List.length (steps0 ++ [aggregation]) = S (S (n - 1))).
  { rewrite length_app, Hl0. cbn. lia. }
  assert (Hnum : Forall numbered (steps0 ++ [aggregation])).
  { apply Forall_app. split; [apply agent_steps_numbered|]. now repeat constructor. }
  rewrite Hls at 1.
  destruct (gather_agent_steps (step_results start) 0 agents query0 start)
    as (p1 & Hfor & Hres & Hdone & _ & Hnew).
  fold steps0 in Hfor. fold n in Hdone. fold reports in Hres, Hnew.
  cbn [results completed_steps start List.app] in Hres, Hdone.
  rewrite union_empty_r_L in Hdone.
  (* first turn: the agent steps *)
  rewrite (hybrid_loop_round _ _ steps0 start p1).
  2:{ rewrite Hls. cbn. rewrite size_empty. lia. }
  2:{ rewrite (ready_steps_numbered _ _ Hnum). f_equal.
      rewrite List.filter_app. unfold steps0 at 1.
      rewrite agent_steps_ready by (intros k Hk; cbn in Hk; now apply not_elem_of_empty in Hk).
      fold steps0. cbn [List.filter].
      assert (Hr : is_ready (completed_steps start) aggregation = false).
      { destruct (is_ready _ aggregation) eqn:E; [|reflexivity].
        apply is_ready_spec in E as (m & _ & _ & Hdeps). exfalso.
        specialize (Hdeps 1%Z). cbn in Hdeps.
        assert (Hin : In 1%Z (range_from_1 n)).
        { unfold range_from_1. apply in_map_iff. exists 1%nat. split; [reflexivity|].
          apply in_seq. lia. }
        specialize (Hdeps Hin). now apply not_elem_of_empty in Hdeps. }
      rewrite Hr. apply app_nil_r. }
  2:{ intros H. rewrite H in Hl0. cbn in Hl0. lia. }
  2:{ rewrite run_round_several by lia. exact Hfor. }
  (* second turn: the aggregation step *)
  assert (Hdeps : omap (fun s => step_results p1 !! s) (range_from_1 n) = reports).
  { unfold range_from_1. rewrite <- Hlr. apply omap_lookup_seq.
    intros j Hj. apply Hnew. lia. }
  rewrite (hybrid_loop_round _ _ [aggregation] p1
             (mkProgress (results p1 ++ [aggregation_report reports])
                (<[(Z.of_nat n + 1)%Z := aggregation_report reports]> (step_results p1))
                ({[(Z.of_nat n + 1)%Z]} ∪ completed_steps p1))).
  2:{ rewrite Hls, Hdone, size_first_numbers. lia. }
  2:{ rewrite (ready_steps_numbered _ _ Hnum). f_equal.
      rewrite List.filter_app. unfold steps0 at 1.
      rewrite agent_steps_done.
      2:{ intros j Hj. rewrite Hdone. apply first_numbers_elem. fold n in Hj. lia. }
      cbn [List.filter List.app].
      assert (Hr : is_ready (completed_steps p1) aggregation = true).
      { apply is_ready_spec. eexists. split; [reflexivity|]. split.
        - rewrite Hdone, first_numbers_elem, Hl0. lia.
        - intros d Hd. cbn in Hd. rewrite Hdone. apply first_numbers_elem.
          unfold range_from_1 in Hd. apply in_map_iff in Hd as (j & <- & Hj).
          apply in_seq in Hj. lia. }
      now rewrite Hr. }
  2:{ discriminate. }
  2:{ unfold run_round, _execute_step, step_body, aggregation.
      cbn [agent query action step require bind ret try_except String.eqb Ascii.eqb
           Bool.eqb dependencies_of depends_on default_duration expected_duration].
      rewrite Hdeps. unfold record. cbn [step require bind ret].
      unfold aggregation_report. now rewrite Hl0, Hlr. }
  rewrite hybrid_loop_done.
  - cbn [results]. now rewrite Hres.
  - cbn [completed_steps]. rewrite Hls, size_union, size_singleton, Hdone,
      size_first_numbers by (rewrite Hdone; intros k Hk1 Hk2;
                             apply elem_of_singleton in Hk1; subst k;
                             apply first_numbers_elem in Hk2; lia).
    lia.
Qed.

(** X11. When the analysis asks for several agents and names at least
    two, and the planning call to the LLM fails, the execution runs the
    fallback plan to its end: every suggested agent is asked the whole
    query, in the order suggested, then the aggregation step reports the
    combination of all their answers, one line per agent. The execution
    counts as a success and is appended to the history. *)
Theorem fallback_plan_aggregates_every_agent
  (query0 : string) (analysis : QueryAnalysis) (e : Exn) (started finished : Q)
  (execution_history : list ExecutionResult) :
  complexity analysis <> "simple" ->
  requires_multiple_agents analysis = true ->
  (2 <= List.length (suggested_agents analysis))%nat ->
  let reports := agent_reports 0 (suggested_agents analysis) (qa_query analysis) in
  let execution_result :=
    mkExecution query0 (_create_fallback_plan analysis)
      (reports ++ [aggregation_report reports]) true (finished - started)%Q [] in
  smart_execute query0 (inr analysis) (fun _ => inl e) started finished execution_history
  = Some (execution_result, execution_history ++ [execution_result]) /\
  _aggregate_results reports
  = strip (aggregate_lines 1 reports ("Combined results:" +:+ nl)) /\
  List.map r_agent reports = List.map Some (suggested_agents analysis).
Proof.
  intros Hc Hm Hlen reports execution_result.
  assert (Hplan : _create_fallback_plan analysis
                  = mkPlan (qa_query analysis)
                      (agent_steps 0 (suggested_agents analysis) (qa_query analysis)
                       ++ [mkStep
                             (Some (Z.of_nat (List.length
                                      (agent_steps 0 (suggested_agents analysis)
                                         (qa_query analysis))) + 1)%Z)
                             (Some "aggregate_results") (Some "base")
                             (Some "Aggregate and synthesize results")
                             (Some (range_from_1 (List.length (suggested_agents analysis))))
                             (Some 2%Q)])
                      "hybrid" 5 (6 # 10)).
  { unfold _create_fallback_plan. rewrite Hm.
    destruct (Nat.ltb_spec 1 (List.length (suggested_agents analysis))) as [_|H]; [|lia].
    reflexivity. }
  assert (Hrun : _execute_plan (List.length (steps (_create_fallback_plan analysis)))
                   (_create_fallback_plan analysis)
                 = Some (inr (reports ++ [aggregation_report reports]))).
  { rewrite Hplan. unfold _execute_plan, _execute_hybrid_plan.
    cbn [execution_type steps String.eqb Ascii.eqb Bool.eqb].
    apply (fallback_plan_runs (suggested_agents analysis) (qa_query analysis) Hlen). }
  split; [|split].
  - unfold smart_execute, analyze_query. cbn [try_except bind].
    unfold create_execution_plan.
    destruct (String.eqb_spec (complexity analysis) "simple") as [H|_]; [now elim Hc|].
    rewrite Hm. cbn [_create_multi_agent_plan try_except ret].
    rewrite Hrun. subst execution_result.
    rewrite forallb_app. cbn [forallb aggregation_report r_success andb].
    replace (forallb r_success reports) with true; [reflexivity|].
    symmetry. apply filter_all_length. unfold reports.
    now rewrite agent_reports_successful.
  - unfold _aggregate_results. subst reports.
    rewrite agent_reports_successful.
    destruct (suggested_agents analysis) as [|a rest]; [cbn in Hlen; lia|reflexivity].
  - subst reports. clear. generalize 0%nat.
    induction (suggested_agents analysis) as [|a rest IH]; intros i; [reflexivity|].
    cbn [agent_reports List.map r_agent]. now rewrite IH.
Qed.

End FallbackPlanFacts.
Section RoutingFacts.

Import Orchestrator Routing.

Context {W : Type}.
Variable transport : W -> string -> string -> Exc json * W.
Variable uuid4 : W -> string.
Variable now_isoformat : W -> string.
Variable repr : json -> string.

Lemma send_logged (w : W) (log : list (string * string)) (url message : string) :
  exists r w1,
    _send_a2a_message (logged transport) (on_world uuid4) (on_world now_isoformat) repr (w, log) url message
    = (inr r, (w1, log ++ [(url, message)])).
Proof.
  unfold _send_a2a_message, send_message, _send_message_async, logged.
  cbn [fst snd]. destruct (transport w url message) as [body w1].
  unfold guard_send, try_except.
  destruct (bind body (parse_response repr)) as [e|r]; eauto.
Qed.

Lemma run_tasks_logged (agent_clients : gmap string string) (todo : list ExecutionStep)
  (w : W) (log : list (string * string)) :
  exists tasks w1,
    run_tasks (logged transport) (on_world uuid4) (on_world now_isoformat) repr agent_clients todo (w, log)
    = (tasks,
       (w1, log ++ List.map (bare_message agent_clients)
                     (List.filter (eligible agent_clients) todo))) /\
    List.map fst tasks = List.map agent (List.filter (eligible agent_clients) todo).
Proof.
  revert w log. induction todo as [|step rest IH]; intros w log.
  - exists [], w. cbn. now rewrite app_nil_r.
  - cbn [run_tasks List.filter].
    destruct (eligible agent_clients step) eqn:He; unfold eligible in He;
      destruct (dependencies step) as [|d ds] eqn:Hd; try discriminate;
      destruct (agent_clients !! agent step) as [url|] eqn:Hc; try discriminate;
      try apply IH.
    destruct (send_logged w log url (task step)) as (r & w1 & Hsend).
    rewrite Hsend.
    destruct (IH w1 (log ++ [(url, task step)])) as (tasks & w2 & Hrun & Hkeys).
    rewrite Hrun. exists ((agent step, inr r) :: tasks), w2. split.
    + assert (Hb : bare_message agent_clients step = (url, task step)).
      { unfold bare_message. now rewrite Hc. }
      cbn [List.map]. rewrite Hb, <- app_assoc. reflexivity.
    + cbn [List.map fst]. now rewrite Hkeys.
Qed.

Lemma collect_tasks_keys (tasks : list (string * Exc AgentResult)) (results : Results) :
  NoDup (List.map fst results) ->
  NoDup (List.map fst (collect_tasks tasks results)) /\
  forall a, In a (List.map fst (collect_tasks tasks results))
            <-> In a (List.map fst results) \/ In a (List.map fst tasks).
Proof.
  revert results. induction tasks as [|[agent_name outcome] rest IH]; intros results Hnd.
  - cbn. split; [exact Hnd|]. tauto.
  - cbn [collect_tasks]. set (result := match outcome with inr r => r | inl _ => _ end).
    destruct (IH (dict_set results agent_name result)) as (Hnd' & Hkeys).
    { now apply dict_set_NoDup. }
    split; [exact Hnd'|]. intros a. rewrite Hkeys, dict_set_keys. cbn [List.map fst In].
    intuition auto.
Qed.

(** X12. A [parallel] plan sends exactly the steps that declare no
    dependency and whose agent has a client, each with its bare task, in
    plan order, and returns one entry per agent of such a step. A step
    with dependencies or with an unknown agent is skipped without any
    entry, and the call does not raise. A plan whose execution type is
    neither [sequential] nor [parallel], such as the [hybrid] the
    planning prompt offers, sends nothing and returns no entry. *)
Theorem parallel_plan_sends_bare_tasks
  (plan : ExecutionPlan) (agent_clients : gmap string string) (w : W)
  (log : list (string * string)) :
  (execution_type plan = "parallel" ->
   exists rs w1,
     execute_plan (logged transport) (on_world uuid4) (on_world now_isoformat) repr plan
       agent_clients (w, log)
     = (inr rs,
        (w1, log ++ List.map (bare_message agent_clients)
                      (List.filter (eligible agent_clients) (steps plan)))) /\
     NoDup (List.map fst rs) /\
     forall a, In a (List.map fst rs)
               <-> exists step, In step (steps plan) /\
                                eligible agent_clients step = true /\ agent step = a) /\
  (execution_type plan <> "sequential" -> execution_type plan <> "parallel" ->
   execute_plan (logged transport) (on_world uuid4) (on_world now_isoformat) repr plan
     agent_clients (w, log)
   = (inr [], (w, log))).
Proof.
  split.
  - intros Htype. unfold execute_plan. rewrite Htype. cbn [String.eqb Ascii.eqb Bool.eqb].
    destruct (run_tasks_logged agent_clients (steps plan) w log)
      as (tasks & w1 & Hrun & Hkeys).
    rewrite Hrun. exists (collect_tasks tasks []), w1.
    destruct (collect_tasks_keys tasks []) as (Hnd & Hin); [constructor|].
    split; [reflexivity|]. split; [exact Hnd|].
    intros a. rewrite Hin, Hkeys. cbn [List.map In]. rewrite in_map_iff. split.
    + intros [[]|(step & Ha & Hs)]. apply filter_In in Hs as [Hs He]. eauto.
    + intros (step & Hs & He & Ha). right. exists step. split; [exact Ha|].
      apply filter_In. auto.
  - intros Hs Hp. unfold execute_plan.
    destruct (String.eqb_spec (execution_type plan) "sequential") as [H|_]; [now elim Hs|].
    destruct (String.eqb_spec (execution_type plan) "parallel") as [H|_]; [now elim Hp|].
    reflexivity.
Qed.

Lemma collect_sound_parts (parts : list json) (texts : list string) :
  forallb sound_part parts = true ->
  for_each parts texts (fun acc part =>
    bind (is_text_part "kind" part) (fun textual =>
      if textual : bool then
        bind (getitem_str part "text") (fun raw =>
          bind (strip_of raw) (fun text =>
            if nonempty text then ret (acc ++ [text]) else ret acc))
      else ret acc))
  = inr (texts ++ List.filter nonempty (List.map strip (omap part_text parts))).
Proof.
  revert texts. induction parts as [|part rest IH]; intros texts Hs.
  - cbn. now rewrite app_nil_r.
  - cbn [forallb] in Hs. apply andb_true_iff in Hs as [Hp Hrest].
    cbn [for_each].
    destruct part as [| | | | |l|kv]; try discriminate.
    unfold sound_part in Hp. unfold is_text_part, contains_str, getitem_str.
    change (omap part_text (JDict kv :: rest))
      with (match part_text (JDict kv) with
            | Some t => t :: omap part_text rest
            | None => omap part_text rest
            end).
    unfold part_text.
    destruct (dict_get "kind" kv) as [kind|]; cbn [and_then ret bind].
    2:{ now apply IH. }
    destruct (dict_get "text" kv) as [text|].
    2:{ destruct (eq_str kind "text"); cbn [and_then ret bind]; now apply IH. }
    destruct (eq_str kind "text"); cbn [and_then ret bind negb orb] in *.
    2:{ destruct text; now apply IH. }
    destruct text as [| | | |s| |]; try discriminate.
    cbn [strip_of ret bind List.map List.filter].
    destruct (nonempty (strip s)); cbn [ret]; rewrite IH by assumption.
    + now rewrite <- app_assoc.
    + reflexivity.
Qed.

Lemma collect_sound_artifact (artifact : json) (parts : list json) (texts : list string) :
  artifact_parts artifact = Some parts ->
  collect_part_texts texts artifact
  = inr (texts ++ List.filter nonempty (List.map strip (omap part_text parts))).
Proof.
  intros Ha. destruct artifact as [| | | | |l|kv]; try discriminate.
  unfold artifact_parts in Ha.
  unfold collect_part_texts, has_parts, contains_str, getitem_str.
  destruct (dict_get "parts" kv) as [v|]; cbn [and_then ret bind].
  2:{ injection Ha as <-. cbn. now rewrite app_nil_r. }
  destruct v as [|b|z|q|s|ps|d].
  1-5, 7: (destruct (truthy _); [discriminate|]; injection Ha as <-;
           cbn; now rewrite app_nil_r).
  destruct (forallb sound_part ps) eqn:Hs; [|discriminate]. injection Ha as <-.
  destruct ps as [|p ps]; [cbn; now rewrite app_nil_r|].
  cbn [truthy iterate ret bind]. now apply collect_sound_parts.
Qed.

Lemma collect_sound_artifacts (artifacts : list json) (texts : list string) :
  Forall (fun a => artifact_parts a <> None) artifacts ->
  for_each artifacts texts collect_part_texts = inr (texts ++ artifact_texts artifacts).
Proof.
  revert texts. induction artifacts as [|a rest IH]; intros texts Hall.
  - cbn. now rewrite app_nil_r.
  - inversion Hall as [|? ? Ha Hrest]; subst.
    destruct (artifact_parts a) as [ps|] eqn:Hps; [|now elim Ha].
    cbn [for_each]. rewrite (collect_sound_artifact a ps texts Hps).
    rewrite (IH _ Hrest). unfold artifact_texts.
    cbn [List.map List.concat]. rewrite Hps.
    rewrite omap_app, List.map_app, List.filter_app, app_assoc. reflexivity.
Qed.

Lemma join_nonempty (sep t : string) (ts : list string) :
  nonempty t = true -> nonempty (join sep (t :: ts)) = true.
Proof.
  intros Ht. unfold join. cbn [String.concat].
  destruct t as [|c t]; [discriminate|]. now destruct ts.
Qed.

Lemma artifact_texts_nonempty (artifacts : list json) (t : string) (ts : list string) :
  artifact_texts artifacts = t :: ts -> nonempty t = true.
Proof.
  intros H. assert (Hin : In t (artifact_texts artifacts)) by (rewrite H; now left).
  unfold artifact_texts in Hin. now apply filter_In in Hin as [_ Hin].
Qed.

(** X13. When a reply carries no [error] and its result is a task whose
    artifacts hold at least one text that is not blank, the call is
    reported as a success whose response is the stripped, non-blank texts
    of the text parts of all artifacts, in order, joined by newlines. The
    status message and the direct parts of the result are then not looked
    at. *)
Theorem artifact_texts_are_the_answer
  (w w1 : W) (url message : string) (top kv : list (string * json))
  (artifacts : list json) :
  transport w url message = (inr (JDict top), w1) ->
  dict_get "error" top = None ->
  dict_get "result" top = Some (JDict kv) ->
  dict_get "artifacts" kv = Some (JList artifacts) ->
  Forall (fun a => artifact_parts a <> None) artifacts ->
  artifact_texts artifacts <> [] ->
  let answer := JStr (join nl (artifact_texts artifacts)) in
  _send_a2a_message transport uuid4 now_isoformat repr w url message
  = (inr (mkResult true None (Some answer) (Some answer) (Some (JDict top)) None None),
     w1).
Proof.
  intros Ht Herr Hres Harts Hsound Hne answer.
  unfold _send_a2a_message, send_message, _send_message_async. rewrite Ht.
  cbn [bind]. unfold parse_response. cbn [contains_str]. rewrite Herr.
  cbn [ret bind]. unfold extract_content. rewrite Hres.
  assert (Hcontent : artifacts_content (JDict kv) = inr (Some answer)).
  { unfold artifacts_content. cbn [contains_str getitem_str]. rewrite Harts.
    cbn [and_then ret bind].
    assert (Htruthy : truthy (JList artifacts) = true).
    { destruct artifacts; [now elim Hne|reflexivity]. }
    rewrite Htruthy. cbn [iterate ret bind].
    rewrite (collect_sound_artifacts artifacts [] Hsound). cbn [List.app bind].
    unfold answer. destruct (artifact_texts artifacts); [now elim Hne|reflexivity]. }
  rewrite Hcontent. cbn [bind].
  assert (Htruthy : truthy answer = true).
  { subst answer. destruct (artifact_texts artifacts) as [|t ts] eqn:Hts; [now elim Hne|].
    cbn [truthy]. apply join_nonempty. exact (artifact_texts_nonempty _ _ _ Hts). }
  unfold status_content, direct_content, falsy. rewrite Htruthy.
  cbn [negb and_then ret bind]. rewrite Htruthy. cbn [negb bind ret].
  rewrite Htruthy. reflexivity.
Qed.

Variable llm_complete : W -> string -> Z -> Exc string * W.

(** X14. The fallback route names one agent out of six and its plan has
    one step, so executing it always returns exactly one entry, for that
    agent: the agent's reply or failure, or the entry saying that the
    agent is not available, for which nothing is sent. The answer to the
    user is then read off that entry, the response or [Error: ...],
    without asking the LLM for a synthesis. *)
Theorem fallback_route_gives_one_answer
  (user_query : string) (agent_clients : gmap string string) (w : W) :
  let a := fallback_agent user_query in
  exists r w1,
    execute_plan transport uuid4 now_isoformat repr (_simple_routing_fallback user_query)
      agent_clients w
    = (inr [(a, r)], w1) /\
    synthesize_response repr llm_complete user_query [(a, r)] w1
    = (inr (if success r
            then as_text repr (get_or "No response available" (response r))
            else "Error: " +:+ format repr (get_or "Unknown error" (error r))),
       w1) /\
    match agent_clients !! a with
    | Some url =>
        _send_a2a_message transport uuid4 now_isoformat repr w url user_query
        = (inr r, w1)
    | None => r = agent_not_available a /\ w1 = w
    end /\
    In a ["calculator"; "weather"; "research"; "move_orchestrator";
          "infrastructure_monitor"; "base"].
Proof.
  intros a. unfold execute_plan, _simple_routing_fallback.
  cbn [execution_type steps String.eqb Ascii.eqb Bool.eqb execute_sequential
       _enhance_task_with_context task dependencies agent ret].
  fold a.
  assert (Hin : In a ["calculator"; "weather"; "research"; "move_orchestrator";
                      "infrastructure_monitor"; "base"]).
  { unfold a, fallback_agent.
    repeat match goal with
           | |- context [if Planner.mentions ?ws ?q then _ else _] =>
               destruct (Planner.mentions ws q)
           end; cbn; tauto. }
  destruct (agent_clients !! a) as [url|] eqn:Hc.
  - destruct (send_a2a_returns transport uuid4 now_isoformat repr w url user_query)
      as (r & w1 & Hsend).
    rewrite Hsend. exists r, w1. cbn [dict_set].
    split; [reflexivity|]. split; [|split; [reflexivity|exact Hin]].
    unfold synthesize_response. now destruct (success r).
  - exists (agent_not_available a), w. cbn [dict_set].
    split; [reflexivity|]. split; [|split; [now split|exact Hin]].
    reflexivity.
Qed.

End RoutingFacts.
Section PlanningFacts.

Import Orchestrator Planning.

Lemma lower_app (a b : string) :
  Planner.lower (a +:+ b) = Planner.lower a +:+ Planner.lower b.
Proof.
  induction a as [|c a IH]; [reflexivity|].
  change (Planner.lower (String c a +:+ b))
    with (String (Planner.lower_char c) (Planner.lower (a +:+ b))).
  now rewrite IH.
Qed.

Lemma prefix_app (needle a b : string) :
  String.prefix needle a = true -> String.prefix needle (a +:+ b) = true.
Proof.
  revert a. induction needle as [|c needle IH]; intros a H.
  - now destruct a, b.
  - destruct a as [|c' a]; [discriminate|].
    change (String c' a +:+ b) with (String c' (a +:+ b)).
    cbn [String.prefix] in *.
    destruct (Ascii.ascii_dec c c'); [now apply IH|discriminate].
Qed.

Lemma is_substring_app_l (needle a b : string) :
  is_substring needle a = true -> is_substring needle (a +:+ b) = true.
Proof.
  induction a as [|c a IH]; intros H.
  - cbn in H. rewrite orb_false_r in H.
    destruct needle; [|discriminate]. now destruct b.
  - cbn [is_substring] in H. apply orb_true_iff in H as [H|H].
    + change (String c a +:+ b) with (String c (a +:+ b)). cbn [is_substring].
      change (String c (a +:+ b)) with (String c a +:+ b).
      now rewrite (prefix_app _ _ b H).
    + change (String c a +:+ b) with (String c (a +:+ b)). cbn [is_substring].
      rewrite (IH H). apply orb_true_r.
Qed.

Lemma is_substring_app_r (needle a b : string) :
  is_substring needle b = true -> is_substring needle (a +:+ b) = true.
Proof.
  intros H. induction a as [|c a IH]; [exact H|].
  change (String c a +:+ b) with (String c (a +:+ b)). cbn [is_substring].
  rewrite IH. apply orb_true_r.
Qed.

Lemma mentions_app_l (words : list string) (a b : string) :
  Planner.mentions words a = true -> Planner.mentions words (a +:+ b) = true.
Proof.
  unfold Planner.mentions. rewrite !existsb_exists.
  intros (word & Hin & H). exists word. split; [exact Hin|now apply is_substring_app_l].
Qed.

Lemma mentions_app_r (words : list string) (a b : string) :
  Planner.mentions words b = true -> Planner.mentions words (a +:+ b) = true.
Proof.
  unfold Planner.mentions. rewrite !existsb_exists.
  intros (word & Hin & H). exists word. split; [exact Hin|now apply is_substring_app_r].
Qed.

(** The planning prompt mentions whatever the agent descriptions
    mention. *)
Lemma planning_prompt_mentions (words : list string)
  (arrow user_query agent_descriptions : string) :
  Planner.mentions words (Planner.lower agent_descriptions) = true ->
  Planner.mentions words
    (Planner.lower (planning_prompt arrow user_query agent_descriptions)) = true.
Proof.
  intros H. unfold planning_prompt.
  repeat first
    [ rewrite (lower_app agent_descriptions); apply mentions_app_l; exact H
    | rewrite lower_app; apply mentions_app_r ].
Qed.

Context {W : Type}.
Variable dumps : json -> string.
Variable chat_completion : W -> string -> Z -> Exc string * W.
Variable decode : string -> Exc json.

(** X15. When the LLM client has no connection, or its request fails,
    [complete] answers the planning prompt with the fallback routing of
    the prompt itself. Provided the JSON of that answer parses back, and
    the agent descriptions mention one of the calculator's keywords (the
    calculator's entry of [AGENT_ENDPOINTS] lists [math]), the plan is
    then a single step for the calculator whose task is the whole
    planning prompt, whatever the user asked. *)
Theorem offline_planning_sends_prompt_to_calculator
  (has_client : bool) (arrow : string) (endpoints : list Endpoint) (w : W)
  (user_query : string) :
  let prompt := planning_prompt arrow user_query (_build_agent_descriptions endpoints) in
  (has_client = true -> exists e, fst (chat_completion w prompt 800%Z) = inl e) ->
  decode (dumps (AzureOpenAIClient.routing_fallback_response prompt))
  = inr (AzureOpenAIClient.routing_fallback_response prompt) ->
  Planner.mentions ["calculate"; "math"; "compute"; "number"]
    (Planner.lower (_build_agent_descriptions endpoints)) = true ->
  fst (create_execution_plan dumps chat_completion decode has_client arrow endpoints w
         user_query)
  = raw_of (mkPlan [mkStep "calculator" prompt []] "sequential").
Proof.
  intros prompt Hdown Hround Hmath.
  assert (Hagent : Routing.fallback_agent prompt = "calculator").
  { unfold Routing.fallback_agent, prompt.
    now rewrite (planning_prompt_mentions _ arrow user_query _ Hmath). }
  assert (Hresp : fst (AzureOpenAIClient.complete dumps chat_completion has_client w
                         prompt 800)
                  = inr (dumps (AzureOpenAIClient.routing_fallback_response prompt))).
  { unfold AzureOpenAIClient.complete. destruct has_client; [|reflexivity].
    destruct (Hdown eq_refl) as (e & He).
    destruct (chat_completion w prompt 800%Z) as [content w1]. cbn in He. now subst. }
  unfold create_execution_plan. fold prompt.
  destruct (AzureOpenAIClient.complete dumps chat_completion has_client w prompt 800)
    as [response w1].
  cbn [fst] in *. subst response. cbn [bind]. unfold read_plan. rewrite Hround.
  unfold AzureOpenAIClient.routing_fallback_response. rewrite Hagent. reflexivity.
Qed.

Variable repr : json -> string.

(** X16. [complete] never raises: when the client has no connection or
    the request fails it returns the fallback routing of the prompt.
    So with this client the synthesis over several results, or over
    none, returns whatever [complete] returned for the synthesis prompt,
    which for an unreachable LLM is the JSON of a routing plan; the
    concatenation of the successful responses is never the answer. *)
Theorem synthesis_answer_is_the_completion
  (has_client : bool) (query : string) (results : Results) (w : W) :
  let llm_complete := AzureOpenAIClient.complete dumps chat_completion has_client in
  let prompt := synthesis_prompt repr query results in
  List.length results <> 1%nat ->
  (exists text, fst (llm_complete w prompt 1000%Z) = inr text) /\
  synthesize_response repr llm_complete query results w = llm_complete w prompt 1000%Z /\
  ((has_client = true -> exists e, fst (chat_completion w prompt 1000%Z) = inl e) ->
   fst (synthesize_response repr llm_complete query results w)
   = inr (dumps (AzureOpenAIClient.routing_fallback_response prompt))).
Proof.
  intros llm_complete prompt Hlen.
  assert (Hreturns : exists text, fst (llm_complete w prompt 1000%Z) = inr text).
  { unfold llm_complete, AzureOpenAIClient.complete.
    destruct has_client; cbn [negb]; [|eauto].
    destruct (chat_completion w prompt 1000%Z) as [[e|text] w1]; cbn; eauto. }
  assert (Hsyn : synthesize_response repr llm_complete query results w
                 = llm_complete w prompt 1000%Z).
  { unfold synthesize_response.
    destruct results as [|[a r] [|r2 rest]]; [|now elim Hlen|]; fold prompt;
      destruct Hreturns as (text & Ht);
      destruct (llm_complete w prompt 1000%Z) as [out w1]; cbn in Ht; now subst. }
  split; [exact Hreturns|]. split; [exact Hsyn|].
  intros Hdown. rewrite Hsyn. unfold llm_complete, AzureOpenAIClient.complete.
  destruct has_client; cbn [negb]; [|reflexivity].
  destruct (Hdown eq_refl) as (e & He).
  destruct (chat_completion w prompt 1000%Z) as [content w1]. cbn in He. now subst.
Qed.

End PlanningFacts.

Lemma offline_planning_sends_prompt_to_calculator_witness :
  fst (Planning.create_execution_plan Planning.canned_dumps Planning.unreachable
         Planning.canned_decode true "->" Planning.local_endpoints [] Planning.weather_query)
  = Planning.raw_of
      (Orchestrator.mkPlan [Orchestrator.mkStep "calculator" Planning.weather_prompt []]
         "sequential").
Proof.
  apply (offline_planning_sends_prompt_to_calculator Planning.canned_dumps
           Planning.unreachable Planning.canned_decode true "->" Planning.local_endpoints
           [] Planning.weather_query).
  - intros _. eexists. reflexivity.
  - reflexivity.
  - vm_compute. reflexivity.
Defined.

Lemma synthesis_answer_is_the_completion_witness :
  Orchestrator.synthesize_response OrchestratorRuns.repr
    (AzureOpenAIClient.complete Planning.canned_dumps Planning.unreachable false)
    "What is 15 + 27 and how is the weather?" OrchestratorRuns.mixed_results []
  = AzureOpenAIClient.complete Planning.canned_dumps Planning.unreachable false []
      (Orchestrator.synthesis_prompt OrchestratorRuns.repr
         "What is 15 + 27 and how is the weather?" OrchestratorRuns.mixed_results) 1000.
Proof.
  apply (proj1 (proj2 (synthesis_answer_is_the_completion Planning.canned_dumps
                         Planning.unreachable OrchestratorRuns.repr false
                         "What is 15 + 27 and how is the weather?"
                         OrchestratorRuns.mixed_results [] ltac:(discriminate)))).
Defined.
Lemma breaker_keeps_its_books_witness :
  (3 <= Reliability.failure_count
          (BreakerRuns.run (Reliability.new_breaker BreakerRuns.llm_config)
             BreakerRuns.three_timeouts_then_retry))%Z /\
  Reliability.last_failure_time
    (BreakerRuns.run (Reliability.new_breaker BreakerRuns.llm_config)
       BreakerRuns.three_timeouts_then_retry) <> None.
Proof.
  apply (proj1 (proj2 (proj2 (breaker_keeps_its_books BreakerRuns.llm_config
                                BreakerRuns.three_timeouts_then_retry)))).
  vm_compute. discriminate.
Defined.

Lemma recent_results_window_witness :
  Planner.get_recent_results 2 PlannerRuns.sample_history
  = List.map Planner.summary (skipn (3 - Z.to_nat 2) PlannerRuns.sample_history) /\
  List.length (Planner.get_recent_results 2 PlannerRuns.sample_history)
  = Nat.min (Z.to_nat 2) 3.
Proof.
  apply (proj1 (recent_results_window 2 PlannerRuns.sample_history)). lia.
Defined.

Lemma unnumbered_step_fails_whole_execution_witness :
  Planner.smart_execute "two things" (inr Planner.three_agents)
    (fun _ => inr Planner.unnumbered_plan) 0 1 PlannerRuns.sample_history
  = Some (Planner.mkExecution "two things"
            (SmartRouting.mkPlan "two things" [] "sequential" 0 0) [] false (1 - 0)%Q
            ["'step'"],
          PlannerRuns.sample_history).
Proof.
  apply (unnumbered_step_fails_whole_execution "two things" Planner.three_agents
           Planner.unnumbered_plan 0 1 PlannerRuns.sample_history).
  - discriminate.
  - reflexivity.
  - left. reflexivity.
  - apply Exists_cons_tl, Exists_cons_hd. reflexivity.
Defined.

Lemma fallback_plan_aggregates_every_agent_witness :
  List.map SmartRouting.r_agent
    (PlannerRuns.agent_reports 0 (Planner.suggested_agents Planner.three_agents)
       (Planner.qa_query Planner.three_agents))
  = [Some "weather"; Some "calculator"; Some "research"].
Proof.
  apply (proj2 (proj2 (fallback_plan_aggregates_every_agent
                         (Planner.qa_query Planner.three_agents) Planner.three_agents
                         (mkExn "APIConnectionError" "Connection error.") 0 1 []
                         ltac:(discriminate) eq_refl ltac:(cbn; lia)))).
Defined.

Lemma parallel_plan_sends_bare_tasks_witness :
  (exists rs w1,
     Orchestrator.execute_plan (Routing.logged OrchestratorRuns.transport)
       (Routing.on_world OrchestratorRuns.uuid4)
       (Routing.on_world OrchestratorRuns.now_isoformat) OrchestratorRuns.repr
       RoutingRuns.parallel_plan OrchestratorRuns.agent_clients ([], [])
     = (inr rs,
        (w1, [] ++ List.map (Routing.bare_message OrchestratorRuns.agent_clients)
                     (List.filter (Routing.eligible OrchestratorRuns.agent_clients)
                        (Orchestrator.steps RoutingRuns.parallel_plan)))) /\
     NoDup (List.map fst rs) /\
     forall a, In a (List.map fst rs)
               <-> exists step, In step (Orchestrator.steps RoutingRuns.parallel_plan) /\
                                Routing.eligible OrchestratorRuns.agent_clients step = true /\
                                Orchestrator.agent step = a) /\
  Orchestrator.execute_plan (Routing.logged OrchestratorRuns.transport)
    (Routing.on_world OrchestratorRuns.uuid4)
    (Routing.on_world OrchestratorRuns.now_isoformat) OrchestratorRuns.repr
    RoutingRuns.hybrid_plan OrchestratorRuns.agent_clients ([], [])
  = (inr [], ([], [])).
Proof.
  split.
  - apply (proj1 (parallel_plan_sends_bare_tasks OrchestratorRuns.transport
                    OrchestratorRuns.uuid4 OrchestratorRuns.now_isoformat
                    OrchestratorRuns.repr RoutingRuns.parallel_plan
                    OrchestratorRuns.agent_clients [] [])).
    reflexivity.
  - apply (proj2 (parallel_plan_sends_bare_tasks OrchestratorRuns.transport
                    OrchestratorRuns.uuid4 OrchestratorRuns.now_isoformat
                    OrchestratorRuns.repr RoutingRuns.hybrid_plan
                    OrchestratorRuns.agent_clients [] [])); discriminate.
Defined.

Lemma artifact_texts_are_the_answer_witness :
  Orchestrator._send_a2a_message OrchestratorRuns.transport OrchestratorRuns.uuid4
    OrchestratorRuns.now_isoformat OrchestratorRuns.repr [] "http://calculator"
    "What is 15 + 27?"
  = (inr (Orchestrator.mkResult true None (Some (JStr "42")) (Some (JStr "42"))
            (Some (OrchestratorRuns.text_task "42")) None None),
     [("http://calculator", "What is 15 + 27?")]).
Proof.
  apply (artifact_texts_are_the_answer OrchestratorRuns.transport OrchestratorRuns.uuid4
           OrchestratorRuns.now_isoformat OrchestratorRuns.repr []
           [("http://calculator", "What is 15 + 27?")] "http://calculator"
           "What is 15 + 27?"
           [("jsonrpc", JStr "2.0"); ("id", JStr "1");
            ("result",
             JDict [("artifacts",
                     JList [JDict [("parts",
                                    JList [JDict [("kind", JStr "text");
                                                  ("text", JStr "42")]])]])])]
           [("artifacts",
             JList [JDict [("parts",
                            JList [JDict [("kind", JStr "text"); ("text", JStr "42")]])]])]
           [JDict [("parts", JList [JDict [("kind", JStr "text"); ("text", JStr "42")]])]]).
  - reflexivity.
  - reflexivity.
  - reflexivity.
  - reflexivity.
  - repeat constructor. discriminate.
  - discriminate.
Defined.

Section SynthesisClientFacts.

Import Orchestrator.

Context {W : Type}.
Variable float_repr : Q -> string.
Variable chat_completion : W -> string -> Z -> Exc string * W.
Variable repr : json -> string.





End SynthesisClientFacts.



(** C9. A reply that breaks the schema is not caught. The research agent
    answers with a status message whose text is the number 5: the send
    path raises nothing and reports a success whose response is that
    number; the next step declares the research agent as a dependency,
    [_enhance_task_with_context] slices the number, and [execute_plan]
    raises [TypeError] before the weather agent is asked. *)
Theorem malformed_reply_aborts_the_plan :
  (exists raw,
     Orchestrator._send_a2a_message OrchestratorRuns.transport_untyped
       OrchestratorRuns.uuid4 OrchestratorRuns.now_isoformat OrchestratorRuns.repr []
       "http://research" "Research the population of Tokyo"
     = (inr (Orchestrator.mkResult true None (Some (JInt 5)) (Some (JInt 5)) (Some raw)
               None None),
        [("http://research", "Research the population of Tokyo")])) /\
  Orchestrator.execute_plan OrchestratorRuns.transport_untyped OrchestratorRuns.uuid4
    OrchestratorRuns.now_isoformat OrchestratorRuns.repr OrchestratorRuns.declared_plan
    OrchestratorRuns.agent_clients []
  = (inl (TypeError "'int' object is not subscriptable"),
     [("http://research", "Research the population of Tokyo")]) /\
  Orchestrator.execute_plan OrchestratorRuns.transport OrchestratorRuns.uuid4
    OrchestratorRuns.now_isoformat OrchestratorRuns.repr OrchestratorRuns.declared_plan
    OrchestratorRuns.agent_clients []
  = (inr [("research",
           Orchestrator.mkResult true None (Some (JStr "Tokyo has 14 million inhabitants"))
             (Some (JStr "Tokyo has 14 million inhabitants"))
             (Some (OrchestratorRuns.text_task "Tokyo has 14 million inhabitants"))
             None None);
          ("weather",
           Orchestrator.mkResult true None (Some (JStr "Sunny, 21 C"))
             (Some (JStr "Sunny, 21 C")) (Some (OrchestratorRuns.text_task "Sunny, 21 C"))
             None None)],
     [("http://research", "Research the population of Tokyo");
      ("http://weather",
       "Tell me the weather in Tokyo" +:+ nl +:+ nl +:+ "Context from previous steps:"
       +:+ nl +:+ "research_result: Tokyo has 14 million inhabitants")]).
Proof.
  split; [eexists; vm_compute; reflexivity|].
  split; vm_compute; reflexivity.
Qed.
